(** * Notification feed: the four sketches of the repository

    The repository holds four server sketches of one notification feed:

    - [Scalable]: [sample-scripts/scalable-notification-service.js]
      (Postgres table, Redis page cache, Redis pub/sub);
    - [Typed]: [sample-scripts/typescript-notification-service.ts]
      (the same design split into [Database], resolvers and [CleanupJob]);
    - [Prisma]: the Prisma resolvers ([resolvers.ts] of [notification-server]);
    - [InMemory]: the in-memory [server.js] with a JS [Map].

    Around them: the sweepers of the JS and of the in-memory sketch
    ([ScalableJob], [InMemoryJob]) and the state that the two clients keep
    ([FrontendApp] for [notification-frontend.js], [Frontend] for the
    paginating [App.jsx]).

    Each sketch is embedded as state-passing code over an explicit world
    (table, cache, subscribers, event log) in a small state-and-exception
    monad.  Time is an explicit argument ([now], in milliseconds since the
    epoch, UTC): it is what [CURRENT_TIMESTAMP], [new Date()] and the Redis
    clock return during the call.  Where the code counts calendar days
    ([setDate]), the time zone of the host is an argument as well. *)

From Stdlib Require Import Ascii.
From stdpp Require Import gmap strings list fin_maps pretty sorting.

Local Open Scope Z_scope.

(** ** JavaScript dates: [Date.prototype.toISOString] and [new Date(string)] *)

Module ISODate.

Definition msPerDay : Z := 86400000.

(** First instant of year 10000; [toISOString] prints four-digit years
    below it (the expanded-year form is outside this model). *)
Definition maxTime : Z := 253402300800000.

Definition valid_time (t : Z) : Prop := 0 ≤ t < maxTime.

(** Proleptic Gregorian calendar, eras of 400 years starting on March 1st. *)
Definition civil_of_doe (doe : Z) : Z * Z * Z :=
  let yoe := (doe - doe / 1460 + doe / 36524 - doe / 146096) / 365 in
  let doy := doe - (365 * yoe + yoe / 4 - yoe / 100) in
  let mp := (5 * doy + 2) / 153 in
  let d := doy - (153 * mp + 2) / 5 + 1 in
  let m := if mp <? 10 then mp + 3 else mp - 9 in
  (yoe, m, d).

Definition doe_of_civil (yoe m d : Z) : Z :=
  let doy := (153 * (if 2 <? m then m - 3 else m + 9) + 2) / 5 + d - 1 in
  yoe * 365 + yoe / 4 - yoe / 100 + doy.

Definition civil_from_days (z : Z) : Z * Z * Z :=
  let z := z + 719468 in
  let era := z / 146097 in
  let '(yoe, m, d) := civil_of_doe (z mod 146097) in
  (yoe + era * 400 + (if m <=? 2 then 1 else 0), m, d).

Definition days_from_civil (y m d : Z) : Z :=
  let y := y - (if m <=? 2 then 1 else 0) in
  (y / 400) * 146097 + doe_of_civil (y mod 400) m d - 719468.

(** The character of a decimal digit, and back; ["0"] has code 48. *)
Definition digit (n : Z) : ascii := ascii_of_N (Z.to_N (48 + n)).

Definition digit_val (c : ascii) : option Z :=
  let n := Z.of_N (N_of_ascii c) - 48 in
  if (0 <=? n) && (n <=? 9) then Some n else None.

Definition show2 (n : Z) (k : string) : string :=
  String (digit (n / 10 mod 10)) (String (digit (n mod 10)) k).

Definition show3 (n : Z) (k : string) : string :=
  String (digit (n / 100 mod 10)) (show2 n k).

Definition show4 (n : Z) (k : string) : string :=
  String (digit (n / 1000 mod 10)) (show3 n k).

(** [date.toISOString()]: [YYYY-MM-DDTHH:mm:ss.sssZ]. *)
Definition toISOString (t : Z) : string :=
  let ms := t mod msPerDay in
  let '(y, m, d) := civil_from_days (t / msPerDay) in
  show4 y $ String "-" $ show2 m $ String "-" $ show2 d $ String "T" $
  show2 (ms / 3600000) $ String ":" $ show2 (ms / 60000 mod 60) $ String ":" $
  show2 (ms / 1000 mod 60) $ String "." $ show3 (ms mod 1000) "Z".

Definition read1 (s : string) : option (Z * string) :=
  match s with
  | String c k => n ← digit_val c; Some (n, k)
  | EmptyString => None
  end.

Definition read2 (s : string) : option (Z * string) :=
  '(a, s) ← read1 s; '(b, s) ← read1 s; Some (10 * a + b, s).

Definition read3 (s : string) : option (Z * string) :=
  '(a, s) ← read1 s; '(b, s) ← read2 s; Some (100 * a + b, s).

Definition read4 (s : string) : option (Z * string) :=
  '(a, s) ← read1 s; '(b, s) ← read3 s; Some (1000 * a + b, s).

Definition expect (c : ascii) (s : string) : option string :=
  match s with
  | String c' k => if Ascii.eqb c c' then Some k else None
  | EmptyString => None
  end.

(** [new Date(s)] on the canonical form printed by [toISOString]; [None]
    is the Invalid Date.  Other spellings that a JS engine may accept are
    not recognised: the feed only ever hands out cursors printed by
    [toISOString]. *)
Definition Date_parse (s : string) : option Z :=
  '(y, s) ← read4 s; s ← expect "-" s;
  '(m, s) ← read2 s; s ← expect "-" s;
  '(d, s) ← read2 s; s ← expect "T" s;
  '(hh, s) ← read2 s; s ← expect ":" s;
  '(mm, s) ← read2 s; s ← expect ":" s;
  '(ss, s) ← read2 s; s ← expect "." s;
  '(ms, s) ← read3 s; s ← expect "Z" s;
  if String.eqb s "" && (1 <=? m) && (m <=? 12) && (1 <=? d) && (d <=? 31)
     && (hh <? 24) && (mm <? 60) && (ss <? 60)
  then Some (days_from_civil y m d * msPerDay
             + hh * 3600000 + mm * 60000 + ss * 1000 + ms)
  else None.

(** The time zone of the host: [LocalTZA(t, isUTC)] of ECMAScript, the
    offset of local time from UTC in milliseconds, at the UTC instant [t]
    when [isUTC] is true and at the local time [t] otherwise. *)
Record TimeZone : Type := mkTimeZone { LocalTZA : Z → bool → Z }.

Definition LocalTime (tz : TimeZone) (t : Z) : Z := t + LocalTZA tz t true.

Definition UTC (tz : TimeZone) (t : Z) : Z := t - LocalTZA tz t false.

(** [date.setDate(date.getDate() - daysOld)] on [date = new Date()] at
    the instant [now]: the same wall-clock time [daysOld] days earlier on
    the local calendar ([MakeDay] with a day of the month below 1 counts
    back into the months before), taken back to UTC. *)
Definition daysAgo (tz : TimeZone) (now daysOld : Z) : Z :=
  UTC tz (LocalTime tz now - daysOld * msPerDay).

(** A host on UTC. *)
Definition utc : TimeZone := mkTimeZone (λ _ _, 0).

End ISODate.

(** ** Redis glob patterns ([KEYS pattern]) *)

Module Glob.

(** Items of a bracket class up to the closing bracket; returns whether
    [c] was hit and the pattern after the class. *)
Fixpoint class_scan (p : string) (c : ascii) (hit : bool) : bool * string :=
  match p with
  | EmptyString => (hit, EmptyString)
  | String x rest =>
      if Ascii.eqb x "]" then (hit, rest)
      else
        match rest with
        | String y rest' =>
            if Ascii.eqb x "\" then class_scan rest' c (hit || Ascii.eqb y c)
            else if Ascii.eqb y "-" then
              match rest' with
              | String hi rest'' =>
                  let a := N.min (N_of_ascii x) (N_of_ascii hi) in
                  let b := N.max (N_of_ascii x) (N_of_ascii hi) in
                  class_scan rest'' c
                    (hit || ((a <=? N_of_ascii c)%N && (N_of_ascii c <=? b)%N))
              | EmptyString => class_scan rest c (hit || Ascii.eqb x c)
              end
            else class_scan rest c (hit || Ascii.eqb x c)
        | EmptyString => (hit || Ascii.eqb x c, EmptyString)
        end
  end.

Fixpoint stringmatch_fuel (fuel : nat) (p s : string) : bool :=
  match fuel with
  | O => false
  | S fuel =>
      match p with
      | EmptyString => String.eqb s ""
      | String pc p' =>
          if Ascii.eqb pc "*" then
            (fix star (s : string) : bool :=
               stringmatch_fuel fuel p' s
               || match s with
                  | EmptyString => false
                  | String _ s' => star s'
                  end) s
          else
            match s with
            | EmptyString => false
            | String sc s' =>
                if Ascii.eqb pc "?" then stringmatch_fuel fuel p' s'
                else if Ascii.eqb pc "[" then
                  let '(neg, body) :=
                    match p' with
                    | String q b => if Ascii.eqb q "^" then (true, b) else (false, p')
                    | EmptyString => (false, p')
                    end in
                  let '(hit, rest) := class_scan body sc false in
                  xorb neg hit && stringmatch_fuel fuel rest s'
                else if Ascii.eqb pc "\" then
                  match p' with
                  | String q p'' => Ascii.eqb q sc && stringmatch_fuel fuel p'' s'
                  | EmptyString => Ascii.eqb pc sc && stringmatch_fuel fuel p' s'
                  end
                else Ascii.eqb pc sc && stringmatch_fuel fuel p' s'
            end
      end
  end.

(** Every step consumes a pattern character, so the pattern length (plus
    one for the final test) is enough fuel. *)
Definition stringmatch (p s : string) : bool :=
  stringmatch_fuel (S (String.length p)) p s.

Definition literal_char (c : ascii) : bool :=
  negb (Ascii.eqb c "*") && negb (Ascii.eqb c "?")
  && negb (Ascii.eqb c "[") && negb (Ascii.eqb c "\").

(** Strings that a glob pattern matches only as themselves. *)
Fixpoint literal (s : string) : bool :=
  match s with
  | EmptyString => true
  | String c k => literal_char c && literal k
  end.

End Glob.

(** ** Results and the state-and-exception monad of a resolver *)

Inductive Error : Type :=
| NotFound        (* Error('Notification not found'), Prisma P2025 *)
| InvalidState    (* Error("Invalid notification state") *)
| TypeError       (* a method called on a value that lacks it *)
| QueryError.     (* the database rejected the statement *)

Inductive Result (A : Type) : Type :=
| Ok (a : A)
| Throw (e : Error).

Arguments Ok {A} a.
Arguments Throw {A} e.

Definition M (W A : Type) : Type := W → Result A * W.

Definition ret {W A} (a : A) : M W A := λ w, (Ok a, w).

Definition bind {W A B} (f : A → M W B) (m : M W A) : M W B :=
  λ w, match m w with
       | (Ok a, w') => f a w'
       | (Throw e, w') => (Throw e, w')
       end.

Definition throw {W A} (e : Error) : M W A := λ w, (Throw e, w).

Definition gets {W A} (f : W → A) : M W A := λ w, (Ok (f w), w).

Definition modify {W} (f : W → W) : M W unit := λ w, (Ok tt, f w).

#[global] Instance M_ret {W} : MRet (M W) := λ A, ret.
#[global] Instance M_bind {W} : MBind (M W) := λ A B, bind.

(** [await Promise.all]-free sequential [array.map] with a callback that
    may throw: the first exception aborts the map. *)
Fixpoint mapM {W A B} (f : A → M W B) (l : list A) : M W (list B) :=
  match l with
  | [] => ret []
  | x :: l => y ← f x; ys ← mapM f l; ret (y :: ys)
  end.

(** [array.slice(0, n)], also for negative [n]. *)
Definition slice0 {A} (n : Z) (l : list A) : list A :=
  if 0 <=? n then take (Z.to_nat n) l
  else take (length l - Z.to_nat (- n))%nat l.

(** JS truthiness of an optional string argument ([cursor || 'latest']). *)
Definition truthy (s : option string) : option string :=
  match s with
  | Some "" => None
  | _ => s
  end.

(** ** The [notifications] table of the Postgres sketches *)

(** [enum NotificationState] of both Postgres sketches and of the
    in-memory one; the column is a [VARCHAR] holding the token. *)
Inductive NotificationState : Type := UNREAD | READ | DISMISSED.

Definition state_name (s : NotificationState) : string :=
  match s with
  | UNREAD => "UNREAD"
  | READ => "READ"
  | DISMISSED => "DISMISSED"
  end.

#[global] Instance NotificationState_eq_dec : EqDecision NotificationState.
Proof. solve_decision. Defined.

Module Pg.

Record Row : Type := mkRow {
  id : Z;                       (* SERIAL PRIMARY KEY *)
  user_id : string;
  message : string;
  state : NotificationState;    (* state_check *)
  created_at : Z                (* DEFAULT CURRENT_TIMESTAMP *)
}.

#[global] Instance Row_eq_dec : EqDecision Row.
Proof. solve_decision. Defined.

Definition with_state (st : NotificationState) (r : Row) : Row :=
  mkRow (id r) (user_id r) (message r) st (created_at r).

(** Values bound to [$1], [$2], ...; a JS [Date] that is invalid is sent
    as a text no timestamp column accepts. *)
Inductive SqlValue : Type :=
| SqlText (s : string)
| SqlInt (n : Z)
| SqlTimestamp (t : option Z).

Inductive Operand : Type :=
| Lit (v : SqlValue)
| Placeholder (n : nat).

(** [SELECT * FROM notifications WHERE user_id = _ AND state != _
     [AND created_at < _] ORDER BY created_at DESC LIMIT _]. *)
Record Select : Type := mkSelect {
  where_user_id : Operand;
  where_state_ne : Operand;
  where_created_before : option Operand;
  order_limit : Operand
}.

Definition operand (params : list SqlValue) (o : Operand) : option SqlValue :=
  match o with
  | Lit v => Some v
  | Placeholder O => None
  | Placeholder (S k) => params !! k
  end.

Definition as_text (v : SqlValue) : option string :=
  match v with SqlText s => Some s | _ => None end.

Definition as_int (v : SqlValue) : option Z :=
  match v with SqlInt n => Some n | _ => None end.

Definition as_timestamp (v : SqlValue) : option Z :=
  match v with SqlTimestamp t => t | _ => None end.

(** [ORDER BY created_at DESC]: insertion sort; among equal timestamps
    the row met later in the table comes first. *)
Fixpoint insert_desc (r : Row) (l : list Row) : list Row :=
  match l with
  | [] => [r]
  | y :: l' => if created_at y <? created_at r then r :: l
               else y :: insert_desc r l'
  end.

Definition order_desc (l : list Row) : list Row := foldr insert_desc [] l.

(** The order of a descending feed: no row is followed by a newer one. *)
Definition newer_first (a b : Row) : Prop := created_at b ≤ created_at a.

Definition matches (u st : string) (before : option Z) (r : Row) : bool :=
  String.eqb (user_id r) u
  && negb (String.eqb (state_name (state r)) st)
  && match before with
     | Some t => created_at r <? t
     | None => true
     end.

(** The rows of [u] whose state is not [st], created before [before] if
    it is given, newest first. *)
Definition ordered_matches (u st : string) (before : option Z) (tbl : list Row)
  : list Row :=
  order_desc (List.filter (matches u st before) tbl).

(** [None]: the statement is rejected (a placeholder without a value, a
    value of the wrong type, a negative [LIMIT]). *)
Definition select (q : Select) (params : list SqlValue) (tbl : list Row)
  : option (list Row) :=
  u ← operand params (where_user_id q) ≫= as_text;
  st ← operand params (where_state_ne q) ≫= as_text;
  before ← match where_created_before q with
           | None => Some None
           | Some o => Some <$> (operand params o ≫= as_timestamp)
           end;
  lim ← operand params (order_limit q) ≫= as_int;
  if 0 <=? lim
  then Some (take (Z.to_nat lim) (ordered_matches u st before tbl))
  else None.

(** [UPDATE notifications SET state = $1 WHERE id = $2 RETURNING *]:
    the returned rows and the new table.  [i] is the integer that the
    parameter [$2] spells, within the range of the [SERIAL] column; a
    parameter that spells no such integer is not a value of [i].  The
    new version of a row is put where the old one was: the list gives
    the rows of the table and, for rows with the same [created_at], the
    order in which this model lets a [SELECT] return them, which
    PostgreSQL itself does not fix. *)
Definition update_state (st : NotificationState) (i : Z) (tbl : list Row)
  : list Row * list Row :=
  let tbl' := map (λ r, if id r =? i then with_state st r else r) tbl in
  (List.filter (λ r, id r =? i) tbl', tbl').

End Pg.

(** ** The world of a Postgres sketch: table, Redis keys, subscribers *)

Record Entry (V : Type) : Type := mkEntry {
  payload : V;          (* the JSON document stored under the key *)
  expires_at : Z        (* SET key value EX ttl *)
}.

Arguments mkEntry {V} _ _.
Arguments payload {V} _.
Arguments expires_at {V} _.

Record Subscriber (P : Type) : Type := mkSubscriber {
  sub_topic : string;
  inbox : list P
}.

Arguments mkSubscriber {P} _ _.
Arguments sub_topic {P} _.
Arguments inbox {P} _.

Inductive Event (P : Type) : Type :=
| PgSelect (params : list Pg.SqlValue)
| PgInsert (r : Pg.Row)
| PgUpdate (i : Z) (st : NotificationState)
| PgDelete (cutoff : Z) (limit : Z)
| RedisGet (key : string)
| RedisSet (key : string) (ttl : Z)
| RedisKeys (pattern : string)
| RedisDel (keys : list string)
| Publish (topic : string) (p : P)
| Delay (ms : Z).

Arguments PgSelect {P} _.
Arguments PgInsert {P} _.
Arguments PgUpdate {P} _ _.
Arguments PgDelete {P} _ _.
Arguments RedisGet {P} _.
Arguments RedisSet {P} _ _.
Arguments RedisKeys {P} _.
Arguments RedisDel {P} _.
Arguments Publish {P} _ _.
Arguments Delay {P} _.

Record World (V P : Type) : Type := mkWorld {
  table : list Pg.Row;
  next_id : Z;                          (* the SERIAL sequence *)
  redis : gmap string (Entry V);
  subscribers : list (Subscriber P);
  log : list (Event P)
}.

Arguments mkWorld {V P} _ _ _ _ _.
Arguments table {V P} _.
Arguments next_id {V P} _.
Arguments redis {V P} _.
Arguments subscribers {V P} _.
Arguments log {V P} _.

Section Collaborators.
Context {V P : Type}.

Definition emit (e : Event P) : M (World V P) unit :=
  modify (λ w, mkWorld (table w) (next_id w) (redis w) (subscribers w) (log w ++ [e])).

Definition set_table (t : list Pg.Row) : M (World V P) unit :=
  modify (λ w, mkWorld t (next_id w) (redis w) (subscribers w) (log w)).

Definition set_redis (r : gmap string (Entry V)) : M (World V P) unit :=
  modify (λ w, mkWorld (table w) (next_id w) r (subscribers w) (log w)).

(** [pool.query(select, params)] *)
Definition pg_select (q : Pg.Select) (params : list Pg.SqlValue)
  : M (World V P) (list Pg.Row) :=
  emit (PgSelect params);;
  tbl ← gets table;
  match Pg.select q params tbl with
  | Some rows => ret rows
  | None => throw QueryError
  end.

(** [INSERT INTO notifications (user_id, message, state) VALUES ($1, $2, $3)
    RETURNING *]: the one row inserted, [rows[0]]. *)
Definition pg_insert (userId message : string) (st : NotificationState) (now : Z)
  : M (World V P) Pg.Row :=
  i ← gets next_id;
  let r := Pg.mkRow i userId message st now in
  modify (λ w, mkWorld (table w ++ [r]) (i + 1) (redis w) (subscribers w) (log w));;
  emit (PgInsert r);;
  ret r.

Definition pg_update (st : NotificationState) (i : Z) : M (World V P) (list Pg.Row) :=
  tbl ← gets table;
  let '(rows, tbl') := Pg.update_state st i tbl in
  set_table tbl';;
  emit (PgUpdate i st);;
  ret rows.

(** [pool.query('DELETE FROM notifications WHERE created_at < $1 LIMIT $2',
    [cutoff, limit])]: the grammar of PostgreSQL has no [LIMIT] on
    [DELETE]; the server answers with a syntax error at [LIMIT], the
    query is rejected and no row is deleted.  The result type is that of
    [rowCount]. *)
Definition pg_delete (cutoff limit : Z) : M (World V P) nat :=
  emit (PgDelete cutoff limit);;
  throw QueryError.

Definition live (now : Z) (e : Entry V) : bool := now <? expires_at e.

(** What a [GET] answers at time [now]: the value of a key that is set
    and has not expired. *)
Definition read_live (r : gmap string (Entry V)) (key : string) (now : Z) : option V :=
  match r !! key with
  | Some e => if live now e then Some (payload e) else None
  | None => None
  end.

(** [KEYS pattern] at time [now]. *)
Definition matching_keys (r : gmap string (Entry V)) (pattern : string) (now : Z)
  : list string :=
  map fst (List.filter
             (λ kv, Glob.stringmatch pattern (fst kv) && live now (snd kv))
             (map_to_list r)).

(** [redis.get(key)] *)
Definition redis_get (key : string) (now : Z) : M (World V P) (option V) :=
  emit (RedisGet key);;
  r ← gets redis;
  ret (read_live r key now).

(** [redis.set(key, value, 'EX', ttl)], [ttl] in seconds *)
Definition redis_set (key : string) (v : V) (ttl now : Z) : M (World V P) unit :=
  r ← gets redis;
  set_redis (<[key := mkEntry v (now + ttl * 1000)]> r);;
  emit (RedisSet key ttl).

(** [redis.keys(pattern)] *)
Definition redis_keys (pattern : string) (now : Z) : M (World V P) (list string) :=
  emit (RedisKeys pattern);;
  r ← gets redis;
  ret (matching_keys r pattern now).

(** [redis.del(keys)] *)
Definition redis_del (keys : list string) : M (World V P) unit :=
  r ← gets redis;
  set_redis (foldr delete r keys);;
  emit (RedisDel keys).

Definition deliver (topic : string) (p : P) (s : Subscriber P) : Subscriber P :=
  if String.eqb (sub_topic s) topic
  then mkSubscriber (sub_topic s) (inbox s ++ [p])
  else s.

(** [pubsub.publish(topic, payload)] of [RedisPubSub]: one copy to every
    iterator open on exactly that trigger name.  The payload travels as
    [JSON.stringify(payload)] and the subscribers get [JSON.parse] of it:
    [wire] is that round trip. *)
Definition publish (wire : P → P) (topic : string) (p : P) : M (World V P) unit :=
  modify (λ w, mkWorld (table w) (next_id w) (redis w)
                 (map (deliver topic (wire p)) (subscribers w)) (log w));;
  emit (Publish topic p).

(** [pubsub.asyncIterator(topic)]: the handle is the subscriber's index. *)
Definition asyncIterator (topic : string) : M (World V P) nat :=
  n ← gets (λ w, length (subscribers w));
  modify (λ w, mkWorld (table w) (next_id w) (redis w)
                 (subscribers w ++ [mkSubscriber topic []]) (log w));;
  ret n.

(** What the client behind handle [n] has been sent so far. *)
Definition received (n : nat) (w : World V P) : list P :=
  match subscribers w !! n with
  | Some s => inbox s
  | None => []
  end.

End Collaborators.

(** ** [scalable-notification-service.js] *)

Module Scalable.

Record Node : Type := mkNode {
  node_id : Z;
  userId : string;
  message : string;
  state : NotificationState;
  createdAt : string
}.

Record Edge : Type := mkEdge { node : Node; cursor : string }.

Record PageInfo : Type := mkPageInfo {
  hasNextPage : bool;
  endCursor : option string
}.

Record Connection : Type := mkConnection {
  edges : list Edge;
  pageInfo : PageInfo
}.

(** [{ notificationAdded: notification, userId }] *)
Record Payload : Type := mkPayload {
  notificationAdded : Node;
  payload_userId : string
}.

(** The cache holds [JSON.stringify(result)]; a connection is made of
    numbers, strings, booleans and [null] only, so [JSON.parse] gives the
    connection back and the entry is modelled by the connection. *)
Abbreviation W := (World Connection Payload).

Definition CACHE_TTL : Z := 300.
Definition BATCH_SIZE : Z := 100.

Definition cacheKey (userId : string) (cursor : option string) : string :=
  "notifications:" +:+ userId +:+ ":" +:+ default "latest" (truthy cursor).

Definition cachePattern (userId : string) : string :=
  "notifications:" +:+ userId +:+ ":*".

Definition nodeOf (row : Pg.Row) : Node :=
  mkNode (Pg.id row) (Pg.user_id row) (Pg.message row) (Pg.state row)
         (ISODate.toISOString (Pg.created_at row)).

Definition edgeOf (row : Pg.Row) : Edge :=
  mkEdge (nodeOf row) (ISODate.toISOString (Pg.created_at row)).

(** [edges.length > 0 ? edges[edges.length - 1].cursor : null] *)
Definition lastCursor (edges : list Edge) : option string :=
  cursor <$> last edges.

Definition query (cursor : option string) : Pg.Select :=
  Pg.mkSelect (Pg.Placeholder 1) (Pg.Lit (Pg.SqlText "DISMISSED"))
    (if cursor is Some _ then Some (Pg.Placeholder 3) else None)
    (Pg.Placeholder 2).

Definition getNotificationsForUser
  (userId : string) (cursor : option string) (limit : option Z) (now : Z)
  : M W Connection :=
  let limit := default 20 limit in
  cached ← redis_get (cacheKey userId cursor) now;
  match cached with
  | Some c => ret c
  | None =>
      let params :=
        match truthy cursor with
        | Some c => [Pg.SqlText userId; Pg.SqlInt (limit + 1);
                     Pg.SqlTimestamp (ISODate.Date_parse c)]
        | None => [Pg.SqlText userId; Pg.SqlInt (limit + 1)]
        end in
      rows ← pg_select (query (truthy cursor)) params;
      let hasNextPage := limit <? Z.of_nat (length rows) in
      let edges := map edgeOf (slice0 limit rows) in
      let result := mkConnection edges (mkPageInfo hasNextPage (lastCursor edges)) in
      redis_set (cacheKey userId cursor) result CACHE_TTL now;;
      ret result
  end.

(** The cache invalidation that both mutations of the sketch spell out. *)
Definition invalidate (userId : string) (now : Z) : M W unit :=
  keys ← redis_keys (cachePattern userId) now;
  if (0 <? length keys)%nat then redis_del keys else ret tt.

(** [id] is the integer that the [ID] argument spells. *)
Definition updateUserNotification (id : Z) (state : NotificationState) (now : Z)
  : M W Node :=
  rows ← pg_update state id;
  match rows with
  | [] => throw NotFound
  | row :: _ =>
      invalidate (Pg.user_id row) now;;
      ret (nodeOf row)
  end.

(** [JSON.parse(JSON.stringify(payload))]: a payload made of numbers and
    strings comes back as it was. *)
Definition wire (p : Payload) : Payload := p.

Definition createNotification (userId message : string) (now : Z) : M W Node :=
  row ← pg_insert userId message UNREAD now;
  let notification := nodeOf row in
  invalidate userId now;;
  publish wire "NOTIFICATION_ADDED" (mkPayload notification userId);;
  ret notification.

(** [Subscription.notificationAdded.subscribe] *)
Definition subscribe (userId : string) : M W nat :=
  asyncIterator ("NOTIFICATION_ADDED:" +:+ userId).

(** The pushes a subscriber gets: the field [notificationAdded] of every
    payload delivered to its iterator. *)
Definition pushes (handle : nat) (w : W) : list Node :=
  map notificationAdded (received handle w).

End Scalable.

(** ** [typescript-notification-service.ts] *)

Module Typed.

(** [createdAt: Date]; what comes back from [JSON.parse] under that type
    is the string [JSON.stringify] printed for the date. *)
Inductive DateField : Type :=
| DateObj (t : Z)
| DateStr (s : string).

Record Notification : Type := mkNotification {
  id : string;
  userId : string;
  message : string;
  state : NotificationState;
  createdAt : DateField
}.

Record NotificationEdge : Type := mkEdge { node : Notification; cursor : string }.

Record PageInfo : Type := mkPageInfo {
  hasNextPage : bool;
  endCursor : option string
}.

Record NotificationConnection : Type := mkConnection {
  edges : list NotificationEdge;
  pageInfo : PageInfo
}.

(** [{ notificationAdded: notification }] *)
Record Payload : Type := mkPayload { notificationAdded : Notification }.

(** [JSON.parse(JSON.stringify(n))] *)
Definition json (n : Notification) : Notification :=
  mkNotification (id n) (userId n) (message n) (state n)
    match createdAt n with
    | DateObj t => DateStr (ISODate.toISOString t)
    | DateStr s => DateStr s
    end.

(** The cache holds [JSON.stringify(notifications)], modelled by what
    [JSON.parse] makes of it. *)
Abbreviation W := (World (list Notification) Payload).

Module Database.

Definition cacheKey (userId : string) (cursor : option string) : string :=
  "notifications:" +:+ userId +:+ ":" +:+ default "latest" (truthy cursor).

Definition cachePattern (userId : string) : string :=
  "notifications:" +:+ userId +:+ ":*".

Definition mapNotification (row : Pg.Row) : Notification :=
  mkNotification (pretty (Pg.id row)) (Pg.user_id row) (Pg.message row)
    (Pg.state row) (DateObj (Pg.created_at row)).

Definition query (cursor : option string) : Pg.Select :=
  Pg.mkSelect (Pg.Placeholder 1) (Pg.Placeholder 2)
    (if cursor is Some _ then Some (Pg.Placeholder 3) else None)
    (Pg.Placeholder 4).

Definition getNotificationsForUser
  (userId : string) (cursor : option string) (limit : option Z) (now : Z)
  : M W (list Notification) :=
  let limit := default 20 limit in
  cached ← redis_get (cacheKey userId cursor) now;
  match cached with
  | Some c => ret c
  | None =>
      let params :=
        match truthy cursor with
        | Some c => [Pg.SqlText userId; Pg.SqlText (state_name DISMISSED);
                     Pg.SqlTimestamp (ISODate.Date_parse c); Pg.SqlInt limit]
        | None => [Pg.SqlText userId; Pg.SqlText (state_name DISMISSED);
                   Pg.SqlInt limit]
        end in
      rows ← pg_select (query (truthy cursor)) params;
      let notifications := map mapNotification rows in
      redis_set (cacheKey userId cursor) (map json notifications) 300 now;;
      ret notifications
  end.

Definition invalidateCache (userId : string) (now : Z) : M W unit :=
  keys ← redis_keys (cachePattern userId) now;
  if (0 <? length keys)%nat then redis_del keys else ret tt.

Definition createNotification (userId message : string) (now : Z)
  : M W Notification :=
  row ← pg_insert userId message UNREAD now;
  invalidateCache userId now;;
  ret (mapNotification row).

(** [id] is the integer that the [ID] argument spells. *)
Definition updateNotification (id : Z) (state : NotificationState) (now : Z)
  : M W Notification :=
  rows ← pg_update state id;
  match rows with
  | [] => throw NotFound
  | row :: _ =>
      invalidateCache (Pg.user_id row) now;;
      ret (mapNotification row)
  end.

(** [tz] is the time zone of the host, [now] what [new Date()] gives. *)
Definition cleanupOldNotifications (tz : ISODate.TimeZone) (daysOld batchSize now : Z)
  : M W Z :=
  let date := ISODate.daysAgo tz now daysOld in
  rowCount ← pg_delete date batchSize;
  ret (Z.of_nat rowCount).

End Database.

(** [edges.length > 0 ? edges[edges.length - 1].cursor : null] *)
Definition lastCursor (edges : list NotificationEdge) : option string :=
  cursor <$> last edges.

(** [notification.createdAt.toISOString()] *)
Definition toISOString (d : DateField) : M W string :=
  match d with
  | DateObj t => ret (ISODate.toISOString t)
  | DateStr _ => throw TypeError
  end.

(** [Query.getNotificationsForUser]; an omitted [limit] is [undefined]:
    [length > undefined] is false and [slice(0, undefined)] is the whole
    array. *)
Definition getNotificationsForUser
  (userId : string) (cursor : option string) (limit : option Z) (now : Z)
  : M W NotificationConnection :=
  notifications ← Database.getNotificationsForUser userId cursor limit now;
  let hasNextPage :=
    match limit with
    | Some l => l <? Z.of_nat (length notifications)
    | None => false
    end in
  edges ← mapM (λ notification,
                  c ← toISOString (createdAt notification);
                  ret (mkEdge notification c))
               (match limit with
                | Some l => slice0 l notifications
                | None => notifications
                end);
  ret (mkConnection edges (mkPageInfo hasNextPage (lastCursor edges))).

Definition topic (userId : string) : string := "NOTIFICATION_ADDED:" +:+ userId.

(** [JSON.parse(JSON.stringify(payload))]: the [Date] of [createdAt]
    comes back as the string that [JSON.stringify] printed. *)
Definition wire (p : Payload) : Payload := mkPayload (json (notificationAdded p)).

(** [Mutation.createNotification] *)
Definition createNotification (userId message : string) (now : Z)
  : M W Notification :=
  notification ← Database.createNotification userId message now;
  publish wire (topic userId) (mkPayload notification);;
  ret notification.

(** [Mutation.updateNotification] *)
Definition updateNotification (id : Z) (state : NotificationState) (now : Z)
  : M W Notification :=
  Database.updateNotification id state now.

(** [Subscription.notificationAdded.subscribe] *)
Definition subscribe (userId : string) : M W nat :=
  asyncIterator (topic userId).

(** The pushes a subscriber gets: the field [notificationAdded] of every
    payload that reached its iterator. *)
Definition pushes (handle : nat) (w : W) : list Notification :=
  map notificationAdded (received handle w).

Module CleanupJob.

Definition BATCH_SIZE : Z := 1000.
Definition RETENTION_DAYS : Z := 7.
Definition INTERVAL : Z := 24 * 60 * 60 * 1000.

(** The [do ... while (deleted === BATCH_SIZE)] loop.  [clock k] is what
    [new Date()] returns in the [k]-th call of [cleanupOldNotifications]
    of this run; [None] when the fuel runs out before the loop ends. *)
Fixpoint cleanup_loop (fuel : nat) (tz : ISODate.TimeZone) (clock : nat → Z) (k : nat)
    (totalDeleted : Z) : M W (option Z) :=
  match fuel with
  | O => ret None
  | S fuel =>
      deleted ← Database.cleanupOldNotifications tz RETENTION_DAYS BATCH_SIZE (clock k);
      let totalDeleted := totalDeleted + deleted in
      if deleted =? BATCH_SIZE
      then emit (Delay 100);; cleanup_loop fuel tz clock (S k) totalDeleted
      else ret (Some totalDeleted)
  end.

(** One run; the result is the total that [console.log] prints.  A batch
    that does not end the loop would remove rows, so one more round than
    there are rows is fuel enough. *)
Definition cleanup (tz : ISODate.TimeZone) (clock : nat → Z) : M W (option Z) :=
  λ w, cleanup_loop (S (length (table w))) tz clock O 0 w.

End CleanupJob.

End Typed.

(** ** The Prisma resolvers ([resolvers.ts] of [notification-server]) *)

Module Prisma.

Module NotificationState.

Definition UNREAD : string := "UNREAD".
Definition VIEWED : string := "VIEWED".
Definition DISMISSED : string := "DISMISSED".
Definition AUTODISMISSED : string := "AUTODISMISSED".

(** Modelled from the spec: the module [./types] that declares
    [NotificationState] is not among the sources; its values are the closed
    enum [UNREAD, VIEWED, DISMISSED, AUTODISMISSED] of the specification,
    which is also the [enum NotificationState] of the GraphQL schema served
    with these resolvers.  [values] is [Object.values(NotificationState)]. *)
Definition values : list string := [UNREAD; VIEWED; DISMISSED; AUTODISMISSED].

End NotificationState.

(** [type Notification] of the schema; [state] is whatever token the
    resolver stored. *)
Record Notification : Type := mkNotification {
  id : Z;
  userId : Z;
  message : string;
  state : string;
  createdAt : Z
}.

#[global] Instance Prisma_Notification_eq_dec : EqDecision Notification.
Proof. solve_decision. Defined.

Inductive Event : Type :=
| FindMany (userId : Z)
| Create (n : Notification)
| Update (id : Z) (state : string).

Record World : Type := mkWorld {
  notification : list Notification;     (* prisma.notification *)
  next_id : Z;
  log : list Event
}.

Definition emit (e : Event) : M World unit :=
  modify (λ w, mkWorld (notification w) (next_id w) (log w ++ [e])).

Definition getNotificationsForUser (userId0 : Z) : M World (list Notification) :=
  emit (FindMany userId0);;
  tbl ← gets notification;
  ret (List.filter
         (λ n, (userId n =? userId0)
               && negb (String.eqb (state n) NotificationState.DISMISSED))
         tbl).

Definition createNotification (message0 : string) (userId0 : Z) (now : Z)
  : M World Notification :=
  i ← gets next_id;
  let newNotification :=
    mkNotification i userId0 message0 NotificationState.UNREAD now in
  modify (λ w, mkWorld (notification w ++ [newNotification]) (i + 1) (log w));;
  emit (Create newNotification);;
  ret newNotification.

Definition with_state (st : string) (n : Notification) : Notification :=
  mkNotification (id n) (userId n) (message n) st (createdAt n).

(** [prisma.notification.update({ where: { id }, data: { state } })];
    it throws when no record has the id. *)
Definition prisma_update (id0 : Z) (st : string) : M World Notification :=
  tbl ← gets notification;
  match List.find (λ n, id n =? id0) tbl with
  | None => throw NotFound
  | Some n =>
      modify (λ w, mkWorld
                     (map (λ n, if id n =? id0 then with_state st n else n) tbl)
                     (next_id w) (log w));;
      emit (Update id0 st);;
      ret (with_state st n)
  end.

Definition updateUserNotification (id0 : Z) (state0 : string) : M World Notification :=
  if negb (bool_decide (state0 ∈ NotificationState.values))
  then throw InvalidState
  else prisma_update id0 state0.

End Prisma.

(** ** The in-memory [server.js] *)

Module InMemory.

Record Notification : Type := mkNotification {
  id : string;
  userId : string;
  message : string;
  state : NotificationState;
  createdAt : string
}.

#[global] Instance InMemory_Notification_eq_dec : EqDecision Notification.
Proof. solve_decision. Defined.

(** [{ notificationAdded: notification, userId }] *)
Record Payload : Type := mkPayload {
  notificationAdded : Notification;
  payload_userId : string
}.

(** A JS [Map] with string keys, in insertion order. *)
Fixpoint Map_get {V} (k : string) (m : list (string * V)) : option V :=
  match m with
  | [] => None
  | (k', v) :: m' => if String.eqb k' k then Some v else Map_get k m'
  end.

Fixpoint Map_set {V} (k : string) (v : V) (m : list (string * V)) : list (string * V) :=
  match m with
  | [] => [(k, v)]
  | (k', v') :: m' =>
      if String.eqb k' k then (k, v) :: m' else (k', v') :: Map_set k v m'
  end.

Definition Map_values {V} (m : list (string * V)) : list V := map snd m.

Record World : Type := mkWorld {
  notifications : list (string * Notification);
  subscribers : list (Subscriber Payload)
}.

Definition getNotificationsForUser (userId0 : string) : M World (list Notification) :=
  m ← gets notifications;
  ret (List.filter
         (λ note, String.eqb (userId note) userId0
                  && negb (String.eqb (state_name (state note)) "DISMISSED"))
         (Map_values m)).

Definition with_state (st : NotificationState) (n : Notification) : Notification :=
  mkNotification (id n) (userId n) (message n) st (createdAt n).

Definition updateUserNotification (id0 : string) (state0 : NotificationState)
  : M World Notification :=
  m ← gets notifications;
  match Map_get id0 m with
  | None => throw NotFound
  | Some notification =>
      let notification := with_state state0 notification in
      modify (λ w, mkWorld (Map_set id0 notification m) (subscribers w));;
      ret notification
  end.

Definition publish (topic : string) (p : Payload) : M World unit :=
  modify (λ w, mkWorld (notifications w) (map (deliver topic p) (subscribers w))).

Definition asyncIterator (topic : string) : M World nat :=
  n ← gets (λ w, length (subscribers w));
  modify (λ w, mkWorld (notifications w) (subscribers w ++ [mkSubscriber topic []]));;
  ret n.

Definition createNotification (userId0 message0 : string) (now : Z)
  : M World Notification :=
  let notification :=
    mkNotification (pretty now) userId0 message0 UNREAD (ISODate.toISOString now) in
  modify (λ w, mkWorld (Map_set (id notification) notification (notifications w))
                 (subscribers w));;
  publish "NOTIFICATION_ADDED" (mkPayload notification userId0);;
  ret notification.

(** [Subscription.notificationAdded.subscribe]: the argument is unused. *)
Definition subscribe (userId0 : string) : M World nat :=
  asyncIterator "NOTIFICATION_ADDED".

(** [Subscription.notificationAdded.resolve] on every payload delivered. *)
Definition pushes (handle : nat) (w : World) : list Notification :=
  match subscribers w !! handle with
  | Some s => map notificationAdded (inbox s)
  | None => []
  end.

End InMemory.

(** ** Notions used in the statements *)

(** The exclusive upper bound that a cursor argument puts on [created_at]:
    none for a missing or empty cursor, [None] altogether for a cursor
    that is no date. *)
Definition cursor_bound (cursor : option string) : option (option Z) :=
  match truthy cursor with
  | None => Some None
  | Some c => Some <$> ISODate.Date_parse c
  end.

(** The state of the world after the cache invalidation for [pattern]. *)
Definition invalidated {V P} (pattern : string) (now : Z) (w : World V P) : World V P :=
  let keys := matching_keys (redis w) pattern now in
  mkWorld (table w) (next_id w) (foldr delete (redis w) keys) (subscribers w)
    (log w ++ RedisKeys pattern :: (if (0 <? length keys)%nat then [RedisDel keys] else [])).

(** Rows of [userId] that the feed shows: state other than [DISMISSED],
    created before [before] if it is given, newest first. *)
Definition feed (userId : string) (before : option Z) (tbl : list Pg.Row) : list Pg.Row :=
  Pg.ordered_matches userId "DISMISSED" before tbl.

Module ScalableNotions.
Import Scalable.

(** The connection that [getNotificationsForUser] assembles from the
    rows of its query. *)
Definition assemble (limit : Z) (rows : list Pg.Row) : Connection :=
  let edges := map edgeOf (slice0 limit rows) in
  mkConnection edges
    (mkPageInfo (limit <? Z.of_nat (length rows)) (lastCursor edges)).

(** No edge of the connection carries a dismissed notification. *)
Definition shows_no_dismissed (c : Connection) : Prop :=
  Forall (λ e, state (node e) ≠ DISMISSED) (edges c).

(** Every page in the cache is free of dismissed notifications. *)
Definition cache_clean (w : W) : Prop :=
  ∀ k e, redis w !! k = Some e → shows_no_dismissed (payload e).

End ScalableNotions.

Module TypedNotions.
Import Typed.

(** The instant before which the [k]-th batch of a sweeper run is to
    delete. *)
Definition cutoff (tz : ISODate.TimeZone) (clock : nat → Z) (k : nat) : Z :=
  ISODate.daysAgo tz (clock k) CleanupJob.RETENTION_DAYS.

(** The edge that the resolver makes of a row fresh from the store. *)
Definition edgeOf (row : Pg.Row) : NotificationEdge :=
  mkEdge (Database.mapNotification row) (ISODate.toISOString (Pg.created_at row)).

End TypedNotions.

(** ** Sample worlds *)

Module Samples.

Definition t0 : Z := 1700000000000.

(** An empty Postgres world of the JS sketch. *)
Definition scalable_empty : Scalable.W := mkWorld [] 1 ∅ [] [].

(** Twenty-five unread notifications of one user, a millisecond apart. *)
Definition twenty_five : list Pg.Row :=
  map (λ i, Pg.mkRow i "user123" "hello" UNREAD (t0 + i)) (seqZ 1 25).

Definition scalable_twenty_five : Scalable.W := mkWorld twenty_five 26 ∅ [] [].

(** The same, but the fifth and the sixth were created in the same
    millisecond. *)
Definition twenty_five_tie : list Pg.Row :=
  map (λ i, Pg.mkRow i "user123" "hello" UNREAD (t0 + (if i =? 6 then 5 else i)))
      (seqZ 1 25).

Definition scalable_tie : Scalable.W := mkWorld twenty_five_tie 26 ∅ [] [].

(** One unread notification in the TS sketch, and a cursor after it. *)
Definition typed_one : Typed.W :=
  mkWorld [Pg.mkRow 1 "user123" "hello" UNREAD (t0 + 1)] 2 ∅ [] [].

Definition typed_two : Typed.W :=
  mkWorld [Pg.mkRow 1 "user123" "hello" UNREAD (t0 + 1);
           Pg.mkRow 2 "user123" "again" UNREAD (t0 + 2)] 3 ∅ [] [].

Definition cursor5 : string := ISODate.toISOString (t0 + 5).

(** Old and recent rows for the sweeper, and a clock that advances by
    the pause of 100 ms from batch to batch. *)
Definition typed_old_and_new : Typed.W :=
  mkWorld [Pg.mkRow 1 "user123" "old" UNREAD (t0 - 8 * ISODate.msPerDay);
           Pg.mkRow 2 "user123" "new" UNREAD (t0 - 1 * ISODate.msPerDay);
           Pg.mkRow 3 "user456" "old" DISMISSED (t0 - 9 * ISODate.msPerDay)]
          4 ∅ [] [].

Definition ticking (k : nat) : Z := t0 + 100 * Z.of_nat k.

(** The Prisma sketch with a dismissed, an auto-dismissed and an unread
    notification of user 1. *)
Definition prisma_three : Prisma.World :=
  Prisma.mkWorld
    [Prisma.mkNotification 1 1 "first" "DISMISSED" t0;
     Prisma.mkNotification 2 1 "second" "AUTODISMISSED" (t0 + 1);
     Prisma.mkNotification 3 1 "third" "UNREAD" (t0 + 2)]
    4 [].

(** The in-memory sketch with one notification. *)
Definition memory_one : InMemory.World :=
  InMemory.mkWorld
    [("1700000000000",
      InMemory.mkNotification "1700000000000" "alice" "hi" DISMISSED
        "2023-11-14T22:13:20.000Z")]
    [].

Definition memory_empty : InMemory.World := InMemory.mkWorld [] [].

End Samples.

(** ** The parts of the sketches around the resolvers *)

(** [cleanupOldNotifications] of [scalable-notification-service.js]. *)
Module ScalableJob.
Import Scalable.

(** The [while (true)] loop: a batch of at most [BATCH_SIZE] rows older
    than [sevenDaysAgo], which is computed once before the loop; the loop
    ends at the first batch that deletes fewer rows, and pauses 100 ms
    before any other.  [None] when the fuel runs out before the loop
    ends. *)
Fixpoint cleanup_loop (fuel : nat) (sevenDaysAgo deleted : Z) : M W (option Z) :=
  match fuel with
  | O => ret None
  | S fuel =>
      rowCount ← pg_delete sevenDaysAgo BATCH_SIZE;
      let deleted := deleted + Z.of_nat rowCount in
      if Z.of_nat rowCount <? BATCH_SIZE then ret (Some deleted)
      else emit (Delay 100);; cleanup_loop fuel sevenDaysAgo deleted
  end.

(** One run, on a host in the zone [tz]; the result is the number that
    [console.log] prints.  A batch that does not end the loop would
    remove rows, so one more round than there are rows is fuel enough. *)
Definition cleanupOldNotifications (tz : ISODate.TimeZone) (now : Z) : M W (option Z) :=
  λ w, cleanup_loop (S (length (table w))) (ISODate.daysAgo tz now 7) 0 w.

End ScalableJob.

(** Whether the character [c] occurs in [s]. *)
Fixpoint occurs (c : ascii) (s : string) : bool :=
  match s with
  | EmptyString => false
  | String x k => Ascii.eqb x c || occurs c k
  end.

(** The daily sweep of the in-memory [server.js]. *)
Module InMemoryJob.
Import InMemory.

(** [map.delete(key)] *)
Definition Map_delete {V} (k : string) (m : list (string * V)) : list (string * V) :=
  List.filter (λ kv, negb (String.eqb kv.1 k)) m.

(** [new Date(notification.createdAt) < sevenDaysAgo]; an Invalid Date
    compares false. *)
Definition expired (sevenDaysAgo : Z) (notification : Notification) : bool :=
  match ISODate.Date_parse (createdAt notification) with
  | Some t => t <? sevenDaysAgo
  | None => false
  end.

(** [notifications.forEach((notification, id) => ...)]: the entries are
    visited in insertion order, and an entry that is too old is deleted
    from the map by its key. *)
Definition sweep (sevenDaysAgo : Z) (m : list (string * Notification))
  : list (string * Notification) :=
  foldl (λ acc kv, if expired sevenDaysAgo kv.2 then Map_delete kv.1 acc else acc) m m.

(** The callback of [setInterval], run at time [now] on a host in the
    zone [tz]. *)
Definition cleanup (tz : ISODate.TimeZone) (now : Z) : M World unit :=
  let sevenDaysAgo := ISODate.daysAgo tz now 7 in
  modify (λ w, mkWorld (sweep sevenDaysAgo (notifications w)) (subscribers w)).

End InMemoryJob.

Module InMemoryNotions.
Import InMemory.

(** What the resolvers keep of the map: the keys are distinct and every
    notification is stored under its id. *)
Definition keyed (m : list (string * Notification)) : Prop :=
  NoDup (map fst m) ∧ Forall (λ kv, kv.1 = id kv.2) m.

End InMemoryNotions.

(** ** The clients *)

(** [notification-frontend.js], the client of the in-memory server: the
    list that [NotificationList] keeps in its state. *)
Module FrontendApp.
Import InMemory.

(** [onData]: [setNotifications(prev => [...prev, notificationAdded])] *)
Definition onData (notificationAdded : Notification) (prev : list Notification)
  : list Notification :=
  prev ++ [notificationAdded].

(** [handleDismiss]: the mutation, then
    [setNotifications(prev => prev.filter(n => n.id !== id))]; when the
    mutation fails the state is not touched. *)
Definition handleDismiss (id0 : string) (prev : list Notification)
  : M World (list Notification) :=
  updateUserNotification id0 DISMISSED;;
  ret (List.filter (λ n, negb (String.eqb (id n) id0)) prev).

End FrontendApp.

(** The paginating client (the second [App.jsx]), the client of the JS
    sketch.  The selection sets of its queries are not modelled: nodes
    are kept whole.  The [loadingMore] flag and the debounce, which only
    space the calls, are left out. *)
Module Frontend.
Import Scalable.

Definition PAGE_SIZE : Z := 20.

(** [merge(existing = { edges: [], pageInfo: {} }, incoming)] of the
    type policy of [Query.getNotificationsForUser], whose [keyArgs] are
    [userId] only: one field per user. *)
Definition merge (existing : option Connection) (incoming : Connection) : Connection :=
  let existing_edges :=
    match existing with
    | Some e => edges e
    | None => []
    end in
  mkConnection (existing_edges ++ edges incoming) (pageInfo incoming).

(** [onData] of the subscription: the new notification goes first unless
    one with its id is there, and the list is cut at 100. *)
Definition onData (newNotification : Node) (prev : list Node) : list Node :=
  if existsb (λ n, node_id n =? node_id newNotification) prev then prev
  else take 100 (newNotification :: prev).

(** [useQuery(GET_NOTIFICATIONS, { variables: { userId, limit: PAGE_SIZE } })]:
    the first page, merged into the empty field. *)
Definition firstLoad (userId : string) (now : Z) : M W Connection :=
  incoming ← getNotificationsForUser userId None (Some PAGE_SIZE) now;
  ret (merge None incoming).

(** [loadMore]: nothing without a next page; else [fetchMore] with the
    [endCursor] of the field, merged into the field. *)
Definition loadMore (userId : string) (data : Connection) (now : Z) : M W Connection :=
  if negb (hasNextPage (pageInfo data)) then ret data
  else
    incoming ← getNotificationsForUser userId (endCursor (pageInfo data))
                 (Some PAGE_SIZE) now;
    ret (merge (Some data) incoming).

(** A first load at [now] followed by one [loadMore] at each of [times]. *)
Fixpoint loadMores (userId : string) (data : Connection) (times : list Z)
  : M W Connection :=
  match times with
  | [] => ret data
  | t :: times => data' ← loadMore userId data t; loadMores userId data' times
  end.

Definition scroll (userId : string) (now : Z) (times : list Z) : M W Connection :=
  data ← firstLoad userId now;
  loadMores userId data times.

End Frontend.

Module FrontendNotions.
Import Scalable ScalableNotions.

(** Every page in the cache of the JS sketch under a key of [u] is the
    page of [Frontend.PAGE_SIZE] rows that the store would give for the
    cursor of the key. *)
Definition cache_agrees (u : string) (w : W) : Prop :=
  ∀ cursor before e,
    redis w !! cacheKey u cursor = Some e →
    cursor_bound cursor = Some before →
    payload e = assemble Frontend.PAGE_SIZE
                  (take (Z.to_nat (Frontend.PAGE_SIZE + 1)) (feed u before (table w))).

End FrontendNotions.

(** ** More sample worlds *)

Module MoreSamples.

(** The first page of twenty of the user with twenty-five notifications
    in the JS sketch, and the world after the call that computes it. *)
Definition first_twenty : Scalable.Connection :=
  ScalableNotions.assemble 20 (take 21 (feed "user123" None Samples.twenty_five)).

Definition scalable_after_first_page : Scalable.W :=
  (Scalable.getNotificationsForUser "user123" None (Some 20) (Samples.t0 + 26)
     Samples.scalable_twenty_five).2.

(** The TS sketch with one notification of a user whose id has the glob
    metacharacters [[] and []], and a cursor after that notification and
    after the creation of the next. *)
Definition typed_glob : Typed.W :=
  mkWorld [Pg.mkRow 1 "user[1]" "hello" UNREAD (Samples.t0 + 1)] 2 ∅ [] [].

Definition cursor100 : string := ISODate.toISOString (Samples.t0 + 100).


(** The in-memory server after one creation. *)
Definition memory_created : InMemory.World :=
  (InMemory.createNotification "alice" "hi" Samples.t0 Samples.memory_empty).2.

End MoreSamples.

(** ** Facts on dates *)

Module ISODateFacts.
Import ISODate.

Lemma yoe_range doe :
  0 ≤ doe < 146097 →
  let yoe := (doe - doe / 1460 + doe / 36524 - doe / 146096) / 365 in
  0 ≤ yoe < 400 ∧ 0 ≤ doe - (365 * yoe + yoe / 4 - yoe / 100) ≤ 365
  ∧ (doe ≤ 146036 → yoe ≤ 399 ∧ (yoe = 399 → doe - (365 * yoe + yoe / 4 - yoe / 100) ≤ 305)).
Proof. intros H. cbv zeta. Z.div_mod_to_equations. lia. Qed.

Lemma month_day_range doy :
  0 ≤ doy ≤ 365 →
  let mp := (5 * doy + 2) / 153 in
  0 ≤ mp ≤ 11 ∧ 1 ≤ doy - (153 * mp + 2) / 5 + 1 ≤ 31 ∧ (doy ≤ 305 → mp < 10).
Proof. intros H. cbv zeta. Z.div_mod_to_equations. lia. Qed.

Lemma civil_of_doe_spec doe :
  0 ≤ doe < 146097 →
  let '(yoe, m, d) := civil_of_doe doe in
  0 ≤ yoe < 400 ∧ 1 ≤ m ≤ 12 ∧ 1 ≤ d ≤ 31 ∧ doe_of_civil yoe m d = doe
  ∧ (doe ≤ 146036 → yoe + (if m <=? 2 then 1 else 0) ≤ 399).
Proof.
  intros H. unfold civil_of_doe, doe_of_civil. cbv zeta.
  destruct (yoe_range doe H) as (Hy & Hdoy & Hlast). cbv zeta in Hy, Hdoy, Hlast.
  set (yoe := (doe - doe / 1460 + doe / 36524 - doe / 146096) / 365) in *.
  set (doy := doe - (365 * yoe + yoe / 4 - yoe / 100)) in *.
  destruct (month_day_range doy Hdoy) as (Hmp & Hd & Hmp'). cbv zeta in Hmp, Hd, Hmp'.
  set (mp := (5 * doy + 2) / 153) in *.
  set (d := doy - (153 * mp + 2) / 5 + 1) in *.
  assert (Hm : (if 2 <? (if mp <? 10 then mp + 3 else mp - 9)
                then (if mp <? 10 then mp + 3 else mp - 9) - 3
                else (if mp <? 10 then mp + 3 else mp - 9) + 9) = mp).
  { repeat case_match; lia. }
  rewrite Hm. split_and!; repeat case_match; lia.
Qed.

Lemma civil_from_days_spec z :
  0 ≤ z < 2932897 →
  let '(y, m, d) := civil_from_days z in
  0 ≤ y ≤ 9999 ∧ 1 ≤ m ≤ 12 ∧ 1 ≤ d ≤ 31 ∧ days_from_civil y m d = z.
Proof.
  intros H. unfold civil_from_days. cbv zeta.
  pose proof (civil_of_doe_spec ((z + 719468) mod 146097)) as Hdoe.
  destruct (civil_of_doe ((z + 719468) mod 146097)) as [[yoe m] d].
  destruct Hdoe as (Hy & Hm & Hd & Hrt & Hlast); [apply Z.mod_pos_bound; lia|].
  pose proof (Z.div_mod (z + 719468) 146097 ltac:(lia)) as Hz.
  pose proof (Z.mod_pos_bound (z + 719468) 146097 ltac:(lia)) as Hb.
  set (era := (z + 719468) / 146097) in *.
  set (doe := (z + 719468) mod 146097) in *.
  assert (He : 4 ≤ era ≤ 24) by lia.
  split; [|split; [done|split; [done|]]].
  - destruct (decide (era = 24)) as [E|]; [|case_match; lia].
    assert (doe ≤ 146036) by lia. specialize (Hlast ltac:(done)).
    case_match; lia.
  - unfold days_from_civil. cbv zeta.
    replace (yoe + era * 400 + (if m <=? 2 then 1 else 0) - (if m <=? 2 then 1 else 0))
      with (yoe + era * 400) by lia.
    rewrite Z.div_add, Z.mod_add by lia.
    rewrite (Z.div_small yoe 400), (Z.mod_small yoe 400) by lia.
    rewrite Hrt. lia.
Qed.

Lemma digit_val_digit n : 0 ≤ n < 10 → digit_val (digit n) = Some n.
Proof.
  intros H.
  assert (n = 0 ∨ n = 1 ∨ n = 2 ∨ n = 3 ∨ n = 4 ∨ n = 5 ∨ n = 6 ∨ n = 7
          ∨ n = 8 ∨ n = 9) as Hn by lia.
  repeat destruct Hn as [-> | Hn]; try reflexivity. by subst.
Qed.

#[local] Arguments read1 : simpl never.
#[local] Arguments read2 : simpl never.
#[local] Arguments read3 : simpl never.
#[local] Arguments read4 : simpl never.
#[local] Arguments show2 : simpl never.
#[local] Arguments show3 : simpl never.

Lemma read1_digit n k : 0 ≤ n < 10 → read1 (String (digit n) k) = Some (n, k).
Proof. intros H. unfold read1. by rewrite digit_val_digit. Qed.

Lemma read2_show2 n k : 0 ≤ n < 100 → read2 (show2 n k) = Some (n, k).
Proof.
  intros H. unfold read2, show2.
  rewrite read1_digit by (apply Z.mod_pos_bound; lia). simpl.
  rewrite read1_digit by (apply Z.mod_pos_bound; lia). simpl.
  do 2 f_equal. Z.div_mod_to_equations. lia.
Qed.

Lemma read3_show3 n k : 0 ≤ n < 1000 → read3 (show3 n k) = Some (n, k).
Proof.
  intros H. unfold read3, show3.
  rewrite read1_digit by (apply Z.mod_pos_bound; lia). simpl.
  unfold read2, show2.
  rewrite read1_digit by (apply Z.mod_pos_bound; lia). simpl.
  rewrite read1_digit by (apply Z.mod_pos_bound; lia). simpl.
  do 2 f_equal. Z.div_mod_to_equations. lia.
Qed.

Lemma read4_show4 n k : 0 ≤ n < 10000 → read4 (show4 n k) = Some (n, k).
Proof.
  intros H. unfold read4, show4.
  rewrite read1_digit by (apply Z.mod_pos_bound; lia). simpl.
  unfold read3, show3.
  rewrite read1_digit by (apply Z.mod_pos_bound; lia). simpl.
  unfold read2, show2.
  rewrite read1_digit by (apply Z.mod_pos_bound; lia). simpl.
  rewrite read1_digit by (apply Z.mod_pos_bound; lia). simpl.
  do 2 f_equal. Z.div_mod_to_equations. lia.
Qed.

(** [new Date(d.toISOString())] is [d] again. *)
Lemma Date_parse_toISOString t :
  valid_time t → Date_parse (toISOString t) = Some t.
Proof.
  intros [H0 H1]. unfold maxTime in H1. unfold toISOString. cbv zeta.
  assert (Hdays : 0 ≤ t / msPerDay < 2932897).
  { unfold msPerDay. Z.div_mod_to_equations. lia. }
  pose proof (civil_from_days_spec _ Hdays) as Hc.
  destruct (civil_from_days (t / msPerDay)) as [[y m] d].
  destruct Hc as (Hy & Hm & Hd & Hrt).
  pose proof (Z.mod_pos_bound t msPerDay ltac:(done)) as Hms.
  pose proof (Z.div_mod t msPerDay ltac:(done)) as Ht.
  set (ms := t mod msPerDay) in *. unfold msPerDay in Hms.
  unfold Date_parse.
  rewrite read4_show4 by lia. simpl.
  rewrite read2_show2 by lia. simpl.
  rewrite read2_show2 by lia. simpl.
  rewrite read2_show2 by (Z.div_mod_to_equations; lia). simpl.
  rewrite read2_show2 by (Z.div_mod_to_equations; lia). simpl.
  rewrite read2_show2 by (Z.div_mod_to_equations; lia). simpl.
  rewrite read3_show3 by (Z.div_mod_to_equations; lia). simpl.
  repeat (rewrite (proj2 (Z.leb_le _ _)) by lia).
  repeat (rewrite (proj2 (Z.ltb_lt _ _)) by (Z.div_mod_to_equations; lia)).
  simpl. f_equal. rewrite Hrt. unfold msPerDay in *.
  Z.div_mod_to_equations. lia.
Qed.

Lemma toISOString_length t : String.length (toISOString t) = 24%nat.
Proof.
  unfold toISOString. cbv zeta.
  by destruct (civil_from_days (t / msPerDay)) as [[y m] d].
Qed.

(** A printed date is a non-empty string, hence a truthy cursor. *)
Lemma truthy_toISOString t : truthy (Some (toISOString t)) = Some (toISOString t).
Proof.
  pose proof (toISOString_length t) as H.
  by destruct (toISOString t).
Qed.

Lemma toISOString_not_latest t : toISOString t ≠ "latest".
Proof.
  intros H. pose proof (toISOString_length t) as Hl. rewrite H in Hl. done.
Qed.

(** A boolean test of [valid_time] over the rows of a table. *)
Lemma Forall_valid_time (l : list Pg.Row) :
  forallb (λ r, (0 <=? Pg.created_at r) && (Pg.created_at r <? maxTime)) l = true →
  Forall (λ r, valid_time (Pg.created_at r)) l.
Proof.
  intros H. apply Forall_forall. intros r Hr%list_elem_of_In.
  eapply forallb_forall in H; [|exact Hr].
  apply andb_prop in H as [?%Z.leb_le ?%Z.ltb_lt]. by split.
Qed.

End ISODateFacts.

(** ** Facts on strings and on glob matching *)

Module GlobFacts.
Import Glob.

Lemma append_cons (x : ascii) (a b : string) :
  String x a +:+ b = String x (a +:+ b).
Proof. reflexivity. Qed.

Lemma append_assoc (a b c : string) : (a +:+ b) +:+ c = a +:+ b +:+ c.
Proof.
  induction a as [|x a IH]; [done|]. rewrite !append_cons. by f_equal.
Qed.

Lemma length_append (a b : string) :
  String.length (a +:+ b) = (String.length a + String.length b)%nat.
Proof.
  induction a as [|x a IH]; [done|]. rewrite append_cons. simpl. by f_equal.
Qed.

Lemma literal_append (a b : string) :
  literal (a +:+ b) = literal a && literal b.
Proof.
  induction a as [|x a IH]; [done|].
  rewrite append_cons. simpl. rewrite IH. by rewrite andb_assoc.
Qed.

(** A literal prefix of the pattern matches itself and nothing else is
    consumed. *)
Lemma stringmatch_fuel_literal (l p s : string) (n : nat) :
  literal l = true →
  stringmatch_fuel (String.length l + n) (l +:+ p) (l +:+ s)
  = stringmatch_fuel n p s.
Proof.
  induction l as [|c l IH]; intros Hl; [done|].
  simpl in Hl. apply andb_prop in Hl as [Hc Hl].
  unfold literal_char in Hc.
  repeat (apply andb_prop in Hc as [Hc ?]).
  repeat match goal with
         | H : negb _ = true |- _ => apply negb_true_iff in H
         end.
  rewrite !append_cons.
  change (String.length (String c l) + n)%nat
    with (S (String.length l + n)).
  cbn [stringmatch_fuel].
  repeat match goal with
         | H : Ascii.eqb _ _ = false |- _ => rewrite H
         end.
  rewrite Ascii.eqb_refl. simpl. by apply IH.
Qed.

Lemma stringmatch_fuel_star (n : nat) (s : string) :
  stringmatch_fuel (S (S n)) "*" s = true.
Proof.
  cbn [stringmatch_fuel]. rewrite Ascii.eqb_refl.
  induction s as [|c s IH]; [done|].
  rewrite IH. by rewrite orb_true_r.
Qed.

(** [prefix*] matches every string that starts with a literal [prefix]. *)
Lemma stringmatch_literal_star (l s : string) :
  literal l = true → stringmatch (l +:+ "*") (l +:+ s) = true.
Proof.
  intros Hl. unfold stringmatch. rewrite length_append.
  change (String.length "*") with 1%nat.
  replace (S (String.length l + 1)) with (String.length l + 2)%nat by lia.
  rewrite stringmatch_fuel_literal by done.
  apply stringmatch_fuel_star.
Qed.

(** The pattern that the mutations build for a user matches the key of
    every page of that user, provided the user id has no glob
    metacharacter. *)
Lemma pattern_matches_key (u : string) (cursor : option string) :
  literal u = true →
  stringmatch ("notifications:" +:+ u +:+ ":*")
              ("notifications:" +:+ u +:+ ":" +:+ default "latest" (truthy cursor))
  = true.
Proof.
  intros Hu.
  pose proof (stringmatch_literal_star ("notifications:" +:+ u +:+ ":")
                (default "latest" (truthy cursor))) as H.
  rewrite !append_assoc in H. apply H.
  rewrite !literal_append, Hu. reflexivity.
Qed.

End GlobFacts.

(** ** Facts on the table operations *)

Module PgFacts.
Import Pg.

Lemma insert_desc_perm (r : Row) (l : list Row) : insert_desc r l ≡ₚ r :: l.
Proof.
  induction l as [|y l IH]; simpl; [done|].
  case_match; [done|]. rewrite IH. apply Permutation_swap.
Qed.

Lemma order_desc_perm (l : list Row) : order_desc l ≡ₚ l.
Proof.
  induction l as [|r l IH]; simpl; [done|].
  rewrite insert_desc_perm. by rewrite IH.
Qed.

Lemma length_order_desc (l : list Row) : length (order_desc l) = length l.
Proof. apply Permutation_length, order_desc_perm. Qed.

Lemma elem_of_order_desc (r : Row) (l : list Row) : r ∈ order_desc l ↔ r ∈ l.
Proof. by rewrite order_desc_perm. Qed.

Lemma insert_desc_sorted (r : Row) (l : list Row) :
  StronglySorted newer_first l → StronglySorted newer_first (insert_desc r l).
Proof.
  induction 1 as [|y l Hl IH Hy]; simpl.
  - repeat constructor.
  - case_match eqn:E.
    + apply Z.ltb_lt in E. constructor; [by constructor|].
      constructor; [unfold newer_first; lia|].
      eapply Forall_impl; [exact Hy|]. unfold newer_first. intros; lia.
    + apply Z.ltb_ge in E. constructor; [done|].
      rewrite insert_desc_perm. constructor; [done|exact Hy].
Qed.

Lemma order_desc_sorted (l : list Row) : StronglySorted newer_first (order_desc l).
Proof.
  induction l as [|r l IH]; simpl; [constructor|by apply insert_desc_sorted].
Qed.

(** Inserting in front when every row of the list is older. *)
Lemma insert_desc_head (r : Row) (l : list Row) :
  Forall (λ y, created_at y < created_at r) l → insert_desc r l = r :: l.
Proof.
  destruct 1 as [|y l Hy _]; simpl; [done|].
  by rewrite (proj2 (Z.ltb_lt _ _)).
Qed.

Lemma Forall_filter_sub {A} (P : A → Prop) (p : A → bool) (l : list A) :
  Forall P l → Forall P (List.filter p l).
Proof.
  induction 1 as [|x l Hx _ IH]; simpl; [constructor|].
  destruct (p x); [by constructor|done].
Qed.

Lemma filter_insert_desc (p : Row → bool) (r : Row) (l : list Row) :
  StronglySorted newer_first l →
  List.filter p (insert_desc r l)
  = if p r then insert_desc r (List.filter p l) else List.filter p l.
Proof.
  induction 1 as [|y l Hl IH Hy].
  - simpl. by destruct (p r).
  - cbn [insert_desc]. destruct (created_at y <? created_at r) eqn:E.
    + apply Z.ltb_lt in E.
      change (List.filter p (r :: y :: l))
        with (if p r then r :: List.filter p (y :: l) else List.filter p (y :: l)).
      destruct (p r) eqn:Hr; [|done].
      rewrite insert_desc_head; [done|].
      apply Forall_filter_sub. constructor; [done|].
      eapply Forall_impl; [exact Hy|]. unfold newer_first. intros; lia.
    + cbn [List.filter]. rewrite IH.
      destruct (p y) eqn:Hpy, (p r) eqn:Hr; simpl; try done.
      by rewrite E.
Qed.

(** Selecting commutes with [ORDER BY]. *)
Lemma filter_order_desc (p : Row → bool) (l : list Row) :
  List.filter p (order_desc l) = order_desc (List.filter p l).
Proof.
  induction l as [|r l IH]; simpl; [done|].
  rewrite filter_insert_desc by apply order_desc_sorted.
  rewrite IH. by destruct (p r).
Qed.

Lemma filter_filter_andb {A} (p q : A → bool) (l : list A) :
  List.filter (λ x, p x && q x) l = List.filter q (List.filter p l).
Proof.
  induction l as [|x l IH]; simpl; [done|].
  destruct (p x); simpl; [|done]. destruct (q x); by rewrite IH.
Qed.

Lemma elem_of_filter {A} (p : A → bool) (x : A) (l : list A) :
  x ∈ List.filter p l ↔ x ∈ l ∧ p x = true.
Proof. rewrite !list_elem_of_In. apply filter_In. Qed.

Lemma Forall_filter {A} (p : A → bool) (l : list A) :
  Forall (λ x, p x = true) (List.filter p l).
Proof. apply Forall_forall. intros x Hx%elem_of_filter. tauto. Qed.

(** The rows before a cursor are those of the whole feed that are older
    than the cursor, in the same order. *)
Lemma ordered_matches_before (u st : string) (t : Z) (tbl : list Row) :
  ordered_matches u st (Some t) tbl
  = List.filter (λ r, created_at r <? t) (ordered_matches u st None tbl).
Proof.
  unfold ordered_matches. rewrite filter_order_desc. f_equal.
  rewrite <- filter_filter_andb. apply filter_ext. intros r.
  unfold matches. by rewrite andb_true_r.
Qed.

Lemma elem_of_ordered_matches (u st : string) (before : option Z)
    (tbl : list Row) (r : Row) :
  r ∈ ordered_matches u st before tbl
  ↔ r ∈ tbl ∧ user_id r = u ∧ state_name (state r) ≠ st
    ∧ match before with Some t => created_at r < t | None => True end.
Proof.
  unfold ordered_matches. rewrite elem_of_order_desc, elem_of_filter.
  unfold matches. rewrite !andb_true_iff, negb_true_iff.
  rewrite String.eqb_eq, String.eqb_neq.
  destruct before as [t|]; [rewrite Z.ltb_lt|]; tauto.
Qed.

Lemma ordered_matches_sorted (u st : string) (before : option Z) (tbl : list Row) :
  StronglySorted newer_first (ordered_matches u st before tbl).
Proof. apply order_desc_sorted. Qed.

(** No row of a descending feed is older than the last one. *)
Lemma sorted_last (l : list Row) (r : Row) :
  StronglySorted newer_first l → last l = Some r →
  Forall (λ x, created_at r ≤ created_at x) l.
Proof.
  intros Hs (l' & ->)%last_Some. apply StronglySorted_app in Hs as (Hr & _ & _).
  apply Forall_app. split; [|by repeat constructor].
  apply Forall_forall. intros x Hx. apply (Hr x r Hx), list_elem_of_here.
Qed.

Lemma sorted_take (l : list Row) (n : nat) :
  StronglySorted newer_first l → StronglySorted newer_first (take n l).
Proof.
  intros Hs. rewrite <- (take_drop n l) in Hs.
  by apply StronglySorted_app_1_l in Hs.
Qed.

(** In a feed without two equal timestamps the rows older than the
    [n]-th row are the rows after it. *)
Lemma filter_older_drop (l : list Row) (n : nat) (r : Row) :
  StronglySorted newer_first l → NoDup (created_at <$> l) → l !! n = Some r →
  List.filter (λ x, created_at x <? created_at r) l = drop (S n) l.
Proof.
  intros Hs. revert n. induction Hs as [|y l Hl IH Hy]; intros n Hnd Hn; [done|].
  apply NoDup_cons in Hnd as [Hy' Hnd].
  destruct n as [|n]; simplify_eq/=.
  - rewrite Z.ltb_irrefl.
    clear IH Hl. induction l as [|z l IH]; [done|].
    apply Forall_cons in Hy as [Hz Hy]. simpl in *.
    apply not_elem_of_cons in Hy' as [Hne Hy'].
    apply NoDup_cons in Hnd as [_ Hnd].
    rewrite (proj2 (Z.ltb_lt (created_at z) (created_at r)))
      by (unfold newer_first in Hz; lia).
    f_equal. rewrite drop_0 in IH. by apply IH.
  - assert (created_at r ≤ created_at y) as Hle.
    { eapply Forall_forall in Hy; [exact Hy|]. by eapply list_elem_of_lookup_2. }
    rewrite (proj2 (Z.ltb_ge _ _)) by done. by apply IH.
Qed.

Lemma filter_older_none (l : list Row) (t : Z) :
  Forall (λ x, t ≤ created_at x) l → List.filter (λ x, created_at x <? t) l = [].
Proof.
  induction 1 as [|x l Hx _ IH]; simpl; [done|].
  by rewrite (proj2 (Z.ltb_ge _ _)).
Qed.

(** What an accepted [SELECT] returns. *)
Lemma select_Some (q : Select) (params : list SqlValue) (tbl rows : list Row) :
  select q params tbl = Some rows →
  ∃ u st before lim,
    operand params (where_state_ne q) ≫= as_text = Some st
    ∧ operand params (order_limit q) ≫= as_int = Some lim
    ∧ 0 ≤ lim
    ∧ rows = take (Z.to_nat lim) (ordered_matches u st before tbl).
Proof.
  unfold select. intros H.
  destruct (operand params (where_user_id q) ≫= as_text) as [u|]; [|done].
  destruct (operand params (where_state_ne q) ≫= as_text) as [st|]; [|done].
  cbn [mbind option_bind] in H.
  destruct (match where_created_before q with
            | Some o => Some <$> (operand params o ≫= as_timestamp)
            | None => Some None
            end) as [before|]; [|done].
  cbn [mbind option_bind] in H.
  destruct (operand params (order_limit q) ≫= as_int) as [lim|]; [|done].
  cbn [mbind option_bind] in H.
  destruct (0 <=? lim) eqn:E; [|done]. apply Z.leb_le in E. simplify_eq.
  by exists u, st, before, lim.
Qed.

(** [UPDATE ... SET state]: the rows keep their place. *)
Lemma update_state_lookup (st : NotificationState) (i : Z) (tbl : list Row) (k : nat) :
  (update_state st i tbl).2 !! k
  = (λ r, if id r =? i then with_state st r else r) <$> tbl !! k.
Proof. unfold update_state. simpl. apply list_lookup_fmap. Qed.

Lemma update_state_returning (st : NotificationState) (i : Z) (tbl : list Row) (r : Row) :
  r ∈ (update_state st i tbl).1 → id r = i ∧ state r = st.
Proof.
  unfold update_state. simpl. intros [Hr Hi]%elem_of_filter.
  apply Z.eqb_eq in Hi. split; [done|].
  apply list_elem_of_fmap in Hr as (r0 & -> & _).
  destruct (id r0 =? i) eqn:E; [done|]. simpl in Hi. apply Z.eqb_neq in E. done.
Qed.

End PgFacts.

(** ** Facts on the Redis keys *)

Section CollaboratorFacts.
Context {V P : Type}.
Implicit Types (r : gmap string (Entry V)) (w : World V P).

Lemma foldr_delete_lookup r (keys : list string) (k : string) :
  foldr delete r keys !! k = if decide (k ∈ keys) then None else r !! k.
Proof.
  induction keys as [|k' keys IH]; cbn [foldr].
  - destruct (decide (k ∈ [])) as [H|]; [by apply elem_of_nil in H|done].
  - destruct (decide (k ∈ k' :: keys)) as [Hin|Hni].
    + destruct (decide (k' = k)) as [->|Hne]; [by rewrite lookup_delete_eq|].
      rewrite lookup_delete_ne by done. rewrite IH.
      rewrite decide_True; [done|].
      apply elem_of_cons in Hin as [?|?]; [congruence|done].
    + rewrite lookup_delete_ne by set_solver. rewrite IH.
      rewrite decide_False; [done|]. set_solver.
Qed.

Lemma elem_of_matching_keys r (pattern : string) (now : Z) (k : string) :
  k ∈ matching_keys r pattern now
  ↔ ∃ e, r !! k = Some e ∧ Glob.stringmatch pattern k = true ∧ live now e = true.
Proof.
  unfold matching_keys. rewrite list_elem_of_fmap. split.
  - intros ([k' e] & -> & Hin). apply list_elem_of_In, filter_In in Hin as [Hin Hm].
    apply list_elem_of_In, elem_of_map_to_list in Hin.
    apply andb_prop in Hm as [??]. by exists e.
  - intros (e & Hk & Hm & Hl). exists (k, e). split; [done|].
    apply list_elem_of_In, filter_In. split.
    + by apply list_elem_of_In, elem_of_map_to_list.
    + simpl. by rewrite Hm, Hl.
Qed.

(** After [KEYS pattern] and [DEL] of what it returned, a [GET] of a key
    that the pattern matches finds nothing, then and later. *)
Lemma read_live_purged r (pattern : string) (now now' : Z) (k : string) :
  Glob.stringmatch pattern k = true → now ≤ now' →
  read_live (foldr delete r (matching_keys r pattern now)) k now' = None.
Proof.
  intros Hm Hle. unfold read_live. rewrite foldr_delete_lookup.
  destruct (decide (k ∈ matching_keys r pattern now)) as [|Hni]; [done|].
  destruct (r !! k) as [e|] eqn:Hk; [|done].
  destruct (live now' e) eqn:Hl; [|done]. exfalso. apply Hni.
  apply elem_of_matching_keys. exists e. split_and!; [done..|].
  unfold live in *. apply Z.ltb_lt in Hl. apply Z.ltb_lt. lia.
Qed.


(** Keys that the pattern does not match are left alone. *)
Lemma read_live_kept r (pattern : string) (now now' : Z) (k : string) :
  Glob.stringmatch pattern k = false →
  read_live (foldr delete r (matching_keys r pattern now)) k now'
  = read_live r k now'.
Proof.
  intros Hm. unfold read_live. rewrite foldr_delete_lookup.
  rewrite decide_False; [done|].
  intros (e & _ & Hm' & _)%elem_of_matching_keys. congruence.
Qed.

Lemma read_live_insert r (k : string) (v : V) (expiry now : Z) :
  now < expiry → read_live (<[k := mkEntry v expiry]> r) k now = Some v.
Proof.
  intros H. unfold read_live. rewrite lookup_insert_eq. unfold live. simpl.
  by rewrite (proj2 (Z.ltb_lt _ _)).
Qed.

Lemma read_live_insert_ne r (k k' : string) (e : Entry V) (now : Z) :
  k ≠ k' → read_live (<[k := e]> r) k' now = read_live r k' now.
Proof. intros H. unfold read_live. by rewrite lookup_insert_ne. Qed.

End CollaboratorFacts.

(** Projections of a world that is given by its fields. *)
Tactic Notation "wsimpl" :=
  cbn [table next_id redis subscribers log fst snd].
Tactic Notation "wsimpl" "in" hyp(H) :=
  cbn [table next_id redis subscribers log fst snd] in H.

(** Unfolds the monad and the collaborator calls of a resolver. *)
Ltac mrun :=
  cbv [mbind mret M_bind M_ret bind ret throw gets modify emit set_table
       set_redis pg_select pg_insert pg_update pg_delete redis_get redis_set
       redis_keys redis_del publish asyncIterator];
  wsimpl.

(** ** Facts on [scalable-notification-service.js] *)

Module ScalableFacts.
Import Scalable ScalableNotions.

Lemma invalidate_run (u : string) (now : Z) (w : W) :
  invalidate u now w = (Ok tt, invalidated (cachePattern u) now w).
Proof.
  unfold invalidate, invalidated. mrun.
  destruct (matching_keys (redis w) (cachePattern u) now) as [|k keys]; simpl; [done|].
  by rewrite <- app_assoc.
Qed.

(** A call that the cache does not answer: the query asks for
    [limit + 1] rows of the feed before the cursor, and the assembled
    connection is stored under the key for [CACHE_TTL] seconds. *)
Lemma getNotificationsForUser_miss
    (u : string) (cursor : option string) (limit : option Z) (now : Z)
    (w : W) (before : option Z) :
  read_live (redis w) (cacheKey u cursor) now = None →
  cursor_bound cursor = Some before →
  -1 ≤ default 20 limit →
  ∃ params,
    Pg.operand params (Pg.order_limit (query (truthy cursor)))
      = Some (Pg.SqlInt (default 20 limit + 1))
    ∧ getNotificationsForUser u cursor limit now w
      = let rows := take (Z.to_nat (default 20 limit + 1)) (feed u before (table w)) in
        let result := assemble (default 20 limit) rows in
        (Ok result,
         mkWorld (table w) (next_id w)
           (<[cacheKey u cursor := mkEntry result (now + CACHE_TTL * 1000)]> (redis w))
           (subscribers w)
           (log w ++ [RedisGet (cacheKey u cursor); PgSelect params;
                      RedisSet (cacheKey u cursor) CACHE_TTL])).
Proof.
  intros Hmiss Hb Hlim. unfold getNotificationsForUser. unfold cursor_bound in Hb.
  destruct (truthy cursor) as [c|] eqn:Hc.
  - destruct (ISODate.Date_parse c) as [t|] eqn:Ht; simplify_eq/=.
    exists [Pg.SqlText u; Pg.SqlInt (default 20 limit + 1); Pg.SqlTimestamp (Some t)].
    split; [reflexivity|].
    mrun. rewrite Hmiss. wsimpl. unfold Pg.select. simpl.
    rewrite (proj2 (Z.leb_le _ _)) by lia.
    unfold assemble, feed. wsimpl. by rewrite <- !app_assoc.
  - simplify_eq/=.
    exists [Pg.SqlText u; Pg.SqlInt (default 20 limit + 1)].
    split; [reflexivity|].
    mrun. rewrite Hmiss. wsimpl. unfold Pg.select. simpl.
    rewrite (proj2 (Z.leb_le _ _)) by lia.
    unfold assemble, feed. wsimpl. by rewrite <- !app_assoc.
Qed.

Lemma getNotificationsForUser_hit
    (u : string) (cursor : option string) (limit : option Z) (now : Z)
    (w : W) (c : Connection) :
  read_live (redis w) (cacheKey u cursor) now = Some c →
  getNotificationsForUser u cursor limit now w
  = (Ok c, mkWorld (table w) (next_id w) (redis w) (subscribers w)
             (log w ++ [RedisGet (cacheKey u cursor)])).
Proof. intros Hhit. unfold getNotificationsForUser. mrun. by rewrite Hhit. Qed.

Lemma createNotification_run (u msg : string) (now : Z) (w : W) :
  let row := Pg.mkRow (next_id w) u msg UNREAD now in
  let keys := matching_keys (redis w) (cachePattern u) now in
  createNotification u msg now w
  = (Ok (nodeOf row),
     mkWorld (table w ++ [row]) (next_id w + 1) (foldr delete (redis w) keys)
       (map (deliver "NOTIFICATION_ADDED" (mkPayload (nodeOf row) u)) (subscribers w))
       (log w ++ [PgInsert row; RedisKeys (cachePattern u)]
              ++ (if (0 <? length keys)%nat then [RedisDel keys] else [])
              ++ [Publish "NOTIFICATION_ADDED" (mkPayload (nodeOf row) u)])).
Proof.
  cbv zeta. unfold createNotification.
  cbv [mbind M_bind bind pg_insert gets modify emit ret mret M_ret]. wsimpl.
  rewrite invalidate_run. unfold invalidated. mrun.
  do 2 f_equal. rewrite <- !app_assoc. done.
Qed.

Lemma updateUserNotification_run (i : Z) (st : NotificationState) (now : Z) (w : W) :
  updateUserNotification i st now w
  = match (Pg.update_state st i (table w)).1 with
    | [] => (Throw NotFound,
             mkWorld (Pg.update_state st i (table w)).2 (next_id w) (redis w)
               (subscribers w) (log w ++ [PgUpdate i st]))
    | row :: _ =>
        let keys := matching_keys (redis w) (cachePattern (Pg.user_id row)) now in
        (Ok (nodeOf row),
         mkWorld (Pg.update_state st i (table w)).2 (next_id w)
           (foldr delete (redis w) keys) (subscribers w)
           (log w ++ [PgUpdate i st; RedisKeys (cachePattern (Pg.user_id row))]
                  ++ (if (0 <? length keys)%nat then [RedisDel keys] else [])))
    end.
Proof.
  unfold updateUserNotification.
  cbv [mbind M_bind bind pg_update gets modify emit ret mret M_ret set_table throw].
  destruct (Pg.update_state st i (table w)) as [rows tbl'] eqn:E. wsimpl.
  destruct rows as [|row rows]; [done|].
  rewrite invalidate_run. unfold invalidated. wsimpl.
  cbv zeta. do 2 f_equal. rewrite <- !app_assoc. done.
Qed.

(** What a page holds when the limit is not negative: the first [limit]
    rows of the feed, and whether the feed has more. *)
Lemma assemble_take (limit : Z) (l : list Pg.Row) :
  0 ≤ limit →
  let page := assemble limit (take (Z.to_nat (limit + 1)) l) in
  edges page = map edgeOf (take (Z.to_nat limit) l)
  ∧ hasNextPage (pageInfo page) = (limit <? Z.of_nat (length l)).
Proof.
  intros H. unfold assemble. cbv zeta. simpl. unfold slice0.
  rewrite (proj2 (Z.leb_le _ _)) by done. rewrite take_take.
  replace (Z.to_nat limit `min` Z.to_nat (limit + 1))%nat with (Z.to_nat limit) by lia.
  split; [done|]. rewrite length_take.
  destruct (limit <? Z.of_nat (length l)) eqn:E.
  - apply Z.ltb_lt in E. apply Z.ltb_lt. lia.
  - apply Z.ltb_ge in E. apply Z.ltb_ge. lia.
Qed.

Lemma lastCursor_edgeOf (l : list Pg.Row) :
  lastCursor (map edgeOf l)
  = (λ r, ISODate.toISOString (Pg.created_at r)) <$> last l.
Proof.
  unfold lastCursor. change (map edgeOf l) with (edgeOf <$> l).
  rewrite fmap_last. by destruct (last l).
Qed.

Lemma cacheKey_cursor_ne_latest (u : string) (t : Z) :
  cacheKey u (Some (ISODate.toISOString t)) ≠ cacheKey u None.
Proof.
  unfold cacheKey. rewrite ISODateFacts.truthy_toISOString. simpl.
  intros H. do 3 apply String.app_inj in H.
  by apply ISODateFacts.toISOString_not_latest in H.
Qed.

Lemma cursor_bound_toISOString (t : Z) :
  ISODate.valid_time t →
  cursor_bound (Some (ISODate.toISOString t)) = Some (Some t).
Proof.
  intros H. unfold cursor_bound. rewrite ISODateFacts.truthy_toISOString.
  by rewrite ISODateFacts.Date_parse_toISOString.
Qed.

Lemma state_name_inj (a b : NotificationState) : state_name a = state_name b → a = b.
Proof. by destruct a, b. Qed.

Lemma elem_of_feed (u : string) (before : option Z) (tbl : list Pg.Row) (r : Pg.Row) :
  r ∈ feed u before tbl
  ↔ r ∈ tbl ∧ Pg.user_id r = u ∧ Pg.state r ≠ DISMISSED
    ∧ match before with Some t => Pg.created_at r < t | None => True end.
Proof.
  unfold feed. rewrite PgFacts.elem_of_ordered_matches.
  assert (state_name (Pg.state r) ≠ "DISMISSED" ↔ Pg.state r ≠ DISMISSED) as ->; [|done].
  split; intros H E; apply H; [by rewrite E|by apply state_name_inj].
Qed.


(** The general case of a call that the store answers. *)
Lemma getNotificationsForUser_miss_page
    (u : string) (cursor : option string) (limit now : Z) (w : W)
    (before : option Z) :
  read_live (redis w) (cacheKey u cursor) now = None →
  cursor_bound cursor = Some before →
  0 ≤ limit →
  ∃ params page w',
    getNotificationsForUser u cursor (Some limit) now w = (Ok page, w')
    ∧ Pg.operand params (Pg.order_limit (query (truthy cursor)))
      = Some (Pg.SqlInt (limit + 1))
    ∧ log w' = log w ++ [RedisGet (cacheKey u cursor); PgSelect params;
                         RedisSet (cacheKey u cursor) CACHE_TTL]
    ∧ table w' = table w
    ∧ redis w' = <[cacheKey u cursor := mkEntry page (now + CACHE_TTL * 1000)]> (redis w)
    ∧ edges page = map edgeOf (take (Z.to_nat limit) (feed u before (table w)))
    ∧ hasNextPage (pageInfo page)
      = (limit <? Z.of_nat (length (feed u before (table w))))
    ∧ endCursor (pageInfo page)
      = (λ r, ISODate.toISOString (Pg.created_at r))
          <$> last (take (Z.to_nat limit) (feed u before (table w))).
Proof.
  intros Hmiss Hb Hlim.
  destruct (getNotificationsForUser_miss u cursor (Some limit) now w before)
    as (params & Hp & Hrun); [done|done|simpl; lia|].
  simpl in Hp, Hrun. cbv zeta in Hrun.
  destruct (assemble_take limit (feed u before (table w)) Hlim) as [He Hn].
  eexists params, _, _. split; [exact Hrun|]. wsimpl.
  split_and!; try done.
  rewrite <- lastCursor_edgeOf, <- He. reflexivity.
Qed.


(** What the pages of a feed of twenty-five rows with distinct
    timestamps are, for any page size. *)
Lemma second_page_rows (u : string) (tbl : list Pg.Row) (n : nat) (r : Pg.Row) :
  NoDup (Pg.created_at <$> feed u None tbl) →
  feed u None tbl !! n = Some r →
  feed u (Some (Pg.created_at r)) tbl = drop (S n) (feed u None tbl).
Proof.
  intros Hnd Hr. unfold feed in *. rewrite PgFacts.ordered_matches_before.
  apply PgFacts.filter_older_drop; [apply PgFacts.ordered_matches_sorted|done..].
Qed.

(** C2 — Claim C2, amended: for a user with exactly 25 visible
    notifications whose creation times are pairwise distinct (and within
    the years that [toISOString] prints with four digits) and an empty
    cache, the call with [limit = 20] returns the 20 newest with
    [hasNextPage = true] and an [endCursor], and the call with that
    cursor and [limit = 20] returns the remaining 5 with
    [hasNextPage = false].  In general, for a limit that is not negative,
    a call that the cache does not answer asks the store for [limit + 1]
    rows, returns the first [limit] rows of the feed before the cursor
    and sets [hasNextPage] exactly when that feed has more than [limit]
    rows. *)
Theorem two_pages_of_twenty_five (w : W) (u : string) (t1 t2 : Z) :
  redis w = ∅ →
  length (feed u None (table w)) = 25%nat →
  NoDup (Pg.created_at <$> feed u None (table w)) →
  Forall (λ r, ISODate.valid_time (Pg.created_at r)) (feed u None (table w)) →
  (∃ page1 w1 c page2 w2,
      getNotificationsForUser u None (Some 20) t1 w = (Ok page1, w1)
      ∧ edges page1 = map edgeOf (take 20 (feed u None (table w)))
      ∧ length (edges page1) = 20%nat
      ∧ hasNextPage (pageInfo page1) = true
      ∧ endCursor (pageInfo page1) = Some c
      ∧ getNotificationsForUser u (Some c) (Some 20) t2 w1 = (Ok page2, w2)
      ∧ edges page2 = map edgeOf (drop 20 (feed u None (table w)))
      ∧ length (edges page2) = 5%nat
      ∧ hasNextPage (pageInfo page2) = false)
  ∧ (∀ (w : W) (cursor : option string) (before : option Z) (limit now : Z),
       read_live (redis w) (cacheKey u cursor) now = None →
       cursor_bound cursor = Some before →
       0 ≤ limit →
       ∃ params page w',
         getNotificationsForUser u cursor (Some limit) now w = (Ok page, w')
         ∧ PgSelect params ∈ log w'
         ∧ Pg.operand params (Pg.order_limit (query (truthy cursor)))
           = Some (Pg.SqlInt (limit + 1))
         ∧ edges page = map edgeOf (take (Z.to_nat limit) (feed u before (table w)))
         ∧ (hasNextPage (pageInfo page) = true
            ↔ limit < Z.of_nat (length (feed u before (table w))))).
Proof.
  intros Hempty Hlen Hnd Hvalid. split.
  - set (L := feed u None (table w)) in *.
    destruct (getNotificationsForUser_miss_page u None 20 t1 w None)
      as (params & page1 & w1 & Hrun1 & _ & _ & Htbl & Hredis & He1 & Hn1 & Hc1);
      [by unfold read_live; rewrite Hempty, lookup_empty|done|lia|].
    fold L in He1, Hn1, Hc1. change (Z.to_nat 20) with 20%nat in *.
    destruct (lookup_lt_is_Some_2 L 19) as [r19 Hr19]; [lia|].
    assert (last (take 20 L) = Some r19) as Hlast.
    { rewrite last_lookup, length_take, Hlen. simpl. by rewrite lookup_take_lt by lia. }
    rewrite Hlast in Hc1. simpl in Hc1.
    assert (ISODate.valid_time (Pg.created_at r19)) as Hv.
    { eapply Forall_forall in Hvalid; [exact Hvalid|]. by eapply list_elem_of_lookup_2. }
    destruct (getNotificationsForUser_miss_page u
                (Some (ISODate.toISOString (Pg.created_at r19))) 20 t2 w1
                (Some (Pg.created_at r19)))
      as (params2 & page2 & w2 & Hrun2 & _ & _ & _ & _ & He2 & Hn2 & _);
      [|by apply cursor_bound_toISOString|lia|].
    { rewrite Hredis, Hempty. rewrite read_live_insert_ne.
      - by unfold read_live; rewrite lookup_empty.
      - intros E. by eapply cacheKey_cursor_ne_latest. }
    rewrite Htbl in He2, Hn2. change (Z.to_nat 20) with 20%nat in *.
    rewrite (second_page_rows u (table w) 19 r19 Hnd Hr19) in He2, Hn2.
    fold L in He2, Hn2.
    assert (length (drop 20 L) = 5%nat) as Hd by (rewrite length_drop; lia).
    rewrite take_ge in He2 by lia.
    exists page1, w1, (ISODate.toISOString (Pg.created_at r19)), page2, w2.
    split_and!; try done.
    + rewrite He1, length_map, length_take. lia.
    + rewrite Hn1, Hlen. reflexivity.
    + by rewrite He2, length_map.
    + rewrite Hn2, Hd. reflexivity.
  - intros w' cursor before limit now Hmiss Hb Hlim.
    destruct (getNotificationsForUser_miss_page u cursor limit now w' before)
      as (params & page & w'' & Hrun & Hp & Hlog & _ & _ & He & Hn & _); [done..|].
    exists params, page, w''. split_and!; try done.
    + rewrite Hlog. set_solver.
    + rewrite Hn. apply Z.ltb_lt.
Qed.

(** A second call with the same arguments, made while the entry that
    answered or recorded the first is live, returns the same connection
    and does not reach the store. *)
Lemma getNotificationsForUser_again
    (u : string) (cursor : option string) (limit : option Z) (t1 t2 : Z)
    (w w1 : W) (page : Connection) :
  getNotificationsForUser u cursor limit t1 w = (Ok page, w1) →
  is_Some (read_live (redis w1) (cacheKey u cursor) t2) →
  getNotificationsForUser u cursor limit t2 w1
  = (Ok page, mkWorld (table w1) (next_id w1) (redis w1) (subscribers w1)
                (log w1 ++ [RedisGet (cacheKey u cursor)])).
Proof.
  intros Hrun [c Hc]. apply getNotificationsForUser_hit. rewrite Hc. f_equal.
  revert Hrun. unfold getNotificationsForUser. mrun.
  destruct (read_live (redis w) (cacheKey u cursor) t1) as [c0|] eqn:Hfirst.
  - intros H. simplify_eq. wsimpl in Hc. unfold read_live in *.
    destruct (redis w !! cacheKey u cursor) as [e|]; [|done].
    repeat case_match; congruence.
  - wsimpl. destruct (Pg.select _ _ _) as [rows|]; [|done].
    intros H. simplify_eq. wsimpl in Hc. unfold read_live in Hc.
    rewrite lookup_insert_eq in Hc. simpl in Hc. by case_match; simplify_eq.
Qed.

(** Idempotence of the read path: within the time to live of the entry
    written by a first call that the store answered, a second call with
    the same arguments is served from the cache with the same result. *)
Lemma getNotificationsForUser_idempotent
    (u : string) (cursor : option string) (limit : option Z) (t1 t2 : Z)
    (w w1 : W) (page : Connection) :
  read_live (redis w) (cacheKey u cursor) t1 = None →
  getNotificationsForUser u cursor limit t1 w = (Ok page, w1) →
  t2 < t1 + CACHE_TTL * 1000 →
  ∃ w2, getNotificationsForUser u cursor limit t2 w1 = (Ok page, w2)
        ∧ table w2 = table w1 ∧ redis w2 = redis w1
        ∧ log w2 = log w1 ++ [RedisGet (cacheKey u cursor)]
        ∧ (redis w1 !! cacheKey u cursor)
          = Some (mkEntry page (t1 + CACHE_TTL * 1000)).
Proof.
  intros Hmiss Hrun Ht.
  assert (redis w1 !! cacheKey u cursor = Some (mkEntry page (t1 + CACHE_TTL * 1000)))
    as Hentry.
  { revert Hrun. unfold getNotificationsForUser. mrun. rewrite Hmiss. wsimpl.
    destruct (Pg.select _ _ _) as [rows|]; [|done].
    intros H. simplify_eq. wsimpl. by rewrite lookup_insert_eq. }
  exists (mkWorld (table w1) (next_id w1) (redis w1) (subscribers w1)
            (log w1 ++ [RedisGet (cacheKey u cursor)])).
  split; [|by split_and!].
  eapply getNotificationsForUser_again; [exact Hrun|].
  unfold read_live. rewrite Hentry. unfold live. simpl.
  rewrite (proj2 (Z.ltb_lt _ _)) by done. by eexists.
Qed.








Lemma two_pages_of_twenty_five_witness :
  redis Samples.scalable_twenty_five = ∅
  ∧ length (feed "user123" None (table Samples.scalable_twenty_five)) = 25%nat
  ∧ NoDup (Pg.created_at <$> feed "user123" None (table Samples.scalable_twenty_five))
  ∧ Forall (λ r, ISODate.valid_time (Pg.created_at r))
      (feed "user123" None (table Samples.scalable_twenty_five))
  ∧ ∃ page1 w1 c page2 w2,
      getNotificationsForUser "user123" None (Some 20) Samples.t0
        Samples.scalable_twenty_five = (Ok page1, w1)
      ∧ length (edges page1) = 20%nat
      ∧ hasNextPage (pageInfo page1) = true
      ∧ endCursor (pageInfo page1) = Some c
      ∧ getNotificationsForUser "user123" (Some c) (Some 20) Samples.t0 w1
        = (Ok page2, w2)
      ∧ length (edges page2) = 5%nat
      ∧ hasNextPage (pageInfo page2) = false.
Proof.
  assert (redis Samples.scalable_twenty_five = ∅) as H1 by reflexivity.
  assert (length (feed "user123" None (table Samples.scalable_twenty_five)) = 25%nat)
    as H2 by reflexivity.
  assert (NoDup (Pg.created_at <$> feed "user123" None (table Samples.scalable_twenty_five)))
    as H3 by (apply (bool_decide_unpack _); by vm_compute).
  assert (Forall (λ r, ISODate.valid_time (Pg.created_at r))
            (feed "user123" None (table Samples.scalable_twenty_five))) as H4.
  { apply ISODateFacts.Forall_valid_time. by vm_compute. }
  split_and!; [exact H1|exact H2|exact H3|exact H4|].
  destruct (two_pages_of_twenty_five Samples.scalable_twenty_five "user123"
              Samples.t0 Samples.t0 H1 H2 H3 H4)
    as [(page1 & w1 & c & page2 & w2 & Hr1 & _ & Hl1 & Hn1 & Hc & Hr2 & _ & Hl2 & Hn2) _].
  by exists page1, w1, c, page2, w2.
Defined.

(** With two equal timestamps across the page boundary the second page
    of twenty-five notifications has four edges, not five. *)
Lemma twenty_five_with_a_tie :
  redis Samples.scalable_tie = ∅
  ∧ length (feed "user123" None (table Samples.scalable_tie)) = 25%nat
  ∧ ∃ page1 w1 c page2 w2,
      getNotificationsForUser "user123" None (Some 20) Samples.t0 Samples.scalable_tie
      = (Ok page1, w1)
      ∧ length (edges page1) = 20%nat
      ∧ hasNextPage (pageInfo page1) = true
      ∧ endCursor (pageInfo page1) = Some c
      ∧ getNotificationsForUser "user123" (Some c) (Some 20) Samples.t0 w1
        = (Ok page2, w2)
      ∧ length (edges page2) = 4%nat
      ∧ hasNextPage (pageInfo page2) = false.
Proof.
  split; [reflexivity|]. split; [reflexivity|].
  eexists _, _, _, _, _.
  split; [vm_compute; reflexivity|].
  split; [reflexivity|]. split; [reflexivity|]. split; [reflexivity|].
  split; [vm_compute; reflexivity|].
  split; reflexivity.
Qed.

(** *** Dismissed notifications never reach a page *)

Lemma select_not_dismissed
    (cursor : option string) (params : list Pg.SqlValue)
    (tbl rows : list Pg.Row) :
  Pg.select (query cursor) params tbl = Some rows →
  Forall (λ r, Pg.state r ≠ DISMISSED) rows.
Proof.
  intros (u & st & before & lim & Hst & _ & _ & ->)%PgFacts.select_Some.
  simpl in Hst. simplify_eq.
  apply Forall_forall. intros r Hr%subseteq_take.
  by apply (elem_of_feed u before tbl r) in Hr as (_ & _ & ? & _).
Qed.

Lemma assemble_clean (limit : Z) (rows : list Pg.Row) :
  Forall (λ r, Pg.state r ≠ DISMISSED) rows →
  shows_no_dismissed (assemble limit rows).
Proof.
  intros H. unfold shows_no_dismissed, assemble. simpl.
  apply Forall_forall. intros e (r & -> & Hr)%list_elem_of_fmap. simpl.
  eapply Forall_forall in H; [exact H|].
  unfold slice0 in Hr. destruct (0 <=? limit); by apply subseteq_take in Hr.
Qed.

Lemma cache_clean_purged (w w' : W) (keys : list string) :
  redis w' = foldr delete (redis w) keys → cache_clean w → cache_clean w'.
Proof.
  intros Hr Hc k e Hk. rewrite Hr, foldr_delete_lookup in Hk.
  destruct (decide (k ∈ keys)); [done|]. by eapply Hc.
Qed.

(** The pages in the cache and the pages returned hold no dismissed
    notification, whatever is called. *)
Lemma getNotificationsForUser_clean
    (u : string) (cursor : option string) (limit : option Z) (now : Z)
    (w w' : W) (r : Result Connection) :
  cache_clean w →
  getNotificationsForUser u cursor limit now w = (r, w') →
  cache_clean w' ∧ ∀ page, r = Ok page → shows_no_dismissed page.
Proof.
  intros Hc. unfold getNotificationsForUser. mrun.
  destruct (read_live (redis w) (cacheKey u cursor) now) as [c|] eqn:Hget.
  - intros H. simplify_eq. split; [exact Hc|]. intros page Hp. simplify_eq.
    unfold read_live in Hget.
    destruct (redis w !! cacheKey u cursor) as [e|] eqn:He; [|done].
    destruct (live now e); [|done]. simplify_eq. by eapply Hc.
  - wsimpl. destruct (Pg.select _ _ _) as [rows|] eqn:Hsel.
    + intros H. simplify_eq.
      assert (shows_no_dismissed (assemble (default 20 limit) rows)) as Hpage.
      { eapply assemble_clean, select_not_dismissed, Hsel. }
      split; [|by intros page Hp; simplify_eq].
      intros k e. wsimpl. rewrite lookup_insert.
      case_decide; [|by apply Hc]. intros He. by simplify_eq.
    + intros H. simplify_eq. split; [exact Hc|done].
Qed.

Lemma createNotification_clean (u msg : string) (now : Z) (w : W) :
  cache_clean w → cache_clean (createNotification u msg now w).2.
Proof.
  intros Hc. pose proof (createNotification_run u msg now w) as H. cbv zeta in H.
  rewrite H. by eapply cache_clean_purged.
Qed.

Lemma updateUserNotification_clean
    (i : Z) (st : NotificationState) (now : Z) (w : W) :
  cache_clean w → cache_clean (updateUserNotification i st now w).2.
Proof.
  intros Hc. rewrite updateUserNotification_run.
  destruct (Pg.update_state st i (table w)).1 as [|row rows].
  - simpl. by apply (cache_clean_purged w _ []).
  - by eapply cache_clean_purged.
Qed.

Lemma cache_clean_empty (w : W) : redis w = ∅ → cache_clean w.
Proof. intros H k e. by rewrite H, lookup_empty. Qed.

(** *** Fan-out *)

Lemma topic_is_never_published (u' : string) :
  String.eqb ("NOTIFICATION_ADDED:" +:+ u') "NOTIFICATION_ADDED" = false.
Proof.
  apply String.eqb_neq. intros H. apply (f_equal String.length) in H.
  rewrite GlobFacts.length_append in H. simpl in H. lia.
Qed.

(** The mutation publishes on ["NOTIFICATION_ADDED"] and the subscription
    listens on ["NOTIFICATION_ADDED:" + userId]: a subscriber is pushed
    nothing, not even for its own user. *)
Lemma subscriber_gets_nothing (w : W) (u u' msg : string) (now : Z) :
  ∃ h w1 note w2,
    subscribe u' w = (Ok h, w1)
    ∧ createNotification u msg now w1 = (Ok note, w2)
    ∧ Publish "NOTIFICATION_ADDED" (mkPayload note u) ∈ log w2
    ∧ pushes h w2 = [].
Proof.
  set (w1 := mkWorld (table w) (next_id w) (redis w)
               (subscribers w ++ [mkSubscriber ("NOTIFICATION_ADDED:" +:+ u') []])
               (log w)).
  pose proof (createNotification_run u msg now w1) as Hrun. cbv zeta in Hrun.
  eexists (length (subscribers w)), w1, _, _.
  split; [by unfold subscribe; mrun|]. split; [exact Hrun|]. split.
  - wsimpl. rewrite !elem_of_app. right. right. right. apply list_elem_of_here.
  - unfold pushes, received. wsimpl. change (map ?f ?l) with (f <$> l).
    rewrite list_lookup_fmap. subst w1. wsimpl.
    rewrite lookup_app_r, Nat.sub_diag by lia.
    cbn [lookup list_lookup fmap option_fmap option_map]. unfold deliver.
    cbn [sub_topic]. by rewrite topic_is_never_published.
Qed.

End ScalableFacts.

(** ** Facts on [typescript-notification-service.ts] *)

Module TypedFacts.
Import Typed TypedNotions.

Lemma invalidateCache_run (u : string) (now : Z) (w : W) :
  Database.invalidateCache u now w
  = (Ok tt, invalidated (Database.cachePattern u) now w).
Proof.
  unfold Database.invalidateCache, invalidated. mrun.
  destruct (matching_keys (redis w) (Database.cachePattern u) now) as [|k keys];
    simpl; [done|].
  by rewrite <- app_assoc.
Qed.

Lemma Database_createNotification_run (u msg : string) (now : Z) (w : W) :
  let row := Pg.mkRow (next_id w) u msg UNREAD now in
  Database.createNotification u msg now w
  = (Ok (Database.mapNotification row),
     invalidated (Database.cachePattern u) now
       (mkWorld (table w ++ [row]) (next_id w + 1) (redis w) (subscribers w)
          (log w ++ [PgInsert row]))).
Proof.
  cbv zeta. unfold Database.createNotification.
  cbv [mbind M_bind bind pg_insert gets modify emit ret mret M_ret]. wsimpl.
  by rewrite invalidateCache_run.
Qed.

(** What [Mutation.createNotification] returns and leaves behind. *)
Lemma resolver_createNotification_run (w : W) (u msg : string) (now : Z) :
  let row := Pg.mkRow (next_id w) u msg UNREAD now in
  let keys := matching_keys (redis w) (Database.cachePattern u) now in
  let notification := Database.mapNotification row in
  createNotification u msg now w
  = (Ok notification,
     mkWorld (table w ++ [row]) (next_id w + 1) (foldr delete (redis w) keys)
       (map (deliver (topic u) (wire (mkPayload notification))) (subscribers w))
       (log w
        ++ [PgInsert row]
        ++ RedisKeys (Database.cachePattern u)
           :: (if (0 <? length keys)%nat then [RedisDel keys] else [])
        ++ [Publish (topic u) (mkPayload notification)])).
Proof.
  cbv zeta. unfold createNotification.
  pose proof (Database_createNotification_run u msg now w) as Hdb. cbv zeta in Hdb.
  cbv [mbind M_bind bind]. rewrite Hdb. unfold invalidated. mrun.
  do 2 f_equal. rewrite <- !app_assoc. reflexivity.
Qed.

(** The events of [createNotification], in their order: the row is
    inserted with state [UNREAD], then the keys that the pattern of the
    user matches are looked up and deleted, then the created notification
    is published on the topic of the user; the publication is the last
    event of the call.  For a user id without glob metacharacters no page
    of the user can be read from the cache afterwards. *)
Lemma create_effects_in_order (w : W) (u msg : string) (now : Z) :
  ∃ row keys notification w',
    createNotification u msg now w = (Ok notification, w')
    ∧ row = Pg.mkRow (next_id w) u msg UNREAD now
    ∧ notification = Database.mapNotification row
    ∧ keys = matching_keys (redis w) (Database.cachePattern u) now
    ∧ log w'
      = log w
        ++ [PgInsert row]
        ++ RedisKeys (Database.cachePattern u)
           :: (if (0 <? length keys)%nat then [RedisDel keys] else [])
        ++ [Publish (topic u) (mkPayload notification)]
    ∧ table w' = table w ++ [row]
    ∧ redis w' = foldr delete (redis w) keys
    ∧ (∀ k e, redis w !! k = Some e →
              Glob.stringmatch (Database.cachePattern u) k = true →
              live now e = true → redis w' !! k = None)
    ∧ (Glob.literal u = true →
       ∀ cursor now', now ≤ now' →
         read_live (redis w') (Database.cacheKey u cursor) now' = None).
Proof.
  pose proof (resolver_createNotification_run w u msg now) as Hrun. cbv zeta in Hrun.
  eexists _, _, _, _. split; [exact Hrun|]. wsimpl.
  split_and!; try reflexivity.
  - intros k e Hk Hm Hl. rewrite foldr_delete_lookup.
    rewrite decide_True; [done|]. apply elem_of_matching_keys. eauto.
  - intros Hu cursor now' Hle. apply read_live_purged; [|done].
    by apply GlobFacts.pattern_matches_key.
Qed.

(** C6 — Claim C6 at its failing input.  The claim: a creation inserts
    the row, then invalidates every cached page of the user, then
    publishes.  Here the user is [user[1]], and the page that a call
    with a cursor has cached for that user holds one notification.  The
    creation inserts the row, asks for [KEYS notifications:user[1]:*] and
    publishes, in this order, and deletes nothing: in the pattern [[1]]
    is a character class, which the key of the user's page does not
    match.  The page is in the cache after the publication as it was
    before, and the same call after it is answered from the cache with
    the one notification, where the store has two for that cursor. *)
Theorem invalidation_misses_the_user :
  let u := "user[1]" in
  let key := Database.cacheKey u (Some MoreSamples.cursor100) in
  ∃ page w1 notification w2 stale w3,
    getNotificationsForUser u (Some MoreSamples.cursor100) (Some 20)
      (Samples.t0 + 10) MoreSamples.typed_glob = (Ok page, w1)
    ∧ length (edges page) = 1%nat
    ∧ createNotification u "again" (Samples.t0 + 11) w1 = (Ok notification, w2)
    ∧ log w2
      = log w1
        ++ [PgInsert (Pg.mkRow 2 u "again" UNREAD (Samples.t0 + 11));
            RedisKeys (Database.cachePattern u);
            Publish (topic u) (mkPayload notification)]
    ∧ Glob.stringmatch (Database.cachePattern u) key = false
    ∧ redis w2 !! key = redis w1 !! key
    ∧ read_live (redis w2) key (Samples.t0 + 12) = Some stale
    ∧ Database.getNotificationsForUser u (Some MoreSamples.cursor100) (Some 20)
        (Samples.t0 + 12) w2 = (Ok stale, w3)
    ∧ log w3 = log w2 ++ [RedisGet key]
    ∧ length stale = 1%nat
    ∧ length (feed u (Some (Samples.t0 + 100)) (table w2)) = 2%nat.
Proof.
  cbv zeta. eexists _, _, _, _, _, _.
  split; [vm_compute; reflexivity|]. split; [reflexivity|].
  split; [vm_compute; reflexivity|]. split; [reflexivity|].
  split; [vm_compute; reflexivity|]. split; [vm_compute; reflexivity|].
  split; [vm_compute; reflexivity|].
  split; [vm_compute; reflexivity|]. split; [reflexivity|].
  split; [reflexivity|]. vm_compute; reflexivity.
Qed.

(** *** The retention sweeper *)

(** The one statement of [cleanupOldNotifications] is rejected by the
    server: nothing is deleted and the promise is rejected. *)
Lemma cleanupOldNotifications_run (tz : ISODate.TimeZone) (daysOld batchSize now : Z)
    (w : W) :
  Database.cleanupOldNotifications tz daysOld batchSize now w
  = (Throw QueryError,
     mkWorld (table w) (next_id w) (redis w) (subscribers w)
       (log w ++ [PgDelete (ISODate.daysAgo tz now daysOld) batchSize])).
Proof. unfold Database.cleanupOldNotifications. by mrun. Qed.

(** C8 — Claim C8 at its failing input, and in general.  In every time
    zone, at every clock and from every store, a run of
    [CleanupJob.cleanup] sends one statement, the [DELETE ... LIMIT] of
    the first batch with the cutoff seven days back and the limit 1000,
    and ends there with the error of the server: no row is deleted, no
    pause follows, no total is printed.  On the store with a row eight
    days old, a row nine days old and a row one day old, the three rows
    are all there after the run, the two older than the window
    included. *)
Theorem sweeper_throws :
  (∀ (tz : ISODate.TimeZone) (clock : nat → Z) (w : W),
     CleanupJob.cleanup tz clock w
     = (Throw QueryError,
        mkWorld (table w) (next_id w) (redis w) (subscribers w)
          (log w ++ [PgDelete (cutoff tz clock 0) CleanupJob.BATCH_SIZE])))
  ∧ (let w' := (CleanupJob.cleanup ISODate.utc Samples.ticking
                  Samples.typed_old_and_new).2 in
     table w' = table Samples.typed_old_and_new
     ∧ List.filter (λ r, Pg.created_at r <? cutoff ISODate.utc Samples.ticking 0)
         (table w')
       = [Pg.mkRow 1 "user123" "old" UNREAD (Samples.t0 - 8 * ISODate.msPerDay);
          Pg.mkRow 3 "user456" "old" DISMISSED (Samples.t0 - 9 * ISODate.msPerDay)]).
Proof.
  assert (∀ (tz : ISODate.TimeZone) (clock : nat → Z) (w : W),
     CleanupJob.cleanup tz clock w
     = (Throw QueryError,
        mkWorld (table w) (next_id w) (redis w) (subscribers w)
          (log w ++ [PgDelete (cutoff tz clock 0) CleanupJob.BATCH_SIZE]))) as Hrun.
  { intros tz clock w. unfold CleanupJob.cleanup. cbn [CleanupJob.cleanup_loop].
    cbv [mbind M_bind bind]. by rewrite cleanupOldNotifications_run. }
  split; [exact Hrun|]. cbv zeta. rewrite Hrun. cbn [snd table]. split; [done|].
  by vm_compute.
Qed.

(** *** State updates *)

Lemma updateNotification_run (i : Z) (st : NotificationState) (now : Z) (w : W) :
  updateNotification i st now w
  = match (Pg.update_state st i (table w)).1 with
    | [] => (Throw NotFound,
             mkWorld (Pg.update_state st i (table w)).2 (next_id w) (redis w)
               (subscribers w) (log w ++ [PgUpdate i st]))
    | row :: _ =>
        let keys := matching_keys (redis w) (Database.cachePattern (Pg.user_id row)) now in
        (Ok (Database.mapNotification row),
         mkWorld (Pg.update_state st i (table w)).2 (next_id w)
           (foldr delete (redis w) keys) (subscribers w)
           (log w ++ [PgUpdate i st; RedisKeys (Database.cachePattern (Pg.user_id row))]
                  ++ (if (0 <? length keys)%nat then [RedisDel keys] else [])))
    end.
Proof.
  unfold updateNotification, Database.updateNotification.
  cbv [mbind M_bind bind pg_update gets modify emit ret mret M_ret set_table throw].
  destruct (Pg.update_state st i (table w)) as [rows tbl'] eqn:E. wsimpl.
  destruct rows as [|row rows]; [done|].
  rewrite invalidateCache_run. unfold invalidated. wsimpl.
  cbv zeta. do 2 f_equal. rewrite <- !app_assoc. done.
Qed.

(** The table after any call of [updateNotification]. *)
Lemma updateNotification_table (i : Z) (st : NotificationState) (now : Z) (w : W) :
  table (updateNotification i st now w).2 = (Pg.update_state st i (table w)).2
  ∧ next_id (updateNotification i st now w).2 = next_id w
  ∧ subscribers (updateNotification i st now w).2 = subscribers w.
Proof.
  rewrite updateNotification_run.
  by destruct (Pg.update_state st i (table w)).1.
Qed.

(** An update succeeds exactly when a row has the id, whatever the state
    of the row and the state asked for. *)
Lemma updateNotification_any_transition
    (i : Z) (st : NotificationState) (now : Z) (w : W) (r : Pg.Row) :
  r ∈ table w → Pg.id r = i →
  ∃ notification w',
    updateNotification i st now w = (Ok notification, w')
    ∧ state notification = st
    ∧ Pg.with_state st r ∈ table w'.
Proof.
  intros Hr Hi.
  pose proof (updateNotification_table i st now w) as (Ht & _).
  pose proof (updateNotification_run i st now w) as Hrun.
  assert (Pg.with_state st r ∈ (Pg.update_state st i (table w)).2) as Hin.
  { unfold Pg.update_state. simpl. apply list_elem_of_fmap. exists r.
    by rewrite (proj2 (Z.eqb_eq _ _)). }
  destruct (Pg.update_state st i (table w)).1 as [|row rows] eqn:E.
  - exfalso. assert (Pg.with_state st r ∈ (Pg.update_state st i (table w)).1) as H.
    { unfold Pg.update_state in *. simpl in *. apply PgFacts.elem_of_filter.
      split; [done|]. simpl. by apply Z.eqb_eq. }
    rewrite E in H. by apply elem_of_nil in H.
  - eexists _, _. split; [exact Hrun|]. split.
    + simpl. assert (row ∈ (Pg.update_state st i (table w)).1) as H
        by (rewrite E; apply list_elem_of_here).
      by apply PgFacts.update_state_returning in H as [_ ?].
    + rewrite Hrun in Ht. simpl in Ht. wsimpl. done.
Qed.

(** *** Fan-out *)

Lemma topic_inj (u u' : string) : topic u = topic u' → u = u'.
Proof. unfold topic. apply String.app_inj. Qed.

Lemma createNotification_pushes
    (u msg : string) (now : Z) (w : W) (h : nat) (s : Subscriber Payload) :
  subscribers w !! h = Some s →
  ∃ notification w',
    createNotification u msg now w = (Ok notification, w')
    ∧ pushes h w'
      = pushes h w
        ++ (if String.eqb (sub_topic s) (topic u) then [json notification] else []).
Proof.
  intros Hs.
  pose proof (resolver_createNotification_run w u msg now) as Hrun. cbv zeta in Hrun.
  eexists _, _. split; [exact Hrun|].
  unfold pushes, received. wsimpl.
  change (map ?f ?l) with (f <$> l).
  rewrite list_lookup_fmap, Hs. simpl. unfold deliver.
  destruct (String.eqb (sub_topic s) (topic u)); simpl.
  - by rewrite fmap_app.
  - by rewrite app_nil_r.
Qed.

(** A subscriber that subscribed for [u'] before a creation for [u] is
    pushed the created notification once if [u' = u], as the transport
    hands it over, and nothing otherwise. *)
Lemma subscriber_gets_own_user_only
    (u u' msg : string) (now : Z) (w : W) :
  ∃ h w1 notification w2,
    subscribe u' w = (Ok h, w1)
    ∧ createNotification u msg now w1 = (Ok notification, w2)
    ∧ pushes h w1 = []
    ∧ pushes h w2 = if decide (u' = u) then [json notification] else [].
Proof.
  unfold subscribe.
  set (w1 := mkWorld (table w) (next_id w) (redis w)
               (subscribers w ++ [mkSubscriber (topic u') []]) (log w)).
  assert (subscribers w1 !! length (subscribers w) = Some (mkSubscriber (topic u') []))
    as Hs.
  { subst w1. wsimpl. by rewrite lookup_app_r, Nat.sub_diag by lia. }
  destruct (createNotification_pushes u msg now w1 _ _ Hs) as (n & w2 & Hrun & Hp).
  exists (length (subscribers w)), w1, n, w2.
  assert (pushes (length (subscribers w)) w1 = []) as He.
  { unfold pushes, received. by rewrite Hs. }
  split; [by mrun|]. split; [exact Hrun|]. split; [exact He|].
  rewrite Hp, He, app_nil_l.
  destruct (decide (u' = u)) as [->|Hne].
  - by rewrite String.eqb_refl.
  - rewrite (proj2 (String.eqb_neq _ _)); [done|].
    intros H. by apply topic_inj in H.
Qed.

(** *** What goes wrong in this sketch *)

(** C9 — Claim C9 at its failing input.  The claim: two calls with the
    same arguments and no write in between return the same connection,
    the second from the cache, which holds the assembled connection.
    Here the first call computes the page from the store and caches the
    mapped rows as JSON, not the connection; the same call again, one
    millisecond later, finds them in the cache, where [createdAt] is a
    string, and the resolver throws a [TypeError] on [toISOString]
    after the one [GET]. *)
Theorem cache_hit_throws :
  ∃ page w1 w2,
    getNotificationsForUser "user123" (Some Samples.cursor5) (Some 20)
      (Samples.t0 + 10) Samples.typed_one = (Ok page, w1)
    ∧ length (edges page) = 1%nat
    ∧ table w1 = table Samples.typed_one
    ∧ getNotificationsForUser "user123" (Some Samples.cursor5) (Some 20)
        (Samples.t0 + 11) w1 = (Throw TypeError, w2)
    ∧ log w2 = log w1 ++ [RedisGet (Database.cacheKey "user123" (Some Samples.cursor5))].
Proof.
  eexists _, _, _.
  split; [vm_compute; reflexivity|]. split; [reflexivity|]. split; [reflexivity|].
  split; [vm_compute; reflexivity|]. reflexivity.
Qed.

(** The query asks for [limit] rows, not [limit + 1]: with two rows
    before the cursor and [limit = 1] the page has one edge and
    [hasNextPage] is false. *)
Lemma has_next_page_is_false :
  ∃ page w1,
    getNotificationsForUser "user123" (Some Samples.cursor5) (Some 1)
      (Samples.t0 + 10) Samples.typed_two = (Ok page, w1)
    ∧ length (edges page) = 1%nat
    ∧ hasNextPage (pageInfo page) = false
    ∧ length (feed "user123" (Some (Samples.t0 + 5)) (table Samples.typed_two)) = 2%nat.
Proof.
  eexists _, _. split; [vm_compute; reflexivity|]. by split_and!.
Qed.

(** Without a cursor the statement names [$4] and three values are
    bound: the database rejects it. *)
Lemma first_page_is_rejected :
  ∃ w1,
    getNotificationsForUser "user123" None (Some 20) (Samples.t0 + 10)
      Samples.typed_two = (Throw QueryError, w1).
Proof. eexists. vm_compute. reflexivity. Qed.

(** *** Pages after a cursor *)

Lemma mapM_edges (rows : list Pg.Row) (w : W) :
  mapM (λ notification,
          c ← toISOString (createdAt notification);
          ret (mkEdge notification c))
       (map Database.mapNotification rows) w
  = (Ok (map edgeOf rows), w).
Proof.
  induction rows as [|row rows IH]; [done|].
  cbn [map mapM]. cbv [mbind M_bind bind toISOString ret mret M_ret] in *.
  cbn [Database.mapNotification createdAt]. rewrite IH. reflexivity.
Qed.



End TypedFacts.

(** ** Facts on the Prisma resolvers *)

Module PrismaFacts.
Import Prisma.



Lemma find_id_Some (tbl : list Notification) (id0 : Z) (n : Notification) :
  n ∈ tbl → id n = id0 →
  ∃ n0, List.find (λ n, id n =? id0) tbl = Some n0 ∧ id n0 = id0 ∧ n0 ∈ tbl.
Proof.
  intros Hn Hid. destruct (List.find (λ n, id n =? id0) tbl) as [n0|] eqn:E.
  - apply find_some in E as [?%list_elem_of_In ?%Z.eqb_eq]. eauto.
  - eapply find_none in E; [|by apply list_elem_of_In].
    simpl in E. apply Z.eqb_neq in E. done.
Qed.

Lemma prisma_update_run (w : World) (id0 : Z) (st : string) (n0 : Notification) :
  List.find (λ n, id n =? id0) (notification w) = Some n0 →
  prisma_update id0 st w
  = (Ok (with_state st n0),
     mkWorld (map (λ n, if id n =? id0 then with_state st n else n) (notification w))
       (next_id w) (log w ++ [Update id0 st])).
Proof.
  intros H. unfold prisma_update.
  cbv [mbind M_bind bind gets modify emit ret mret M_ret]. by rewrite H.
Qed.

(** Any record can be moved to any state of the enum. *)
Lemma update_any_transition
    (w : World) (id0 : Z) (st : string) (n : Notification) :
  st ∈ NotificationState.values → n ∈ notification w → id n = id0 →
  ∃ n' w',
    updateUserNotification id0 st w = (Ok n', w')
    ∧ state n' = st
    ∧ with_state st n ∈ notification w'
    ∧ log w' = log w ++ [Update id0 st].
Proof.
  intros Hst Hn Hid. destruct (find_id_Some _ _ _ Hn Hid) as (n0 & Hf & _ & _).
  unfold updateUserNotification. rewrite bool_decide_eq_true_2 by done. simpl.
  rewrite (prisma_update_run w id0 st n0 Hf).
  eexists _, _. split; [reflexivity|]. simpl. split_and!; try done.
  apply list_elem_of_fmap. exists n. by rewrite (proj2 (Z.eqb_eq _ _)).
Qed.

(** What a successful update does to the records. *)
Lemma update_frame (w w' : World) (id0 : Z) (st : string) (n' : Notification) :
  updateUserNotification id0 st w = (Ok n', w') →
  notification w'
  = map (λ n, if id n =? id0 then with_state st n else n) (notification w)
  ∧ next_id w' = next_id w.
Proof.
  unfold updateUserNotification. case_bool_decide; simpl; [|done].
  unfold prisma_update. cbv [mbind M_bind bind gets modify emit ret mret M_ret throw].
  destruct (List.find _ _); [|done]. intros Hrun. by simplify_eq.
Qed.

(** The feed of a user: the user's records in any state but [DISMISSED]. *)
Lemma getNotificationsForUser_spec (w : World) (u : Z) :
  ∃ l w',
    getNotificationsForUser u w = (Ok l, w')
    ∧ notification w' = notification w
    ∧ ∀ n, n ∈ l ↔ n ∈ notification w ∧ userId n = u
                    ∧ state n ≠ NotificationState.DISMISSED.
Proof.
  unfold getNotificationsForUser.
  cbv [mbind M_bind bind gets modify emit ret mret M_ret]. simpl.
  eexists _, _. split; [reflexivity|]. split; [done|].
  intros n. rewrite PgFacts.elem_of_filter, andb_true_iff, negb_true_iff.
  by rewrite Z.eqb_eq, String.eqb_neq.
Qed.

(** A dismissed record goes back to [UNREAD], an auto-dismissed one to
    [VIEWED]: the two states are not terminal. *)
Lemma dismissed_goes_back_to_unread :
  ∃ n1 w1 n2 w2,
    updateUserNotification 1 "UNREAD" Samples.prisma_three = (Ok n1, w1)
    ∧ Prisma.mkNotification 1 1 "first" "DISMISSED" Samples.t0
      ∈ notification Samples.prisma_three
    ∧ n1 = Prisma.mkNotification 1 1 "first" "UNREAD" Samples.t0
    ∧ n1 ∈ notification w1
    ∧ updateUserNotification 2 "VIEWED" w1 = (Ok n2, w2)
    ∧ Prisma.mkNotification 2 1 "second" "AUTODISMISSED" (Samples.t0 + 1)
      ∈ notification w1
    ∧ n2 = Prisma.mkNotification 2 1 "second" "VIEWED" (Samples.t0 + 1)
    ∧ n2 ∈ notification w2.
Proof.
  eexists _, _, _, _.
  split; [vm_compute; reflexivity|].
  split; [apply (bool_decide_unpack _); by vm_compute|].
  split; [reflexivity|].
  split; [apply (bool_decide_unpack _); by vm_compute|].
  split; [vm_compute; reflexivity|].
  split; [apply (bool_decide_unpack _); by vm_compute|].
  split; [reflexivity|].
  apply (bool_decide_unpack _); by vm_compute.
Qed.

(** An auto-dismissed notification is in the feed of its user. *)
Lemma autodismissed_is_in_the_feed :
  ∃ l w',
    getNotificationsForUser 1 Samples.prisma_three = (Ok l, w')
    ∧ Prisma.mkNotification 2 1 "second" "AUTODISMISSED" (Samples.t0 + 1) ∈ l
    ∧ Prisma.mkNotification 1 1 "first" "DISMISSED" Samples.t0 ∉ l.
Proof.
  eexists _, _. split; [vm_compute; reflexivity|].
  split; apply (bool_decide_unpack _); by vm_compute.
Qed.

End PrismaFacts.

(** ** Facts on the in-memory [server.js] *)

Module InMemoryFacts.
Import InMemory.

Lemma memory_updateUserNotification_run
    (w : World) (id0 : string) (st : NotificationState) (n : Notification) :
  Map_get id0 (notifications w) = Some n →
  updateUserNotification id0 st w
  = (Ok (with_state st n),
     mkWorld (Map_set id0 (with_state st n) (notifications w)) (subscribers w)).
Proof.
  intros H. unfold updateUserNotification.
  cbv [mbind M_bind bind gets modify ret mret M_ret]. by rewrite H.
Qed.

Lemma memory_updateUserNotification_Ok
    (w w' : World) (id0 : string) (st : NotificationState) (n' : Notification) :
  updateUserNotification id0 st w = (Ok n', w') →
  ∃ n, Map_get id0 (notifications w) = Some n
       ∧ n' = with_state st n
       ∧ notifications w' = Map_set id0 n' (notifications w)
       ∧ subscribers w' = subscribers w.
Proof.
  unfold updateUserNotification.
  cbv [mbind M_bind bind gets modify ret mret M_ret throw].
  destruct (Map_get id0 (notifications w)) as [n|]; [|done].
  intros H. simplify_eq. by exists n.
Qed.

(** [map.set] of a key that is set changes the value of that key and
    leaves every entry in its place. *)
Lemma Map_set_lookup {V} (m : list (string * V)) (k : string) (v v0 : V)
    (j : nat) (k' : string) (v' : V) :
  Map_get k m = Some v0 →
  m !! j = Some (k', v') →
  ∃ v2, Map_set k v m !! j = Some (k', v2)
        ∧ (v2 = v' ∨ (k' = k ∧ v' = v0 ∧ v2 = v)).
Proof.
  revert j. induction m as [|[k1 v1] m IH]; intros j Hget Hj; [done|].
  simpl in *. destruct (String.eqb k1 k) eqn:E.
  - apply String.eqb_eq in E. simplify_eq.
    destruct j as [|j]; simpl in *; simplify_eq.
    + exists v. split; [done|]. right. done.
    + exists v'. split; [done|]. by left.
  - destruct j as [|j]; simpl in *; simplify_eq.
    + exists v'. split; [done|]. by left.
    + by apply IH.
Qed.

Lemma length_Map_set {V} (m : list (string * V)) (k : string) (v v0 : V) :
  Map_get k m = Some v0 → length (Map_set k v m) = length m.
Proof.
  induction m as [|[k1 v1] m IH]; [done|]. simpl.
  destruct (String.eqb k1 k); [done|]. intros H. simpl. by rewrite IH.
Qed.

Lemma Map_get_set {V} (m : list (string * V)) (k : string) (v : V) :
  Map_get k (Map_set k v m) = Some v.
Proof.
  induction m as [|[k1 v1] m IH]; simpl.
  - by rewrite String.eqb_refl.
  - destruct (String.eqb k1 k) eqn:E; simpl; [by rewrite String.eqb_refl|].
    by rewrite E.
Qed.

Lemma memory_createNotification_run (w : World) (u msg : string) (now : Z) :
  let n := mkNotification (pretty now) u msg UNREAD (ISODate.toISOString now) in
  createNotification u msg now w
  = (Ok n,
     mkWorld (Map_set (pretty now) n (notifications w))
       (map (deliver "NOTIFICATION_ADDED" (mkPayload n u)) (subscribers w))).
Proof. reflexivity. Qed.

(** Every subscriber is pushed every notification, whatever the user it
    subscribed for. *)
Lemma every_subscriber_is_pushed
    (w : World) (u u' msg : string) (now : Z) :
  ∃ h w1 n w2,
    subscribe u' w = (Ok h, w1)
    ∧ createNotification u msg now w1 = (Ok n, w2)
    ∧ userId n = u
    ∧ pushes h w1 = []
    ∧ pushes h w2 = [n].
Proof.
  eexists _, _, _, _. split; [reflexivity|]. split; [reflexivity|].
  split; [reflexivity|]. unfold pushes. simpl.
  change (map ?f ?l) with (f <$> l).
  rewrite lookup_app_r, Nat.sub_diag by lia. simpl. split; [done|].
  rewrite list_lookup_fmap, lookup_app_r, Nat.sub_diag by lia. reflexivity.
Qed.

End InMemoryFacts.

(** ** Claims that span several sketches *)

Module FeedClaims.

(** C3 — Claim C3, amended: no sketch checks a transition.  For every
    stored notification, whatever its state, and every state of the enum
    of the sketch, the update succeeds and leaves the notification in the
    state asked for; so the transitions [UNREAD→VIEWED],
    [UNREAD→DISMISSED], [VIEWED→DISMISSED] and any state
    [→AUTODISMISSED] are accepted, every other transition between states
    of the enum is accepted as well, and [DISMISSED] and [AUTODISMISSED]
    are not terminal.  (Prisma resolvers, TS sketch, in-memory sketch.) *)
Theorem every_transition_is_accepted :
  (∀ (w : Prisma.World) (id0 : Z) (st : string) (n : Prisma.Notification),
     st ∈ Prisma.NotificationState.values →
     n ∈ Prisma.notification w → Prisma.id n = id0 →
     ∃ n' w',
       Prisma.updateUserNotification id0 st w = (Ok n', w')
       ∧ Prisma.state n' = st
       ∧ Prisma.with_state st n ∈ Prisma.notification w')
  ∧ (∀ (w : Typed.W) (i : Z) (st : NotificationState) (now : Z) (r : Pg.Row),
       r ∈ table w → Pg.id r = i →
       ∃ n' w',
         Typed.updateNotification i st now w = (Ok n', w')
         ∧ Typed.state n' = st
         ∧ Pg.with_state st r ∈ table w')
  ∧ (∀ (w : InMemory.World) (id0 : string) (st : NotificationState)
       (n : InMemory.Notification),
       InMemory.Map_get id0 (InMemory.notifications w) = Some n →
       ∃ n' w',
         InMemory.updateUserNotification id0 st w = (Ok n', w')
         ∧ InMemory.state n' = st
         ∧ InMemory.Map_get id0 (InMemory.notifications w') = Some n').
Proof.
  split_and!.
  - intros w id0 st n Hst Hn Hid.
    destruct (PrismaFacts.update_any_transition w id0 st n Hst Hn Hid)
      as (n' & w' & ? & ? & ? & _). eauto.
  - intros w i st now r Hr Hi.
    apply TypedFacts.updateNotification_any_transition; done.
  - intros w id0 st n Hget.
    rewrite (InMemoryFacts.memory_updateUserNotification_run w id0 st n Hget).
    eexists _, _. split; [reflexivity|]. split; [done|].
    simpl. apply InMemoryFacts.Map_get_set.
Qed.

Lemma every_transition_is_accepted_witness :
  (("UNREAD" ∈ Prisma.NotificationState.values)
   ∧ (Prisma.mkNotification 1 1 "first" "DISMISSED" Samples.t0
      ∈ Prisma.notification Samples.prisma_three)
   ∧ (∃ n' w',
        Prisma.updateUserNotification 1 "UNREAD" Samples.prisma_three = (Ok n', w')
        ∧ Prisma.state n' = "UNREAD"
        ∧ Prisma.with_state "UNREAD"
            (Prisma.mkNotification 1 1 "first" "DISMISSED" Samples.t0)
          ∈ Prisma.notification w'))
  ∧ ((Pg.mkRow 3 "user456" "old" DISMISSED (Samples.t0 - 9 * ISODate.msPerDay)
      ∈ table Samples.typed_old_and_new)
     ∧ (∃ n' w',
          Typed.updateNotification 3 UNREAD Samples.t0 Samples.typed_old_and_new
          = (Ok n', w')
          ∧ Typed.state n' = UNREAD
          ∧ Pg.with_state UNREAD
              (Pg.mkRow 3 "user456" "old" DISMISSED (Samples.t0 - 9 * ISODate.msPerDay))
            ∈ table w'))
  ∧ (InMemory.Map_get "1700000000000" (InMemory.notifications Samples.memory_one)
     = Some (InMemory.mkNotification "1700000000000" "alice" "hi" DISMISSED
               "2023-11-14T22:13:20.000Z")
     ∧ (∃ n' w',
          InMemory.updateUserNotification "1700000000000" UNREAD Samples.memory_one
          = (Ok n', w')
          ∧ InMemory.state n' = UNREAD
          ∧ InMemory.Map_get "1700000000000" (InMemory.notifications w') = Some n')).
Proof.
  assert ("UNREAD" ∈ Prisma.NotificationState.values) as H1
    by (apply (bool_decide_unpack _); by vm_compute).
  assert (Prisma.mkNotification 1 1 "first" "DISMISSED" Samples.t0
          ∈ Prisma.notification Samples.prisma_three) as H2
    by (apply (bool_decide_unpack _); by vm_compute).
  assert (Pg.mkRow 3 "user456" "old" DISMISSED (Samples.t0 - 9 * ISODate.msPerDay)
          ∈ table Samples.typed_old_and_new) as H3
    by (apply (bool_decide_unpack _); by vm_compute).
  assert (InMemory.Map_get "1700000000000" (InMemory.notifications Samples.memory_one)
          = Some (InMemory.mkNotification "1700000000000" "alice" "hi" DISMISSED
                    "2023-11-14T22:13:20.000Z")) as H4 by reflexivity.
  split_and!; [exact H1|exact H2| |exact H3| |exact H4|].
  - exact (proj1 every_transition_is_accepted Samples.prisma_three 1 "UNREAD"
             _ H1 H2 eq_refl).
  - exact (proj1 (proj2 every_transition_is_accepted) Samples.typed_old_and_new 3
             UNREAD Samples.t0 _ H3 eq_refl).
  - exact (proj2 (proj2 every_transition_is_accepted) Samples.memory_one
             "1700000000000" UNREAD _ H4).
Defined.

(** C4 — Claim C4, amended: every notification in what the feed returns
    has a state other than [DISMISSED], and this is the only state that
    hides a notification: in the Prisma resolvers, whose enum has
    [AUTODISMISSED], the feed of a user is made of all the user's
    notifications in any other state, [AUTODISMISSED] included; in the JS
    sketch, for every user, cursor and limit, no edge of the connection
    returned, from the store or from the cache, is dismissed, as long as
    the cache is filled by the feed itself. *)
Theorem feed_hides_dismissed_only :
  (∀ (w : Prisma.World) (u : Z),
     ∃ l w',
       Prisma.getNotificationsForUser u w = (Ok l, w')
       ∧ ∀ n, n ∈ l ↔ n ∈ Prisma.notification w ∧ Prisma.userId n = u
                       ∧ Prisma.state n ≠ Prisma.NotificationState.DISMISSED)
  ∧ (∀ (w w' : Scalable.W) (u : string) (cursor : option string)
       (limit : option Z) (now : Z) (page : Scalable.Connection),
       ScalableNotions.cache_clean w →
       Scalable.getNotificationsForUser u cursor limit now w = (Ok page, w') →
       Forall (λ e, Scalable.state (Scalable.node e) ≠ DISMISSED) (Scalable.edges page)
       ∧ ScalableNotions.cache_clean w').
Proof.
  split.
  - intros w u. destruct (PrismaFacts.getNotificationsForUser_spec w u)
      as (l & w' & ? & _ & ?). eauto.
  - intros w w' u cursor limit now page Hc Hrun.
    destruct (ScalableFacts.getNotificationsForUser_clean _ _ _ _ _ _ _ Hc Hrun)
      as [Hc' Hp]. split; [|done]. by apply Hp.
Qed.

Lemma feed_hides_dismissed_only_witness :
  ScalableNotions.cache_clean Samples.scalable_twenty_five
  ∧ (∀ w' page,
       Scalable.getNotificationsForUser "user123" None (Some 20) Samples.t0
         Samples.scalable_twenty_five = (Ok page, w') →
       Forall (λ e, Scalable.state (Scalable.node e) ≠ DISMISSED) (Scalable.edges page)
       ∧ ScalableNotions.cache_clean w').
Proof.
  assert (ScalableNotions.cache_clean Samples.scalable_twenty_five) as H
    by (by apply ScalableFacts.cache_clean_empty).
  split; [exact H|]. intros w' page.
  exact (proj2 feed_hides_dismissed_only Samples.scalable_twenty_five w' "user123"
           None (Some 20) Samples.t0 page H).
Defined.

(** C7 — Claim C7 at its failing inputs.  In the JS sketch the creation
    publishes on ["NOTIFICATION_ADDED"] while the subscription of a user
    listens on ["NOTIFICATION_ADDED:" + userId]: a subscriber connected
    before the creation is pushed nothing, for its own user as for any
    other.  In the in-memory sketch both use ["NOTIFICATION_ADDED"] and
    nothing filters by user: every subscriber is pushed the notification
    of every user. *)
Theorem fanout_misses_the_user :
  (∀ (w : Scalable.W) (u u' msg : string) (now : Z),
     ∃ h w1 note w2,
       Scalable.subscribe u' w = (Ok h, w1)
       ∧ Scalable.createNotification u msg now w1 = (Ok note, w2)
       ∧ Publish "NOTIFICATION_ADDED" (Scalable.mkPayload note u) ∈ log w2
       ∧ Scalable.pushes h w2 = [])
  ∧ (∀ (w : InMemory.World) (u u' msg : string) (now : Z),
       ∃ h w1 n w2,
         InMemory.subscribe u' w = (Ok h, w1)
         ∧ InMemory.createNotification u msg now w1 = (Ok n, w2)
         ∧ InMemory.userId n = u
         ∧ InMemory.pushes h w1 = []
         ∧ InMemory.pushes h w2 = [n]).
Proof.
  split.
  - apply ScalableFacts.subscriber_gets_nothing.
  - apply InMemoryFacts.every_subscriber_is_pushed.
Qed.

(** C10 — Claim C10: a successful update changes the state of the
    records with the id and nothing else.  Every record keeps its place,
    its id, user, message and creation time; a record with another id is
    unchanged; the sequence, the subscribers and the number of records
    are unchanged.  (TS sketch, Prisma resolvers, in-memory sketch.) *)
Theorem update_changes_the_state_only :
  (∀ (w w' : Typed.W) (i : Z) (st : NotificationState) (now : Z)
     (n : Typed.Notification),
     Typed.updateNotification i st now w = (Ok n, w') →
     length (table w') = length (table w)
     ∧ next_id w' = next_id w
     ∧ ∀ k r, table w !! k = Some r →
         ∃ r', table w' !! k = Some r'
               ∧ Pg.id r' = Pg.id r ∧ Pg.user_id r' = Pg.user_id r
               ∧ Pg.message r' = Pg.message r
               ∧ Pg.created_at r' = Pg.created_at r
               ∧ (Pg.id r = i → Pg.state r' = st)
               ∧ (Pg.id r ≠ i → r' = r))
  ∧ (∀ (w w' : Prisma.World) (id0 : Z) (st : string) (n : Prisma.Notification),
       Prisma.updateUserNotification id0 st w = (Ok n, w') →
       length (Prisma.notification w') = length (Prisma.notification w)
       ∧ Prisma.next_id w' = Prisma.next_id w
       ∧ ∀ k r, Prisma.notification w !! k = Some r →
           ∃ r', Prisma.notification w' !! k = Some r'
                 ∧ Prisma.id r' = Prisma.id r ∧ Prisma.userId r' = Prisma.userId r
                 ∧ Prisma.message r' = Prisma.message r
                 ∧ Prisma.createdAt r' = Prisma.createdAt r
                 ∧ (Prisma.id r = id0 → Prisma.state r' = st)
                 ∧ (Prisma.id r ≠ id0 → r' = r))
  ∧ (∀ (w w' : InMemory.World) (id0 : string) (st : NotificationState)
       (n : InMemory.Notification),
       InMemory.updateUserNotification id0 st w = (Ok n, w') →
       length (InMemory.notifications w') = length (InMemory.notifications w)
       ∧ InMemory.state n = st
       ∧ InMemory.Map_get id0 (InMemory.notifications w') = Some n
       ∧ ∀ j k v, InMemory.notifications w !! j = Some (k, v) →
           ∃ v', InMemory.notifications w' !! j = Some (k, v')
                 ∧ InMemory.id v' = InMemory.id v
                 ∧ InMemory.userId v' = InMemory.userId v
                 ∧ InMemory.message v' = InMemory.message v
                 ∧ InMemory.createdAt v' = InMemory.createdAt v
                 ∧ (k ≠ id0 → v' = v)).
Proof.
  split_and!.
  - intros w w' i st now n Hrun.
    pose proof (TypedFacts.updateNotification_table i st now w) as (Ht & Hid & _).
    rewrite Hrun in Ht, Hid. cbn [snd] in Ht, Hid. rewrite Ht.
    split; [by unfold Pg.update_state; simpl; rewrite length_map|].
    split; [done|]. intros k r Hk.
    rewrite PgFacts.update_state_lookup, Hk. simpl.
    eexists. split; [reflexivity|].
    destruct (Pg.id r =? i) eqn:E.
    + apply Z.eqb_eq in E. by split_and!.
    + apply Z.eqb_neq in E. by split_and!.
  - intros w w' id0 st n Hrun.
    destruct (PrismaFacts.update_frame w w' id0 st n Hrun) as [Ht Hid].
    rewrite Ht. split; [by rewrite length_map|]. split; [done|].
    intros k r Hk. change (map ?f ?l) with (f <$> l).
    rewrite list_lookup_fmap, Hk. simpl.
    eexists. split; [reflexivity|].
    destruct (Prisma.id r =? id0) eqn:E.
    + apply Z.eqb_eq in E. by split_and!.
    + apply Z.eqb_neq in E. by split_and!.
  - intros w w' id0 st n Hrun.
    destruct (InMemoryFacts.memory_updateUserNotification_Ok w w' id0 st n Hrun)
      as (n0 & Hget & -> & Hm & _).
    rewrite Hm. split_and!.
    + by eapply InMemoryFacts.length_Map_set.
    + done.
    + apply InMemoryFacts.Map_get_set.
    + intros j k v Hj.
      destruct (InMemoryFacts.Map_set_lookup (InMemory.notifications w) id0
                  (InMemory.with_state st n0) n0 j k v Hget Hj)
        as (v2 & Hv2 & [->|(-> & -> & ->)]).
      * exists v. by split_and!.
      * eexists. split; [exact Hv2|]. by split_and!.
Qed.

Lemma update_changes_the_state_only_witness :
  ((Typed.updateNotification 1 READ Samples.t0 Samples.typed_two
    = (Ok (Typed.Database.mapNotification
             (Pg.mkRow 1 "user123" "hello" READ (Samples.t0 + 1))),
       (Typed.updateNotification 1 READ Samples.t0 Samples.typed_two).2))
   ∧ (length (table (Typed.updateNotification 1 READ Samples.t0 Samples.typed_two).2)
      = length (table Samples.typed_two)
      ∧ next_id (Typed.updateNotification 1 READ Samples.t0 Samples.typed_two).2
        = next_id Samples.typed_two
      ∧ ∀ k r, table Samples.typed_two !! k = Some r →
          ∃ r', table (Typed.updateNotification 1 READ Samples.t0 Samples.typed_two).2 !! k
                = Some r'
                ∧ Pg.id r' = Pg.id r ∧ Pg.user_id r' = Pg.user_id r
                ∧ Pg.message r' = Pg.message r
                ∧ Pg.created_at r' = Pg.created_at r
                ∧ (Pg.id r = 1 → Pg.state r' = READ)
                ∧ (Pg.id r ≠ 1 → r' = r)))
  ∧ ((Prisma.updateUserNotification 3 "VIEWED" Samples.prisma_three
      = (Ok (Prisma.mkNotification 3 1 "third" "VIEWED" (Samples.t0 + 2)),
         (Prisma.updateUserNotification 3 "VIEWED" Samples.prisma_three).2))
     ∧ (length (Prisma.notification
                  (Prisma.updateUserNotification 3 "VIEWED" Samples.prisma_three).2)
        = length (Prisma.notification Samples.prisma_three)
        ∧ Prisma.next_id (Prisma.updateUserNotification 3 "VIEWED" Samples.prisma_three).2
          = Prisma.next_id Samples.prisma_three
        ∧ ∀ k r, Prisma.notification Samples.prisma_three !! k = Some r →
            ∃ r', Prisma.notification
                    (Prisma.updateUserNotification 3 "VIEWED" Samples.prisma_three).2 !! k
                  = Some r'
                  ∧ Prisma.id r' = Prisma.id r ∧ Prisma.userId r' = Prisma.userId r
                  ∧ Prisma.message r' = Prisma.message r
                  ∧ Prisma.createdAt r' = Prisma.createdAt r
                  ∧ (Prisma.id r = 3 → Prisma.state r' = "VIEWED")
                  ∧ (Prisma.id r ≠ 3 → r' = r)))
  ∧ ((InMemory.updateUserNotification "1700000000000" READ Samples.memory_one
      = (Ok (InMemory.mkNotification "1700000000000" "alice" "hi" READ
               "2023-11-14T22:13:20.000Z"),
         (InMemory.updateUserNotification "1700000000000" READ Samples.memory_one).2))
     ∧ (length (InMemory.notifications
                  (InMemory.updateUserNotification "1700000000000" READ
                     Samples.memory_one).2)
        = length (InMemory.notifications Samples.memory_one)
        ∧ InMemory.state (InMemory.mkNotification "1700000000000" "alice" "hi" READ
                            "2023-11-14T22:13:20.000Z") = READ
        ∧ InMemory.Map_get "1700000000000"
            (InMemory.notifications
               (InMemory.updateUserNotification "1700000000000" READ
                  Samples.memory_one).2)
          = Some (InMemory.mkNotification "1700000000000" "alice" "hi" READ
                    "2023-11-14T22:13:20.000Z")
        ∧ ∀ j k v, InMemory.notifications Samples.memory_one !! j = Some (k, v) →
            ∃ v', InMemory.notifications
                    (InMemory.updateUserNotification "1700000000000" READ
                       Samples.memory_one).2 !! j = Some (k, v')
                  ∧ InMemory.id v' = InMemory.id v
                  ∧ InMemory.userId v' = InMemory.userId v
                  ∧ InMemory.message v' = InMemory.message v
                  ∧ InMemory.createdAt v' = InMemory.createdAt v
                  ∧ (k ≠ "1700000000000" → v' = v))).
Proof.
  assert (Typed.updateNotification 1 READ Samples.t0 Samples.typed_two
          = (Ok (Typed.Database.mapNotification
                   (Pg.mkRow 1 "user123" "hello" READ (Samples.t0 + 1))),
             (Typed.updateNotification 1 READ Samples.t0 Samples.typed_two).2)) as H1
    by (by vm_compute).
  assert (Prisma.updateUserNotification 3 "VIEWED" Samples.prisma_three
          = (Ok (Prisma.mkNotification 3 1 "third" "VIEWED" (Samples.t0 + 2)),
             (Prisma.updateUserNotification 3 "VIEWED" Samples.prisma_three).2)) as H2
    by (by vm_compute).
  assert (InMemory.updateUserNotification "1700000000000" READ Samples.memory_one
          = (Ok (InMemory.mkNotification "1700000000000" "alice" "hi" READ
                   "2023-11-14T22:13:20.000Z"),
             (InMemory.updateUserNotification "1700000000000" READ
                Samples.memory_one).2)) as H3
    by (by vm_compute).
  split; [split; [exact H1|]|split; [split; [exact H2|]|split; [exact H3|]]].
  - exact (proj1 update_changes_the_state_only Samples.typed_two _ 1 READ
             Samples.t0 _ H1).
  - exact (proj1 (proj2 update_changes_the_state_only) Samples.prisma_three _ 3
             "VIEWED" _ H2).
  - exact (proj2 (proj2 update_changes_the_state_only) Samples.memory_one _
             "1700000000000" READ _ H3).
Defined.

End FeedClaims.

Module ScalableJobFacts.
Import Scalable ScalableJob.

(** X1 — The sweeper of the JS sketch never deletes a row.  In every
    time zone, at every instant and from every store, a run sends one
    statement, the [DELETE ... LIMIT] with the cutoff seven days back and
    the limit [BATCH_SIZE = 100], which the server rejects; the run ends
    there with that error, prints no count, pauses nowhere, and leaves
    the table, the cache and the subscribers as they were. *)
Theorem js_sweeper_throws (tz : ISODate.TimeZone) (now : Z) (w : W) :
  cleanupOldNotifications tz now w
  = (Throw QueryError,
     mkWorld (table w) (next_id w) (redis w) (subscribers w)
       (log w ++ [PgDelete (ISODate.daysAgo tz now 7) BATCH_SIZE])).
Proof.
  unfold cleanupOldNotifications. cbn [cleanup_loop]. by mrun.
Qed.

End ScalableJobFacts.

(** ** More on the table operations *)

Module PgUpdateFacts.
Import Pg.

(** An [UPDATE] that finds no row changes nothing. *)
Lemma update_state_absent (st : NotificationState) (i : Z) (tbl : list Row) :
  (∀ r, r ∈ tbl → id r ≠ i) → update_state st i tbl = ([], tbl).
Proof.
  unfold update_state. intros H.
  assert (map (λ r, if id r =? i then with_state st r else r) tbl = tbl) as ->.
  { induction tbl as [|r tbl IH]; [done|]. simpl.
    rewrite (proj2 (Z.eqb_neq _ _)) by (apply H, list_elem_of_here).
    f_equal. apply IH. intros r' Hr'. apply H. by apply list_elem_of_further. }
  f_equal. induction tbl as [|r tbl IH]; [done|]. simpl.
  rewrite (proj2 (Z.eqb_neq _ _)) by (apply H, list_elem_of_here).
  apply IH. intros r' Hr'. apply H. by apply list_elem_of_further.
Qed.

(** With [id] a key, an [UPDATE] by id returns the one row it changed. *)
Lemma update_state_unique (st : NotificationState) (tbl : list Row) (r : Row) :
  NoDup (id <$> tbl) → r ∈ tbl →
  (update_state st (id r) tbl).1 = [with_state st r].
Proof.
  unfold update_state. cbn [fst]. induction tbl as [|x tbl IH]; intros Hnd Hr.
  - by apply elem_of_nil in Hr.
  - rewrite fmap_cons in Hnd. apply NoDup_cons in Hnd as [Hx Hnd].
    apply elem_of_cons in Hr as [->|Hr].
    + cbn [map List.filter]. rewrite Z.eqb_refl. cbn [id with_state].
      rewrite Z.eqb_refl. f_equal.
      pose proof (update_state_absent st (id x) tbl) as Habs.
      unfold update_state in Habs.
      assert (∀ r, r ∈ tbl → id r ≠ id x) as Hne.
      { intros r Hr E. apply Hx. rewrite <- E. by apply list_elem_of_fmap_2. }
      specialize (Habs Hne). by injection Habs as -> _.
    + assert (id x ≠ id r) as Hne.
      { intros E. apply Hx. rewrite E. by apply list_elem_of_fmap_2. }
      cbn [map List.filter]. rewrite !(proj2 (Z.eqb_neq (id x) (id r))) by done.
      by apply IH.
Qed.

Lemma elem_of_update_state (st : NotificationState) (i : Z) (tbl : list Row) (x : Row) :
  x ∈ (update_state st i tbl).2
  ↔ ∃ r, r ∈ tbl ∧ x = if id r =? i then with_state st r else r.
Proof.
  unfold update_state. cbn [snd]. change (map ?f ?l) with (f <$> l).
  rewrite list_elem_of_fmap. split; intros (r & H1 & H2); by exists r.
Qed.


End PgUpdateFacts.

Module GlobPrefixFacts.
Import Glob.

Lemma literal_char_eqb (pc : ascii) :
  literal_char pc = true →
  Ascii.eqb pc "*" = false ∧ Ascii.eqb pc "?" = false
  ∧ Ascii.eqb pc "[" = false ∧ Ascii.eqb pc "\" = false.
Proof.
  unfold literal_char. intros H.
  repeat (apply andb_prop in H as [H ?]).
  repeat match goal with
         | H : negb _ = true |- _ => apply negb_true_iff in H
         end.
  done.
Qed.

(** A literal prefix of a pattern matches nothing but itself. *)
Lemma stringmatch_fuel_literal_inv (l p k : string) (n : nat) :
  literal l = true →
  stringmatch_fuel (String.length l + n) (l +:+ p) k = true →
  ∃ s, k = l +:+ s.
Proof.
  revert k. induction l as [|c l IH]; intros k Hl Hm; [by exists k|].
  simpl in Hl. apply andb_prop in Hl as [Hc Hl].
  apply literal_char_eqb in Hc as (H1 & H2 & H3 & H4).
  rewrite GlobFacts.append_cons in Hm.
  change (String.length (String c l) + n)%nat with (S (String.length l + n)) in Hm.
  cbn [stringmatch_fuel] in Hm. rewrite H1 in Hm.
  destruct k as [|sc k]; [done|]. rewrite H2, H3, H4 in Hm.
  apply andb_prop in Hm as [Hc Hm]. apply Ascii.eqb_eq in Hc as ->.
  destruct (IH k Hl Hm) as [s ->]. by exists s.
Qed.

Lemma stringmatch_literal_star_inv (l k : string) :
  literal l = true → stringmatch (l +:+ "*") k = true → ∃ s, k = l +:+ s.
Proof.
  intros Hl. unfold stringmatch. rewrite GlobFacts.length_append.
  change (String.length "*") with 1%nat.
  replace (S (String.length l + 1)) with (String.length l + 2)%nat by lia.
  by apply stringmatch_fuel_literal_inv.
Qed.

(** Two strings without a colon that continue with a colon into the same
    string are equal. *)
Lemma colon_split (u u' a b : string) :
  occurs ":" u = false → occurs ":" u' = false →
  u +:+ ":" +:+ a = u' +:+ ":" +:+ b → u = u' ∧ a = b.
Proof.
  revert u'. induction u as [|x u IH]; intros [|y u'] Hu Hu' E.
  - simpl in E. by simplify_eq.
  - exfalso. rewrite GlobFacts.append_cons in E. injection E as <- _.
    simpl in Hu'. by rewrite ?Ascii.eqb_refl in Hu'.
  - exfalso. rewrite GlobFacts.append_cons in E. injection E as -> _.
    simpl in Hu. by rewrite ?Ascii.eqb_refl in Hu.
  - rewrite !GlobFacts.append_cons in E. simpl in Hu, Hu'.
    apply orb_false_elim in Hu as [_ Hu]. apply orb_false_elim in Hu' as [_ Hu'].
    injection E as -> E. destruct (IH u' Hu Hu' E) as [-> ->]. done.
Qed.

(** The pattern of a user does not match the keys of another user, for
    user ids without a colon. *)
Lemma pattern_misses_other_user (u u' : string) (cursor : option string) :
  literal u = true → occurs ":" u = false → occurs ":" u' = false → u ≠ u' →
  stringmatch ("notifications:" +:+ u +:+ ":*")
              ("notifications:" +:+ u' +:+ ":" +:+ default "latest" (truthy cursor))
  = false.
Proof.
  intros Hl Hu Hu' Hne. apply not_true_is_false. intros Hm.
  pose proof (stringmatch_literal_star_inv ("notifications:" +:+ u +:+ ":")
                ("notifications:" +:+ u' +:+ ":" +:+ default "latest" (truthy cursor)))
    as H.
  rewrite !GlobFacts.append_assoc in H.
  destruct H as [s Hs]; [|exact Hm|].
  { rewrite !GlobFacts.literal_append, Hl. reflexivity. }
  rewrite !GlobFacts.append_assoc in Hs. apply String.app_inj in Hs.
  symmetry in Hs. by apply colon_split in Hs as [? _].
Qed.

(** The keys of two users never coincide, for user ids without a colon. *)
Lemma cacheKey_inj (u u' : string) (cursor cursor' : option string) :
  occurs ":" u = false → occurs ":" u' = false →
  Scalable.cacheKey u cursor = Scalable.cacheKey u' cursor' →
  u = u' ∧ default "latest" (truthy cursor) = default "latest" (truthy cursor').
Proof.
  unfold Scalable.cacheKey. intros Hu Hu' E.
  apply String.app_inj in E. by apply colon_split in E.
Qed.

End GlobPrefixFacts.

(** ** More on [scalable-notification-service.js] *)

Module ScalableMoreFacts.
Import Scalable ScalableNotions.

Lemma key_unique (tbl : list Pg.Row) (a b : Pg.Row) :
  NoDup (Pg.id <$> tbl) → a ∈ tbl → b ∈ tbl → Pg.id a = Pg.id b → a = b.
Proof.
  intros Hnd [i Hi]%list_elem_of_lookup [j Hj]%list_elem_of_lookup E.
  assert (i = j) as ->.
  { eapply NoDup_lookup; [exact Hnd| |].
    - by rewrite list_lookup_fmap, Hi.
    - rewrite list_lookup_fmap, Hj. simpl. by rewrite E. }
  congruence.
Qed.

Lemma update_state_first (st : NotificationState) (i : Z) (tbl : list Pg.Row)
    (row : Pg.Row) (rows : list Pg.Row) :
  (Pg.update_state st i tbl).1 = row :: rows →
  ∃ r, r ∈ tbl ∧ Pg.id r = i ∧ row = Pg.with_state st r.
Proof.
  intros E.
  assert (row ∈ (Pg.update_state st i tbl).1) as H
    by (rewrite E; apply list_elem_of_here).
  unfold Pg.update_state in H. cbn [fst] in H.
  apply PgFacts.elem_of_filter in H as [H Hi].
  change (map ?f ?l) with (f <$> l) in H.
  apply list_elem_of_fmap in H as (r & -> & Hr).
  exists r. destruct (Pg.id r =? i) eqn:Er.
  - apply Z.eqb_eq in Er. done.
  - rewrite Er in Hi. done.
Qed.

Lemma update_state_nil (st : NotificationState) (i : Z) (tbl : list Pg.Row) :
  (Pg.update_state st i tbl).1 = [] → ∀ r, r ∈ tbl → Pg.id r ≠ i.
Proof.
  intros E r Hr Hi.
  assert (Pg.with_state st r ∈ (Pg.update_state st i tbl).1) as H.
  { unfold Pg.update_state. cbn [fst]. apply PgFacts.elem_of_filter. split.
    - change (map ?f ?l) with (f <$> l). apply list_elem_of_fmap. exists r.
      by rewrite (proj2 (Z.eqb_eq _ _)).
    - simpl. by apply Z.eqb_eq. }
  rewrite E in H. by apply elem_of_nil in H.
Qed.

(** X2 — What an update comes to, in the JS and in the TS sketch, for an
    [ID] argument that spells an integer [i] of the range of the id
    column, [-2^31 ≤ i < 2^31] (any other argument is turned down by the
    server before a row is looked at, with an error of its own).  The
    update throws only the not-found error, and exactly when no row has
    the id: the table and the cache are then what they were and nothing
    but the [UPDATE] has been issued.  Otherwise it returns a row that
    had the id, with the state asked for. *)
Theorem update_outcome (i : Z) (st : NotificationState) (now : Z) :
  - 2 ^ 31 ≤ i < 2 ^ 31 →
  (∀ w : Scalable.W,
     match Scalable.updateUserNotification i st now w with
     | (Throw e, w') =>
         e = NotFound ∧ (∀ r, r ∈ table w → Pg.id r ≠ i)
         ∧ w' = mkWorld (table w) (next_id w) (redis w) (subscribers w)
                  (log w ++ [PgUpdate i st])
     | (Ok n, w') =>
         ∃ r, r ∈ table w ∧ Pg.id r = i
              ∧ n = Scalable.nodeOf (Pg.with_state st r)
              ∧ table w' = (Pg.update_state st i (table w)).2
     end)
  ∧ (∀ w : Typed.W,
       match Typed.updateNotification i st now w with
       | (Throw e, w') =>
           e = NotFound ∧ (∀ r, r ∈ table w → Pg.id r ≠ i)
           ∧ w' = mkWorld (table w) (next_id w) (redis w) (subscribers w)
                    (log w ++ [PgUpdate i st])
       | (Ok n, w') =>
           ∃ r, r ∈ table w ∧ Pg.id r = i
                ∧ n = Typed.Database.mapNotification (Pg.with_state st r)
                ∧ table w' = (Pg.update_state st i (table w)).2
       end).
Proof.
  intros _. split; intros w.
  - rewrite ScalableFacts.updateUserNotification_run.
    destruct (Pg.update_state st i (table w)).1 as [|row rows] eqn:E.
    + pose proof (update_state_nil st i (table w) E) as Hno.
      rewrite (PgUpdateFacts.update_state_absent st i (table w) Hno). by cbn [snd].
    + destruct (update_state_first st i (table w) row rows E) as (r & Hr & Hi & ->).
      cbv zeta. exists r. by split_and!.
  - rewrite TypedFacts.updateNotification_run.
    destruct (Pg.update_state st i (table w)).1 as [|row rows] eqn:E.
    + pose proof (update_state_nil st i (table w) E) as Hno.
      rewrite (PgUpdateFacts.update_state_absent st i (table w) Hno). by cbn [snd].
    + destruct (update_state_first st i (table w) row rows E) as (r & Hr & Hi & ->).
      cbv zeta. exists r. by split_and!.
Qed.

(** X3 — A state change shows at once.  After [updateUserNotification]
    on a row of a user, every page of that user is computed afresh from
    the table: the row is in the feed with its new state when that state
    is not [DISMISSED] (and the row is before the cursor), and no row
    with its id when it is.  The ids are a key of the table and the user
    id has no glob metacharacter. *)
Theorem update_shows_at_once
    (w : W) (r : Pg.Row) (st : NotificationState) (cursor : option string)
    (before : option Z) (limit t1 t2 : Z) :
  NoDup (Pg.id <$> table w) → r ∈ table w →
  Glob.literal (Pg.user_id r) = true →
  cursor_bound cursor = Some before → 0 ≤ limit → t1 ≤ t2 →
  ∃ w1 page w2 params,
    updateUserNotification (Pg.id r) st t1 w = (Ok (nodeOf (Pg.with_state st r)), w1)
    ∧ getNotificationsForUser (Pg.user_id r) cursor (Some limit) t2 w1 = (Ok page, w2)
    ∧ log w2 = log w1 ++ [RedisGet (cacheKey (Pg.user_id r) cursor); PgSelect params;
                          RedisSet (cacheKey (Pg.user_id r) cursor) CACHE_TTL]
    ∧ edges page
      = map edgeOf (take (Z.to_nat limit) (feed (Pg.user_id r) before (table w1)))
    ∧ (Pg.with_state st r ∈ feed (Pg.user_id r) before (table w1)
       ↔ st ≠ DISMISSED
         ∧ match before with Some t => Pg.created_at r < t | None => True end)
    ∧ (∀ x, x ∈ feed (Pg.user_id r) before (table w1) → Pg.id x = Pg.id r →
            x = Pg.with_state st r).
Proof.
  intros Hnd Hr Hu Hb Hlim Ht.
  pose proof (ScalableFacts.updateUserNotification_run (Pg.id r) st t1 w) as Hrun.
  rewrite (PgUpdateFacts.update_state_unique st (table w) r Hnd Hr) in Hrun.
  cbv zeta in Hrun. cbn [Pg.user_id Pg.with_state] in Hrun.
  match type of Hrun with _ = (_, ?w') => set (w1 := w') in * end.
  assert (read_live (redis w1) (cacheKey (Pg.user_id r) cursor) t2 = None) as Hmiss.
  { subst w1. wsimpl. apply read_live_purged; [|exact Ht].
    by apply GlobFacts.pattern_matches_key. }
  pose proof (ScalableFacts.getNotificationsForUser_miss (Pg.user_id r) cursor
                (Some limit) t2 w1 before Hmiss Hb) as (params & _ & Hget);
    [simpl; lia|].
  cbv zeta in Hget. cbn [default] in Hget.
  destruct (ScalableFacts.assemble_take limit (feed (Pg.user_id r) before (table w1))
              Hlim) as [He _].
  eexists w1, _, _, params. split; [exact Hrun|]. split; [exact Hget|].
  assert (∀ x, x ∈ table w1
               ↔ ∃ r0, r0 ∈ table w
                       ∧ x = if Pg.id r0 =? Pg.id r then Pg.with_state st r0 else r0)
    as Htbl.
  { intros x. subst w1. wsimpl. apply PgUpdateFacts.elem_of_update_state. }
  split_and!.
  - reflexivity.
  - exact He.
  - rewrite ScalableFacts.elem_of_feed. cbn [Pg.with_state Pg.user_id Pg.state
      Pg.created_at]. split.
    + intros (_ & _ & ? & ?). done.
    + intros [Hst Hbound]. split_and!; try done.
      apply Htbl. exists r. by rewrite Z.eqb_refl.
  - intros x (Hx & _)%ScalableFacts.elem_of_feed Hid.
    apply Htbl in Hx as (r0 & Hr0 & ->).
    destruct (Pg.id r0 =? Pg.id r) eqn:E.
    + apply Z.eqb_eq in E. by rewrite (key_unique (table w) r0 r Hnd Hr0 Hr E).
    + apply Z.eqb_neq in E. done.
Qed.

Lemma update_outcome_witness :
  - 2 ^ 31 ≤ 1 < 2 ^ 31
  ∧ (∀ w : Scalable.W,
       match Scalable.updateUserNotification 1 READ Samples.t0 w with
       | (Throw e, w') =>
           e = NotFound ∧ (∀ r, r ∈ table w → Pg.id r ≠ 1)
           ∧ w' = mkWorld (table w) (next_id w) (redis w) (subscribers w)
                    (log w ++ [PgUpdate 1 READ])
       | (Ok n, w') =>
           ∃ r, r ∈ table w ∧ Pg.id r = 1
                ∧ n = Scalable.nodeOf (Pg.with_state READ r)
                ∧ table w' = (Pg.update_state READ 1 (table w)).2
       end)
  ∧ (∀ w : Typed.W,
       match Typed.updateNotification 1 READ Samples.t0 w with
       | (Throw e, w') =>
           e = NotFound ∧ (∀ r, r ∈ table w → Pg.id r ≠ 1)
           ∧ w' = mkWorld (table w) (next_id w) (redis w) (subscribers w)
                    (log w ++ [PgUpdate 1 READ])
       | (Ok n, w') =>
           ∃ r, r ∈ table w ∧ Pg.id r = 1
                ∧ n = Typed.Database.mapNotification (Pg.with_state READ r)
                ∧ table w' = (Pg.update_state READ 1 (table w)).2
       end).
Proof.
  assert (- 2 ^ 31 ≤ 1 < 2 ^ 31) as H by lia.
  split; [exact H|]. exact (update_outcome 1 READ Samples.t0 H).
Defined.

Lemma update_shows_at_once_witness :
  NoDup (Pg.id <$> table Samples.scalable_twenty_five)
  ∧ Pg.mkRow 3 "user123" "hello" UNREAD (Samples.t0 + 3)
    ∈ table Samples.scalable_twenty_five
  ∧ Glob.literal "user123" = true
  ∧ cursor_bound None = Some None
  ∧ 0 ≤ 20 ∧ Samples.t0 + 30 ≤ Samples.t0 + 31
  ∧ ∃ w1 page w2 params,
      updateUserNotification 3 DISMISSED (Samples.t0 + 30) Samples.scalable_twenty_five
      = (Ok (nodeOf (Pg.mkRow 3 "user123" "hello" DISMISSED (Samples.t0 + 3))), w1)
      ∧ getNotificationsForUser "user123" None (Some 20) (Samples.t0 + 31) w1
        = (Ok page, w2)
      ∧ log w2 = log w1 ++ [RedisGet (cacheKey "user123" None); PgSelect params;
                            RedisSet (cacheKey "user123" None) CACHE_TTL]
      ∧ edges page
        = map edgeOf (take (Z.to_nat 20) (feed "user123" None (table w1)))
      ∧ (Pg.mkRow 3 "user123" "hello" DISMISSED (Samples.t0 + 3)
         ∈ feed "user123" None (table w1)
         ↔ DISMISSED ≠ DISMISSED ∧ True)
      ∧ (∀ x, x ∈ feed "user123" None (table w1) → Pg.id x = 3 →
              x = Pg.mkRow 3 "user123" "hello" DISMISSED (Samples.t0 + 3)).
Proof.
  assert (NoDup (Pg.id <$> table Samples.scalable_twenty_five)) as H1
    by (apply (bool_decide_unpack _); by vm_compute).
  assert (Pg.mkRow 3 "user123" "hello" UNREAD (Samples.t0 + 3)
          ∈ table Samples.scalable_twenty_five) as H2
    by (apply (bool_decide_unpack _); by vm_compute).
  split_and!; [exact H1|exact H2|reflexivity|reflexivity|lia|lia|].
  exact (update_shows_at_once Samples.scalable_twenty_five
           (Pg.mkRow 3 "user123" "hello" UNREAD (Samples.t0 + 3)) DISMISSED None None
           20 (Samples.t0 + 30) (Samples.t0 + 31) H1 H2 eq_refl eq_refl
           ltac:(lia) ltac:(lia)).
Defined.

End ScalableMoreFacts.

Module ScalableCacheFacts.
Import Scalable ScalableNotions.

(** X4 — The invalidation of a user leaves the pages of the other users
    in the cache: after [createNotification] for [u], a [GET] of any page
    key of another user [u'] answers what it answered before.  The two
    user ids have no colon and [u] no glob metacharacter. *)
Theorem other_users_pages_stay
    (w : W) (u u' msg : string) (cursor : option string) (now t : Z) :
  Glob.literal u = true → occurs ":" u = false → occurs ":" u' = false →
  u ≠ u' →
  read_live (redis (createNotification u msg now w).2) (cacheKey u' cursor) t
  = read_live (redis w) (cacheKey u' cursor) t.
Proof.
  intros Hl Hu Hu' Hne.
  pose proof (ScalableFacts.createNotification_run u msg now w) as Hrun.
  cbv zeta in Hrun. rewrite Hrun. wsimpl.
  apply read_live_kept. by apply GlobPrefixFacts.pattern_misses_other_user.
Qed.

(** The entry that a call leaves when the store answered it. *)
Lemma filled_entry
    (u : string) (cursor : option string) (limit : option Z) (t1 : Z)
    (w w1 : W) (page : Connection) :
  read_live (redis w) (cacheKey u cursor) t1 = None →
  getNotificationsForUser u cursor limit t1 w = (Ok page, w1) →
  redis w1 !! cacheKey u cursor = Some (mkEntry page (t1 + 300 * 1000)).
Proof.
  intros Hmiss Hrun.
  revert Hrun. unfold getNotificationsForUser. mrun. rewrite Hmiss. wsimpl.
  destruct (Pg.select _ _ _) as [rows|]; [|done].
  intros H. simplify_eq. wsimpl. by rewrite lookup_insert_eq.
Qed.

(** X5 — The page size is not part of the cache key: once a call has
    filled the cache, a call for the same user and cursor made less than
    [CACHE_TTL = 300] seconds later returns the page of the first call,
    whatever limit it asks for, and does not reach the store; a call made
    300 seconds after the first or later finds the entry expired and
    asks the store again. *)
Theorem cached_page_ignores_limit
    (u : string) (cursor : option string) (limit limit' : option Z) (t1 t2 t3 : Z)
    (w w1 : W) (page : Connection) :
  read_live (redis w) (cacheKey u cursor) t1 = None →
  getNotificationsForUser u cursor limit t1 w = (Ok page, w1) →
  t2 < t1 + 300 * 1000 →
  t1 + 300 * 1000 ≤ t3 →
  getNotificationsForUser u cursor limit' t2 w1
  = (Ok page, mkWorld (table w1) (next_id w1) (redis w1) (subscribers w1)
                (log w1 ++ [RedisGet (cacheKey u cursor)]))
  ∧ ∃ params rest,
      log (getNotificationsForUser u cursor limit' t3 w1).2
      = log w1 ++ RedisGet (cacheKey u cursor) :: PgSelect params :: rest.
Proof.
  intros Hmiss Hrun Ht2 Ht3.
  pose proof (filled_entry u cursor limit t1 w w1 page Hmiss Hrun) as Hentry.
  split.
  - apply ScalableFacts.getNotificationsForUser_hit.
    unfold read_live, live. rewrite Hentry. cbn [expires_at payload].
    by rewrite (proj2 (Z.ltb_lt _ _)).
  - assert (read_live (redis w1) (cacheKey u cursor) t3 = None) as Hgone.
    { unfold read_live, live. rewrite Hentry. cbn [expires_at].
      by rewrite (proj2 (Z.ltb_ge _ _)). }
    unfold getNotificationsForUser. mrun. rewrite Hgone. wsimpl.
    destruct (Pg.select _ _ _) as [rows|]; wsimpl.
    + eexists _, _. rewrite <- !app_assoc. reflexivity.
    + eexists _, _. rewrite <- !app_assoc. reflexivity.
Qed.

(** X6 — Limits below zero.  A call with [limit = -1] that the cache
    does not answer asks the store for no row and returns a page without
    edges and without [endCursor] whose [hasNextPage] is true, whatever
    the table holds; the page is stored under the key of the user and
    cursor like any other.  With a limit below [-1] the store rejects the
    query, and nothing is cached. *)
Theorem limit_below_zero
    (u : string) (cursor : option string) (before : option Z) (limit now : Z)
    (w : W) :
  read_live (redis w) (cacheKey u cursor) now = None →
  cursor_bound cursor = Some before →
  limit < 0 →
  ∃ w',
    getNotificationsForUser u cursor (Some limit) now w
    = (if limit =? -1 then Ok (mkConnection [] (mkPageInfo true None))
       else Throw QueryError, w')
    ∧ table w' = table w
    ∧ redis w'
      = if limit =? -1
        then <[cacheKey u cursor :=
                 mkEntry (mkConnection [] (mkPageInfo true None))
                   (now + CACHE_TTL * 1000)]> (redis w)
        else redis w.
Proof.
  intros Hmiss Hb Hlim. destruct (limit =? -1) eqn:E.
  - apply Z.eqb_eq in E. subst limit.
    destruct (ScalableFacts.getNotificationsForUser_miss u cursor (Some (-1)) now w
                before Hmiss Hb) as (params & _ & Hrun); [simpl; lia|].
    cbv zeta in Hrun. rewrite Hrun. eexists. split; [reflexivity|]. by wsimpl.
  - apply Z.eqb_neq in E. unfold getNotificationsForUser. mrun. rewrite Hmiss.
    wsimpl. unfold cursor_bound in Hb.
    destruct (truthy cursor) as [c|].
    + destruct (ISODate.Date_parse c) as [t|]; [|done].
      unfold Pg.select. simpl. rewrite (proj2 (Z.leb_gt _ _)) by lia.
      eexists. split; [reflexivity|]. by wsimpl.
    + unfold Pg.select. simpl. rewrite (proj2 (Z.leb_gt _ _)) by lia.
      eexists. split; [reflexivity|]. by wsimpl.
Qed.



Lemma other_users_pages_stay_witness :
  Glob.literal "user123" = true
  ∧ occurs ":" "user123" = false ∧ occurs ":" "user456" = false
  ∧ "user123" ≠ "user456"
  ∧ read_live
      (redis (createNotification "user123" "hello" Samples.t0
                Samples.scalable_twenty_five).2)
      (cacheKey "user456" None) (Samples.t0 + 1)
    = read_live (redis Samples.scalable_twenty_five) (cacheKey "user456" None)
        (Samples.t0 + 1).
Proof.
  assert ("user123" ≠ "user456") as Hne by done.
  split_and!; [reflexivity|reflexivity|reflexivity|exact Hne|].
  exact (other_users_pages_stay Samples.scalable_twenty_five "user123" "user456"
           "hello" None Samples.t0 (Samples.t0 + 1) eq_refl eq_refl eq_refl Hne).
Defined.

Lemma cached_page_ignores_limit_witness :
  read_live (redis Samples.scalable_twenty_five) (cacheKey "user123" None)
    (Samples.t0 + 26) = None
  ∧ getNotificationsForUser "user123" None (Some 20) (Samples.t0 + 26)
      Samples.scalable_twenty_five
    = (Ok MoreSamples.first_twenty, MoreSamples.scalable_after_first_page)
  ∧ length (edges MoreSamples.first_twenty) = 20%nat
  ∧ Samples.t0 + 27 < Samples.t0 + 26 + 300 * 1000
  ∧ Samples.t0 + 26 + 300 * 1000 ≤ Samples.t0 + 300026
  ∧ getNotificationsForUser "user123" None (Some 5) (Samples.t0 + 27)
      MoreSamples.scalable_after_first_page
    = (Ok MoreSamples.first_twenty,
       mkWorld (table MoreSamples.scalable_after_first_page)
         (next_id MoreSamples.scalable_after_first_page)
         (redis MoreSamples.scalable_after_first_page)
         (subscribers MoreSamples.scalable_after_first_page)
         (log MoreSamples.scalable_after_first_page
          ++ [RedisGet (cacheKey "user123" None)]))
  ∧ ∃ params rest,
      log (getNotificationsForUser "user123" None (Some 5) (Samples.t0 + 300026)
             MoreSamples.scalable_after_first_page).2
      = log MoreSamples.scalable_after_first_page
        ++ RedisGet (cacheKey "user123" None) :: PgSelect params :: rest.
Proof.
  assert (read_live (redis Samples.scalable_twenty_five) (cacheKey "user123" None)
            (Samples.t0 + 26) = None) as H1 by reflexivity.
  assert (getNotificationsForUser "user123" None (Some 20) (Samples.t0 + 26)
            Samples.scalable_twenty_five
          = (Ok MoreSamples.first_twenty, MoreSamples.scalable_after_first_page))
    as H2 by (by vm_compute).
  split; [exact H1|]. split; [exact H2|]. split; [by vm_compute|].
  split; [lia|]. split; [lia|].
  exact (cached_page_ignores_limit "user123" None (Some 20) (Some 5)
           (Samples.t0 + 26) (Samples.t0 + 27) (Samples.t0 + 300026)
           Samples.scalable_twenty_five _ _ H1 H2 ltac:(lia) ltac:(lia)).
Defined.

Lemma limit_below_zero_witness :
  read_live (redis Samples.scalable_twenty_five) (cacheKey "user123" None) Samples.t0
  = None
  ∧ cursor_bound None = Some None
  ∧ -1 < 0
  ∧ ∃ w',
      getNotificationsForUser "user123" None (Some (-1)) Samples.t0
        Samples.scalable_twenty_five
      = (if -1 =? -1 then Ok (mkConnection [] (mkPageInfo true None))
         else Throw QueryError, w')
      ∧ table w' = table Samples.scalable_twenty_five
      ∧ redis w'
        = if -1 =? -1
          then <[cacheKey "user123" None :=
                   mkEntry (mkConnection [] (mkPageInfo true None))
                     (Samples.t0 + CACHE_TTL * 1000)]>
                 (redis Samples.scalable_twenty_five)
          else redis Samples.scalable_twenty_five.
Proof.
  split_and!; [reflexivity|reflexivity|lia|].
  exact (limit_below_zero "user123" None None (-1) Samples.t0
           Samples.scalable_twenty_five eq_refl eq_refl ltac:(lia)).
Defined.


End ScalableCacheFacts.

(** ** More on [typescript-notification-service.ts] *)

Module TypedMoreFacts.
Import Typed TypedNotions.

(** X8 — The TS sketch never serves a first page from the store.  The
    statement of [Database.getNotificationsForUser] ends in [LIMIT $4]
    and, without a cursor, three values are bound: a call without cursor
    (or with the empty cursor) that the cache does not answer is rejected
    by the database, whatever the user, the limit and the table, and
    nothing is written to the cache. *)
Theorem first_page_is_never_served
    (u : string) (cursor : option string) (limit : option Z) (now : Z) (w : W) :
  truthy cursor = None →
  read_live (redis w) (Database.cacheKey u cursor) now = None →
  getNotificationsForUser u cursor limit now w
  = (Throw QueryError,
     mkWorld (table w) (next_id w) (redis w) (subscribers w)
       (log w ++ [RedisGet (Database.cacheKey u cursor);
                  PgSelect [Pg.SqlText u; Pg.SqlText "DISMISSED";
                            Pg.SqlInt (default 20 limit)]])).
Proof.
  intros Hc Hmiss. unfold getNotificationsForUser, Database.getNotificationsForUser.
  rewrite Hc. mrun. rewrite Hmiss. wsimpl. cbn [Pg.select Database.query].
  unfold Pg.select. simpl. by rewrite <- app_assoc.
Qed.



Lemma first_page_is_never_served_witness :
  truthy None = None
  ∧ read_live (redis Samples.typed_two) (Database.cacheKey "user123" None)
      (Samples.t0 + 10) = None
  ∧ getNotificationsForUser "user123" None (Some 20) (Samples.t0 + 10) Samples.typed_two
    = (Throw QueryError,
       mkWorld (table Samples.typed_two) (next_id Samples.typed_two)
         (redis Samples.typed_two) (subscribers Samples.typed_two)
         (log Samples.typed_two
          ++ [RedisGet (Database.cacheKey "user123" None);
              PgSelect [Pg.SqlText "user123"; Pg.SqlText "DISMISSED";
                        Pg.SqlInt (default 20 (Some 20))]])).
Proof.
  split_and!; [reflexivity|reflexivity|].
  exact (first_page_is_never_served "user123" None (Some 20) (Samples.t0 + 10)
           Samples.typed_two eq_refl eq_refl).
Defined.



End TypedMoreFacts.

(** ** More on the Prisma resolvers *)

Module PrismaMoreFacts.
Import Prisma.

Lemma find_id_None (tbl : list Notification) (id0 : Z) :
  List.find (λ n, id n =? id0) tbl = None ↔ ∀ n, n ∈ tbl → id n ≠ id0.
Proof.
  split.
  - intros H n Hn. eapply find_none in H; [|by apply list_elem_of_In].
    by apply Z.eqb_neq in H.
  - intros H. destruct (List.find _ tbl) as [n|] eqn:E; [|done].
    apply find_some in E as [Hn Hi]. apply Z.eqb_eq in Hi.
    by apply list_elem_of_In, H in Hn.
Qed.

(** X11 — What an update comes to in the Prisma resolvers.  It throws
    the invalid-state error exactly for a state outside the enum, and
    then the world is untouched; for a state of the enum it throws the
    not-found error exactly when no record has the id, and then the
    records are what they were; otherwise it returns a record that had
    the id, with the state asked for. *)
Theorem prisma_update_outcome (w : World) (id0 : Z) (st : string) :
  match updateUserNotification id0 st w with
  | (Throw e, w') =>
      (e = InvalidState ∧ (st ∉ NotificationState.values) ∧ w' = w)
      ∨ (e = NotFound ∧ st ∈ NotificationState.values
         ∧ (∀ n, n ∈ notification w → id n ≠ id0)
         ∧ w' = w)
  | (Ok n', w') =>
      st ∈ NotificationState.values
      ∧ ∃ n, n ∈ notification w ∧ id n = id0 ∧ n' = with_state st n
             ∧ log w' = log w ++ [Update id0 st]
  end.
Proof.
  unfold updateUserNotification. case_bool_decide as Hst; simpl.
  - unfold prisma_update. cbv [mbind M_bind bind gets modify emit ret mret M_ret throw].
    destruct (List.find (λ n, id n =? id0) (notification w)) as [n|] eqn:E.
    + split; [done|]. apply find_some in E as [Hn Hi].
      apply list_elem_of_In in Hn. apply Z.eqb_eq in Hi. by exists n.
    + right. split_and!; try done. by apply find_id_None.
  - left. by split_and!.
Qed.

(** X12 — A created notification is in the feed of its user.  The
    record returned is [UNREAD], carries the next id and the time of the
    call, and the feed of the user afterwards is made of it and of what
    the feed held before; the feed of any other user is what it was. *)
Theorem prisma_created_is_in_the_feed
    (w : World) (msg : string) (u u' : Z) (now : Z) :
  ∃ w1 l w2 l' w3,
    createNotification msg u now w
    = (Ok (mkNotification (next_id w) u msg "UNREAD" now), w1)
    ∧ getNotificationsForUser u' w = (Ok l, w2)
    ∧ getNotificationsForUser u' w1 = (Ok l', w3)
    ∧ ∀ n, n ∈ l' ↔ n ∈ l ∨ (u' = u ∧ n = mkNotification (next_id w) u msg "UNREAD" now).
Proof.
  set (new := mkNotification (next_id w) u msg "UNREAD" now).
  set (w1 := mkWorld (notification w ++ [new]) (next_id w + 1) (log w ++ [Create new])).
  destruct (PrismaFacts.getNotificationsForUser_spec w u') as (l & w2 & Hl & _ & Hin).
  destruct (PrismaFacts.getNotificationsForUser_spec w1 u') as (l' & w3 & Hl' & _ & Hin').
  exists w1, l, w2, l', w3. split; [reflexivity|]. split; [exact Hl|].
  split; [exact Hl'|].
  intros n. rewrite Hin, Hin'. subst w1 new. cbn [notification].
  rewrite elem_of_app, list_elem_of_singleton. split.
  - intros ([Hn| ->] & Hu & Hs); [by left|]. right. simpl in Hu. done.
  - intros [(Hn & Hu & Hs)|[-> ->]]; [by split_and!; [left|..]|].
    split_and!; [by right|done|done].
Qed.

Lemma prisma_key_unique (tbl : list Notification) (a b : Notification) :
  NoDup (id <$> tbl) → a ∈ tbl → b ∈ tbl → id a = id b → a = b.
Proof.
  intros Hnd [i Hi]%list_elem_of_lookup [j Hj]%list_elem_of_lookup E.
  assert (i = j) as ->.
  { eapply NoDup_lookup; [exact Hnd| |].
    - by rewrite list_lookup_fmap, Hi.
    - rewrite list_lookup_fmap, Hj. simpl. by rewrite E. }
  congruence.
Qed.

(** X13 — A state change and the feed, in the Prisma resolvers.  After
    a successful update of a record, the feed of its user shows it with
    the new state exactly when that state is not [DISMISSED], shows no
    other record with its id, and shows the records with other ids as
    before.  The ids are distinct. *)
Theorem prisma_update_and_feed
    (w : World) (n : Notification) (st : string) :
  NoDup (id <$> notification w) → n ∈ notification w →
  st ∈ NotificationState.values →
  ∃ w1 l w2 l' w3,
    updateUserNotification (id n) st w = (Ok (with_state st n), w1)
    ∧ getNotificationsForUser (userId n) w = (Ok l, w2)
    ∧ getNotificationsForUser (userId n) w1 = (Ok l', w3)
    ∧ (with_state st n ∈ l' ↔ st ≠ "DISMISSED")
    ∧ (∀ x, x ∈ l' → id x = id n → x = with_state st n)
    ∧ (∀ x, id x ≠ id n → (x ∈ l' ↔ x ∈ l)).
Proof.
  intros Hnd Hn Hst.
  destruct (PrismaFacts.find_id_Some _ _ _ Hn eq_refl) as (n0 & Hf & Hid & Hn0).
  assert (n0 = n) as -> by (by eapply prisma_key_unique).
  pose proof (PrismaFacts.prisma_update_run w (id n) st n Hf) as Hrun.
  assert (updateUserNotification (id n) st w = prisma_update (id n) st w) as Hup.
  { unfold updateUserNotification. by rewrite bool_decide_eq_true_2. }
  rewrite <- Hup in Hrun.
  match type of Hrun with _ = (_, ?w') => set (w1 := w') in * end.
  destruct (PrismaFacts.getNotificationsForUser_spec w (userId n))
    as (l & w2 & Hl & _ & Hin).
  destruct (PrismaFacts.getNotificationsForUser_spec w1 (userId n))
    as (l' & w3 & Hl' & _ & Hin').
  exists w1, l, w2, l', w3. split_and!; try done.
  - rewrite Hin'. subst w1. cbn [notification]. split.
    + intros (_ & _ & H). exact H.
    + intros H. split_and!; [|done|exact H].
      change (map ?f ?l) with (f <$> l). apply list_elem_of_fmap. exists n.
      by rewrite Z.eqb_refl.
  - intros x (Hx & _)%Hin' Hi. subst w1. cbn [notification] in Hx.
    change (map ?f ?l) with (f <$> l) in Hx.
    apply list_elem_of_fmap in Hx as (r & -> & Hr).
    destruct (id r =? id n) eqn:E.
    + apply Z.eqb_eq in E. by rewrite (prisma_key_unique _ r n Hnd Hr Hn E).
    + apply Z.eqb_neq in E. done.
  - intros x Hx. rewrite Hin, Hin'. subst w1. cbn [notification].
    change (map ?f ?l) with (f <$> l). rewrite list_elem_of_fmap. split.
    + intros ((r & -> & Hr) & Hu & Hs). destruct (id r =? id n) eqn:E.
      * apply Z.eqb_eq in E. done.
      * done.
    + intros (Hxin & Hu & Hs). split_and!; try done. exists x.
      by rewrite (proj2 (Z.eqb_neq _ _)).
Qed.

Lemma prisma_update_and_feed_witness :
  NoDup (id <$> notification Samples.prisma_three)
  ∧ mkNotification 3 1 "third" "UNREAD" (Samples.t0 + 2)
    ∈ notification Samples.prisma_three
  ∧ "DISMISSED" ∈ NotificationState.values
  ∧ ∃ w1 l w2 l' w3,
      updateUserNotification 3 "DISMISSED" Samples.prisma_three
      = (Ok (mkNotification 3 1 "third" "DISMISSED" (Samples.t0 + 2)), w1)
      ∧ getNotificationsForUser 1 Samples.prisma_three = (Ok l, w2)
      ∧ getNotificationsForUser 1 w1 = (Ok l', w3)
      ∧ (mkNotification 3 1 "third" "DISMISSED" (Samples.t0 + 2) ∈ l'
         ↔ "DISMISSED" ≠ "DISMISSED")
      ∧ (∀ x, x ∈ l' → id x = 3 →
              x = mkNotification 3 1 "third" "DISMISSED" (Samples.t0 + 2))
      ∧ (∀ x, id x ≠ 3 → (x ∈ l' ↔ x ∈ l)).
Proof.
  assert (NoDup (id <$> notification Samples.prisma_three)) as H1
    by (apply (bool_decide_unpack _); by vm_compute).
  assert (mkNotification 3 1 "third" "UNREAD" (Samples.t0 + 2)
          ∈ notification Samples.prisma_three) as H2
    by (apply (bool_decide_unpack _); by vm_compute).
  assert ("DISMISSED" ∈ NotificationState.values) as H3
    by (apply (bool_decide_unpack _); by vm_compute).
  split_and!; [exact H1|exact H2|exact H3|].
  exact (prisma_update_and_feed Samples.prisma_three
           (mkNotification 3 1 "third" "UNREAD" (Samples.t0 + 2)) "DISMISSED" H1 H2 H3).
Defined.

End PrismaMoreFacts.

(** ** More on the in-memory [server.js] and its client *)

Module InMemoryMoreFacts.
Import InMemory InMemoryJob InMemoryNotions.

Lemma Map_get_None {V} (k : string) (m : list (string * V)) :
  Map_get k m = None ↔ k ∉ map fst m.
Proof.
  induction m as [|[k1 v1] m IH]; simpl.
  - split; [intros _; apply not_elem_of_nil|done].
  - rewrite not_elem_of_cons. destruct (String.eqb k1 k) eqn:E.
    + apply String.eqb_eq in E. split; [done|]. intros [? _]. congruence.
    + apply String.eqb_neq in E. rewrite IH. split; [intros; split; congruence|tauto].
Qed.

Lemma Map_get_Some {V} (k : string) (m : list (string * V)) (v : V) :
  NoDup (map fst m) → (Map_get k m = Some v ↔ (k, v) ∈ m).
Proof.
  induction m as [|[k1 v1] m IH]; simpl; intros Hnd.
  - split; [done|]. by intros ?%elem_of_nil.
  - apply NoDup_cons in Hnd as [Hk1 Hnd]. rewrite elem_of_cons.
    destruct (String.eqb k1 k) eqn:E.
    + apply String.eqb_eq in E. subst k1. split.
      * intros ?. simplify_eq. by left.
      * intros [?|Hin]; [by simplify_eq|]. exfalso. apply Hk1.
        change (map fst m) with (fst <$> m). apply list_elem_of_fmap.
        by exists (k, v).
    + apply String.eqb_neq in E. rewrite IH by done. split; [by right|].
      intros [?|?]; [by simplify_eq|done].
Qed.

Lemma fst_Map_set {V} (k : string) (v : V) (m : list (string * V)) :
  map fst (Map_set k v m)
  = if bool_decide (k ∈ map fst m) then map fst m else map fst m ++ [k].
Proof.
  induction m as [|[k1 v1] m IH]; cbn [Map_set map fst].
  - by rewrite bool_decide_eq_false_2 by apply not_elem_of_nil.
  - destruct (String.eqb k1 k) eqn:E.
    + apply String.eqb_eq in E. subst. cbn [map fst].
      by rewrite bool_decide_eq_true_2 by apply list_elem_of_here.
    + apply String.eqb_neq in E. cbn [map fst]. rewrite IH.
      case_bool_decide as H.
      * by rewrite bool_decide_eq_true_2 by (by apply list_elem_of_further).
      * rewrite bool_decide_eq_false_2; [done|].
        rewrite not_elem_of_cons. split; congruence.
Qed.

Lemma keyed_Map_set (k : string) (v : Notification) (m : list (string * Notification)) :
  k = id v → keyed m → keyed (Map_set k v m).
Proof.
  intros Hk [Hnd Hid]. split.
  - rewrite fst_Map_set. case_bool_decide as H; [done|].
    apply NoDup_app. split_and!; [done| |apply NoDup_singleton].
    intros x Hx ->%list_elem_of_singleton. done.
  - clear Hnd. induction m as [|[k1 v1] m IH]; simpl.
    + by repeat constructor.
    + apply Forall_cons in Hid as [H1 Hid].
      destruct (String.eqb k1 k); constructor; auto.
Qed.

(** The entries of [m] that the sweep over [l] deletes: those whose key
    is the key of an entry of [l] that is too old. *)
Lemma sweep_fold (cut : Z) (l acc : list (string * Notification)) :
  foldl (λ acc kv, if expired cut kv.2 then Map_delete kv.1 acc else acc) acc l
  = List.filter
      (λ kv, negb (existsb (λ kv', expired cut kv'.2 && String.eqb kv.1 kv'.1) l))
      acc.
Proof.
  revert acc. induction l as [|x l IH]; intros acc; cbn [foldl existsb].
  - induction acc as [|a acc IHa]; [done|]. simpl. by f_equal.
  - rewrite IH. destruct (expired cut x.2) eqn:E; cbn [andb].
    + unfold Map_delete. rewrite <- PgFacts.filter_filter_andb.
      apply filter_ext. intros kv. by rewrite negb_orb.
    + done.
Qed.

Lemma sweep_filter (cut : Z) (m : list (string * Notification)) :
  NoDup (map fst m) →
  sweep cut m = List.filter (λ kv, negb (expired cut kv.2)) m.
Proof.
  intros Hnd. unfold sweep. rewrite sweep_fold.
  apply filter_ext_in. intros kv Hkv%list_elem_of_In. f_equal.
  destruct (expired cut kv.2) eqn:E.
  - apply existsb_exists. exists kv. split; [by apply list_elem_of_In|].
    by rewrite E, String.eqb_refl.
  - apply not_true_is_false. intros (kv' & Hkv' & H)%existsb_exists.
    apply list_elem_of_In in Hkv'. apply andb_prop in H as [H1 H2].
    apply String.eqb_eq in H2.
    assert (kv = kv') as <-; [|congruence].
    destruct kv as [k v], kv' as [k' v']. simpl in H2. subst k'. f_equal.
    apply (Map_get_Some k m v) in Hkv; [|done].
    apply (Map_get_Some k m v') in Hkv'; [|done]. congruence.
Qed.

Lemma keyed_filter (p : string * Notification → bool) (m : list (string * Notification)) :
  keyed m → keyed (List.filter p m).
Proof.
  intros [Hnd Hid]. split; [|by apply PgFacts.Forall_filter_sub].
  clear Hid. induction m as [|x m IH]; [done|]. simpl in *.
  apply NoDup_cons in Hnd as [Hx Hnd]. destruct (p x); [|by apply IH].
  simpl. apply NoDup_cons. split; [|by apply IH].
  intros (y & Hy & [Hin _]%PgFacts.elem_of_filter)%list_elem_of_fmap.
  apply Hx. change (map fst m) with (fst <$> m). apply list_elem_of_fmap. by exists y.
Qed.

(** X14 — The map of the in-memory server stays keyed by id: if the
    keys are distinct and every notification is stored under its id,
    this is still so after a creation, after an update (successful or
    not) and after the daily sweep, in whatever time zone the host is. *)
Theorem map_stays_keyed (w : World) :
  keyed (notifications w) →
  (∀ u msg now, keyed (notifications (createNotification u msg now w).2))
  ∧ (∀ id0 st, keyed (notifications (updateUserNotification id0 st w).2))
  ∧ (∀ tz now, keyed (notifications (cleanup tz now w).2)).
Proof.
  intros Hk. split_and!.
  - intros u msg now. by apply keyed_Map_set.
  - intros id0 st. unfold updateUserNotification.
    cbv [mbind M_bind bind gets modify ret mret M_ret throw].
    destruct (Map_get id0 (notifications w)) as [n|] eqn:E; [|done].
    cbn [snd notifications]. apply keyed_Map_set; [|done].
    destruct Hk as [Hnd Hid]. apply Map_get_Some in E; [|done].
    eapply Forall_forall in Hid; [|exact E]. done.
  - intros tz now. unfold cleanup. cbv [modify]. cbn [snd notifications].
    rewrite sweep_filter by apply Hk. by apply keyed_filter.
Qed.

(** X15 — The daily sweep of the in-memory server removes the
    notifications created before the cutoff of the run and keeps the
    others in their order.  The cutoff is the instant at which the clock
    on the wall of the host showed the time of the run seven calendar
    days earlier, [ISODate.daysAgo tz now 7]: seven times 24 hours before
    the run when the offset of the zone is the same at both ends, an hour
    more or less across a change of the offset.  For a notification
    whose [createdAt] is the print of the instant [t], as
    [createNotification] stores it: it is in the map after the sweep
    exactly when it was there before and [t] is not earlier than the
    cutoff. *)
Theorem memory_sweep
    (tz : ISODate.TimeZone) (w : World) (now t : Z) (k : string) (n : Notification) :
  keyed (notifications w) →
  ISODate.valid_time t → createdAt n = ISODate.toISOString t →
  notifications (cleanup tz now w).2
  = List.filter (λ kv, negb (expired (ISODate.daysAgo tz now 7) kv.2)) (notifications w)
  ∧ subscribers (cleanup tz now w).2 = subscribers w
  ∧ ((k, n) ∈ notifications (cleanup tz now w).2
     ↔ (k, n) ∈ notifications w ∧ ISODate.daysAgo tz now 7 ≤ t)
  ∧ ((∀ x b, ISODate.LocalTZA tz x b = ISODate.LocalTZA tz now true) →
     ISODate.daysAgo tz now 7 = now - 7 * ISODate.msPerDay).
Proof.
  intros [Hnd _] Ht Hc. unfold cleanup. cbv [modify]. cbn [snd notifications subscribers].
  rewrite sweep_filter by done. split; [done|]. split; [done|]. split.
  - rewrite PgFacts.elem_of_filter. cbn [snd]. unfold expired.
    rewrite Hc, ISODateFacts.Date_parse_toISOString by done.
    by rewrite negb_true_iff, Z.ltb_ge.
  - intros Hz. unfold ISODate.daysAgo, ISODate.UTC, ISODate.LocalTime.
    rewrite (Hz _ false). lia.
Qed.

(** X16 — Ids are the millisecond of the creation: a second creation
    in the same millisecond replaces the first.  After two creations at
    the same instant the map holds the second notification under the
    common id and has as many entries as after the first, and the first
    notification, if it differs from the second, is in the feed of no
    user.  The map is keyed by id. *)
Theorem same_millisecond_overwrites
    (w : World) (u1 msg1 u2 msg2 u : string) (now : Z) :
  keyed (notifications w) →
  ∃ n1 w1 n2 w2 l w3,
    createNotification u1 msg1 now w = (Ok n1, w1)
    ∧ createNotification u2 msg2 now w1 = (Ok n2, w2)
    ∧ id n1 = id n2
    ∧ Map_get (id n1) (notifications w2) = Some n2
    ∧ length (notifications w2) = length (notifications w1)
    ∧ getNotificationsForUser u w2 = (Ok l, w3)
    ∧ (n1 ≠ n2 → n1 ∉ l).
Proof.
  intros Hk.
  pose proof (InMemoryFacts.memory_createNotification_run w u1 msg1 now) as H1.
  cbv zeta in H1.
  match type of H1 with _ = (Ok ?n, ?w') => set (n1 := n) in *; set (w1 := w') in * end.
  pose proof (InMemoryFacts.memory_createNotification_run w1 u2 msg2 now) as H2.
  cbv zeta in H2.
  match type of H2 with _ = (Ok ?n, ?w') => set (n2 := n) in *; set (w2 := w') in * end.
  assert (keyed (notifications w1)) as Hk1 by (by apply keyed_Map_set).
  exists n1, w1, n2, w2. eexists _, _. split; [exact H1|]. split; [exact H2|].
  split; [done|]. split; [apply InMemoryFacts.Map_get_set|]. split.
  { subst w2. cbn [notifications]. eapply InMemoryFacts.length_Map_set.
    apply InMemoryFacts.Map_get_set. }
  split; [reflexivity|].
  intros Hne Hin. apply PgFacts.elem_of_filter in Hin as [Hin _].
  unfold Map_values in Hin. change (map ?f ?l) with (f <$> l) in Hin.
  apply list_elem_of_fmap in Hin as ([k v] & Hv & Hkv). simpl in Hv. subst v.
  assert (keyed (notifications w2)) as [Hnd2 Hid2] by (by apply keyed_Map_set).
  eapply Forall_forall in Hid2; [|exact Hkv]. simpl in Hid2. subst k.
  apply Map_get_Some in Hkv; [|done].
  subst w2. cbn [notifications] in Hkv.
  change (id n1) with (pretty now) in Hkv.
  rewrite InMemoryFacts.Map_get_set in Hkv. by simplify_eq.
Qed.

Lemma filter_id_ne (id0 : string) (l : list Notification) :
  Forall (λ n, id n ≠ id0) l →
  List.filter (λ n, negb (String.eqb (id n) id0)) l = l.
Proof.
  induction 1 as [|x l Hx _ IH]; [done|]. simpl.
  rewrite (proj2 (String.eqb_neq _ _)) by done. simpl. by f_equal.
Qed.

Lemma dismiss_values (u id0 : string) (n0 : Notification)
    (m : list (string * Notification)) :
  keyed m → Map_get id0 m = Some n0 →
  List.filter (λ note, String.eqb (userId note) u
                       && negb (String.eqb (state_name (state note)) "DISMISSED"))
    (Map_values (Map_set id0 (with_state DISMISSED n0) m))
  = List.filter (λ n, negb (String.eqb (id n) id0))
      (List.filter (λ note, String.eqb (userId note) u
                            && negb (String.eqb (state_name (state note)) "DISMISSED"))
         (Map_values m)).
Proof.
  intros [Hnd Hid]. induction m as [|[k1 v1] m IH]; [done|]. intros Hget.
  simpl in Hnd. apply NoDup_cons in Hnd as [Hk1 Hnd].
  apply Forall_cons in Hid as [H1 Hid]. simpl in H1. subst k1.
  cbn [Map_get Map_set] in *. destruct (String.eqb (id v1) id0) eqn:E.
  - apply String.eqb_eq in E. simplify_eq. cbn [Map_values map snd List.filter].
    cbn [with_state state userId state_name]. rewrite String.eqb_refl, andb_false_r.
    assert (Forall (λ n, id n ≠ id n0) (Map_values m)) as Hne.
    { apply Forall_forall. intros n Hn E. unfold Map_values in Hn.
      change (map ?f ?l) with (f <$> l) in Hn.
      apply list_elem_of_fmap in Hn as ([k v] & -> & Hkv).
      eapply Forall_forall in Hid; [|exact Hkv]. simpl in *. subst k.
      apply Hk1. change (map fst m) with (fst <$> m). apply list_elem_of_fmap.
      exists (id v, v). by split. }
    destruct (String.eqb (userId n0) u
              && negb (String.eqb (state_name (state n0)) "DISMISSED")).
    + cbn [List.filter]. rewrite String.eqb_refl. cbn [negb].
      symmetry. apply filter_id_ne. by apply PgFacts.Forall_filter_sub.
    + symmetry. apply filter_id_ne. by apply PgFacts.Forall_filter_sub.
  - cbn [Map_values map snd List.filter]. fold (Map_values m).
    fold (Map_values (Map_set id0 (with_state DISMISSED n0) m)).
    rewrite IH by done.
    destruct (String.eqb (userId v1) u
              && negb (String.eqb (state_name (state v1)) "DISMISSED")); [|done].
    cbn [List.filter]. by rewrite E.
Qed.

(** X17 — Dismissing in the client of the in-memory server.  When the
    list on screen is the feed of a user and the notification is in the
    map, [handleDismiss] leaves on screen the list that the server would
    now return for that user: the former list without the notification
    dismissed.  When no notification has the id, the mutation fails and
    the server keeps its state. *)
Theorem dismiss_keeps_the_screen_in_step
    (w w0 : World) (u id0 : string) (prev : list Notification) :
  keyed (notifications w) →
  getNotificationsForUser u w = (Ok prev, w0) →
  match Map_get id0 (notifications w) with
  | Some n0 =>
      ∃ prev' w1 w2,
        FrontendApp.handleDismiss id0 prev w = (Ok prev', w1)
        ∧ getNotificationsForUser u w1 = (Ok prev', w2)
        ∧ Map_get id0 (notifications w1) = Some (with_state DISMISSED n0)
        ∧ ∀ n, n ∈ prev' ↔ n ∈ prev ∧ id n ≠ id0
  | None => FrontendApp.handleDismiss id0 prev w = (Throw NotFound, w)
  end.
Proof.
  intros Hk Hfeed. destruct (Map_get id0 (notifications w)) as [n0|] eqn:Hget.
  - unfold FrontendApp.handleDismiss. cbv [mbind M_bind bind].
    rewrite (InMemoryFacts.memory_updateUserNotification_run w id0 DISMISSED n0 Hget).
    cbv [ret mret M_ret]. eexists _, _, _. split; [reflexivity|].
    revert Hfeed. unfold getNotificationsForUser.
    cbv [mbind M_bind bind gets ret mret M_ret]. cbn [notifications].
    intros Hfeed. simplify_eq. split_and!.
    + by rewrite (dismiss_values u id0 n0).
    + apply InMemoryFacts.Map_get_set.
    + intros n. rewrite PgFacts.elem_of_filter, negb_true_iff, String.eqb_neq. done.
  - unfold FrontendApp.handleDismiss, updateUserNotification.
    cbv [mbind M_bind bind gets modify ret mret M_ret throw]. by rewrite Hget.
Qed.

Lemma keyed_memory_one : keyed (notifications Samples.memory_one).
Proof.
  split; [apply (bool_decide_unpack _); by vm_compute|].
  by repeat constructor.
Qed.

Lemma map_stays_keyed_witness :
  keyed (notifications Samples.memory_one)
  ∧ (∀ u msg now,
       keyed (notifications (createNotification u msg now Samples.memory_one).2))
  ∧ (∀ id0 st,
       keyed (notifications (updateUserNotification id0 st Samples.memory_one).2))
  ∧ (∀ tz now, keyed (notifications (cleanup tz now Samples.memory_one).2)).
Proof.
  split; [exact keyed_memory_one|].
  exact (map_stays_keyed Samples.memory_one keyed_memory_one).
Defined.

Lemma memory_sweep_witness :
  keyed (notifications Samples.memory_one)
  ∧ ISODate.valid_time Samples.t0
  ∧ createdAt (mkNotification "1700000000000" "alice" "hi" DISMISSED
                 "2023-11-14T22:13:20.000Z")
    = ISODate.toISOString Samples.t0
  ∧ notifications
      (cleanup ISODate.utc (Samples.t0 + 8 * ISODate.msPerDay) Samples.memory_one).2
    = List.filter
        (λ kv, negb (expired
                       (ISODate.daysAgo ISODate.utc
                          (Samples.t0 + 8 * ISODate.msPerDay) 7)
                       kv.2))
        (notifications Samples.memory_one)
  ∧ subscribers
      (cleanup ISODate.utc (Samples.t0 + 8 * ISODate.msPerDay) Samples.memory_one).2
    = subscribers Samples.memory_one
  ∧ (("1700000000000",
      mkNotification "1700000000000" "alice" "hi" DISMISSED "2023-11-14T22:13:20.000Z")
     ∈ notifications
         (cleanup ISODate.utc (Samples.t0 + 8 * ISODate.msPerDay)
            Samples.memory_one).2
     ↔ ("1700000000000",
        mkNotification "1700000000000" "alice" "hi" DISMISSED "2023-11-14T22:13:20.000Z")
       ∈ notifications Samples.memory_one
       ∧ ISODate.daysAgo ISODate.utc (Samples.t0 + 8 * ISODate.msPerDay) 7
         ≤ Samples.t0)
  ∧ ((∀ x b, ISODate.LocalTZA ISODate.utc x b
             = ISODate.LocalTZA ISODate.utc (Samples.t0 + 8 * ISODate.msPerDay) true) →
     ISODate.daysAgo ISODate.utc (Samples.t0 + 8 * ISODate.msPerDay) 7
     = Samples.t0 + 8 * ISODate.msPerDay - 7 * ISODate.msPerDay).
Proof.
  assert (ISODate.valid_time Samples.t0) as H2 by (split; by vm_compute).
  assert (createdAt (mkNotification "1700000000000" "alice" "hi" DISMISSED
                       "2023-11-14T22:13:20.000Z")
          = ISODate.toISOString Samples.t0) as H3 by (by vm_compute).
  split; [exact keyed_memory_one|]. split; [exact H2|]. split; [exact H3|].
  exact (memory_sweep ISODate.utc Samples.memory_one
           (Samples.t0 + 8 * ISODate.msPerDay) Samples.t0
           "1700000000000"
           (mkNotification "1700000000000" "alice" "hi" DISMISSED
              "2023-11-14T22:13:20.000Z")
           keyed_memory_one H2 H3).
Defined.

Lemma same_millisecond_overwrites_witness :
  keyed (notifications Samples.memory_one)
  ∧ ∃ n1 w1 n2 w2 l w3,
      createNotification "alice" "first" (Samples.t0 + 1) Samples.memory_one
      = (Ok n1, w1)
      ∧ createNotification "bob" "second" (Samples.t0 + 1) w1 = (Ok n2, w2)
      ∧ id n1 = id n2
      ∧ Map_get (id n1) (notifications w2) = Some n2
      ∧ length (notifications w2) = length (notifications w1)
      ∧ getNotificationsForUser "alice" w2 = (Ok l, w3)
      ∧ (n1 ≠ n2 → n1 ∉ l).
Proof.
  split; [exact keyed_memory_one|].
  exact (same_millisecond_overwrites Samples.memory_one "alice" "first" "bob" "second"
           "alice" (Samples.t0 + 1) keyed_memory_one).
Defined.

Lemma dismiss_keeps_the_screen_in_step_witness :
  keyed (notifications MoreSamples.memory_created)
  ∧ getNotificationsForUser "alice"
      MoreSamples.memory_created
    = (Ok [mkNotification "1700000000000" "alice" "hi" UNREAD "2023-11-14T22:13:20.000Z"],
       MoreSamples.memory_created)
  ∧ match Map_get "1700000000000"
            (notifications
               MoreSamples.memory_created) with
    | Some n0 =>
        ∃ prev' w1 w2,
          FrontendApp.handleDismiss "1700000000000"
            [mkNotification "1700000000000" "alice" "hi" UNREAD "2023-11-14T22:13:20.000Z"]
            MoreSamples.memory_created
          = (Ok prev', w1)
          ∧ getNotificationsForUser "alice" w1 = (Ok prev', w2)
          ∧ Map_get "1700000000000" (notifications w1) = Some (with_state DISMISSED n0)
          ∧ ∀ n, n ∈ prev'
                 ↔ n ∈ [mkNotification "1700000000000" "alice" "hi" UNREAD
                          "2023-11-14T22:13:20.000Z"]
                   ∧ id n ≠ "1700000000000"
    | None =>
        FrontendApp.handleDismiss "1700000000000"
          [mkNotification "1700000000000" "alice" "hi" UNREAD "2023-11-14T22:13:20.000Z"]
          MoreSamples.memory_created
        = (Throw NotFound,
           MoreSamples.memory_created)
    end.
Proof.
  assert (keyed (notifications
                   MoreSamples.memory_created))
    as H1.
  { split; [apply (bool_decide_unpack _); by vm_compute|].
    by repeat constructor. }
  assert (getNotificationsForUser "alice"
            MoreSamples.memory_created
          = (Ok [mkNotification "1700000000000" "alice" "hi" UNREAD
                   "2023-11-14T22:13:20.000Z"],
             MoreSamples.memory_created)) as H2
    by (by vm_compute).
  split; [exact H1|]. split; [exact H2|].
  exact (dismiss_keeps_the_screen_in_step _ _ "alice" "1700000000000" _ H1 H2).
Defined.


End InMemoryMoreFacts.

(** ** The paginating client against the JS sketch *)

Module FrontendFacts.
Import Scalable ScalableNotions Frontend FrontendNotions.

Lemma take_add {A} (n m : nat) (l : list A) :
  take (n + m) l = take n l ++ take m (drop n l).
Proof.
  revert l. induction n as [|n IH]; intros [|x l]; simpl; try done.
  - by rewrite take_nil.
  - by rewrite IH.
Qed.

Lemma cursor_bound_key (u : string) (cursor cursor' : option string)
    (before before' : option Z) :
  cacheKey u cursor' = cacheKey u cursor →
  cursor_bound cursor = Some before → cursor_bound cursor' = Some before' →
  before' = before.
Proof.
  unfold cacheKey, cursor_bound. intros E. do 3 apply String.app_inj in E.
  destruct (truthy cursor) as [c|], (truthy cursor') as [c'|]; simpl in E.
  - subst c'. congruence.
  - subst c. by vm_compute.
  - subst c'. by vm_compute.
  - congruence.
Qed.

(** A call with the page size of the client, on a cache that agrees with
    the table: from the cache or from the store, the page is the one the
    store gives, and the cache still agrees. *)
Lemma get_agrees (u : string) (cursor : option string) (before : option Z)
    (now : Z) (w : W) :
  cache_agrees u w → cursor_bound cursor = Some before →
  ∃ w',
    getNotificationsForUser u cursor (Some PAGE_SIZE) now w
    = (Ok (assemble PAGE_SIZE
             (take (Z.to_nat (PAGE_SIZE + 1)) (feed u before (table w)))), w')
    ∧ table w' = table w ∧ cache_agrees u w'.
Proof.
  intros Hc Hb.
  destruct (read_live (redis w) (cacheKey u cursor) now) as [c|] eqn:Hget.
  - rewrite (ScalableFacts.getNotificationsForUser_hit u cursor _ now w c Hget).
    unfold read_live in Hget.
    destruct (redis w !! cacheKey u cursor) as [e|] eqn:He; [|done].
    destruct (live now e); [|done]. simplify_eq.
    rewrite (Hc cursor before e He Hb). eexists. split; [reflexivity|]. by split.
  - destruct (ScalableFacts.getNotificationsForUser_miss u cursor (Some PAGE_SIZE)
                now w before Hget Hb) as (params & _ & Hrun); [by vm_compute|].
    change (default 20 (Some PAGE_SIZE)) with PAGE_SIZE in Hrun.
    cbv zeta in Hrun. rewrite Hrun.
    eexists. split; [reflexivity|]. split; [done|].
    intros cursor' before' e'. wsimpl. rewrite lookup_insert.
    case_decide as Hk.
    + intros He' Hb'. apply (inj Some) in He'. subst e'. cbn [payload].
      by rewrite (cursor_bound_key u cursor cursor' before before' (eq_sym Hk) Hb Hb').
    + intros He' Hb'. by apply (Hc cursor' before' e').
Qed.

(** What the client holds after some scrolling: the first [n] rows of
    the feed. *)
Lemma loadMore_step (u : string) (w : W) (data : Connection) (n : nat) (now : Z) :
  let F := feed u None (table w) in
  cache_agrees u w →
  NoDup (Pg.created_at <$> F) →
  Forall (λ r, ISODate.valid_time (Pg.created_at r)) F →
  (0 < n)%nat →
  edges data = map edgeOf (take n F) →
  hasNextPage (pageInfo data) = bool_decide (n < length F)%nat →
  endCursor (pageInfo data) = (λ r, ISODate.toISOString (Pg.created_at r)) <$> last (take n F) →
  ∃ data' w',
    loadMore u data now w = (Ok data', w')
    ∧ table w' = table w ∧ cache_agrees u w'
    ∧ edges data' = map edgeOf (take (n + 20) F)
    ∧ hasNextPage (pageInfo data') = bool_decide (n + 20 < length F)%nat
    ∧ endCursor (pageInfo data')
      = (λ r, ISODate.toISOString (Pg.created_at r)) <$> last (take (n + 20) F).
Proof.
  intros F Hc Hnd Hvalid Hn He Hnext Hcur. unfold loadMore. rewrite Hnext.
  case_bool_decide as Hlen; cbn [negb].
  - destruct (lookup_lt_is_Some_2 F (n - 1)) as [r Hr]; [lia|].
    assert (last (take n F) = Some r) as Hlast.
    { rewrite last_lookup, length_take.
      replace (Nat.pred (n `min` length F)) with (n - 1)%nat by lia.
      by rewrite lookup_take_lt by lia. }
    rewrite Hcur, Hlast. cbn [fmap option_fmap option_map].
    assert (ISODate.valid_time (Pg.created_at r)) as Hv.
    { eapply Forall_forall in Hvalid; [exact Hvalid|]. by eapply list_elem_of_lookup_2. }
    destruct (get_agrees u (Some (ISODate.toISOString (Pg.created_at r)))
                (Some (Pg.created_at r)) now w Hc
                (ScalableFacts.cursor_bound_toISOString _ Hv))
      as (w' & Hrun & Htbl & Hc').
    cbv [mbind M_bind bind]. rewrite Hrun. cbv [ret mret M_ret].
    rewrite (ScalableFacts.second_page_rows u (table w) (n - 1) r Hnd Hr).
    replace (S (n - 1)) with n by lia. fold F.
    destruct (ScalableFacts.assemble_take PAGE_SIZE (drop n F)) as [He2 Hn2];
      [by vm_compute|].
    cbv zeta in He2, Hn2.
    eexists _, w'. split; [reflexivity|]. split; [done|]. split; [done|].
    unfold merge. cbn [edges pageInfo]. rewrite He, He2.
    change (Z.to_nat PAGE_SIZE) with 20%nat.
    assert (take 20 (drop n F) ≠ []) as Hne.
    { intros E. apply (f_equal length) in E. rewrite length_take, length_drop in E.
      cbn [length] in E. lia. }
    split_and!.
    + change (map ?f ?l) with (f <$> l). by rewrite <- fmap_app, <- take_add.
    + rewrite Hn2, length_drop. unfold PAGE_SIZE.
      case_bool_decide; [apply Z.ltb_lt|apply Z.ltb_ge]; lia.
    + unfold assemble. cbn [pageInfo endCursor]. unfold slice0.
      change (0 <=? PAGE_SIZE) with true. cbv iota. rewrite take_take.
      change (Z.to_nat PAGE_SIZE `min` Z.to_nat (PAGE_SIZE + 1))%nat with 20%nat.
      rewrite ScalableFacts.lastCursor_edgeOf. rewrite take_add, last_app.
      destruct (last (take 20 (drop n F))) as [y|] eqn:Ey; [done|].
      by apply last_None in Ey.
  - cbv [ret mret M_ret]. exists data, w.
    rewrite !(take_ge F) by lia. rewrite (take_ge F) in He, Hcur by lia.
    split_and!; try done.
    by rewrite bool_decide_eq_false_2 by lia.
Qed.

Lemma loadMores_spec (u : string) (times : list Z) (w : W) (data : Connection) (n : nat) :
  let F := feed u None (table w) in
  cache_agrees u w →
  NoDup (Pg.created_at <$> F) →
  Forall (λ r, ISODate.valid_time (Pg.created_at r)) F →
  (0 < n)%nat →
  edges data = map edgeOf (take n F) →
  hasNextPage (pageInfo data) = bool_decide (n < length F)%nat →
  endCursor (pageInfo data) = (λ r, ISODate.toISOString (Pg.created_at r)) <$> last (take n F) →
  ∃ data' w',
    loadMores u data times w = (Ok data', w')
    ∧ table w' = table w
    ∧ edges data' = map edgeOf (take (n + 20 * length times) F)
    ∧ hasNextPage (pageInfo data') = bool_decide (n + 20 * length times < length F)%nat.
Proof.
  cbv zeta. revert w data n.
  induction times as [|t times IH]; intros w data n Hc Hnd Hvalid Hn He Hnext Hcur.
  - exists data, w. cbn [loadMores length]. rewrite Nat.mul_0_r, Nat.add_0_r.
    by split_and!.
  - destruct (loadMore_step u w data n t Hc Hnd Hvalid Hn He Hnext Hcur)
      as (data1 & w1 & Hrun & Htbl & Hc1 & He1 & Hn1 & Hcur1).
    cbn [loadMores]. cbv [mbind M_bind bind]. rewrite Hrun.
    rewrite <- Htbl in *.
    destruct (IH w1 data1 (n + 20)%nat Hc1 Hnd Hvalid ltac:(lia) He1 Hn1 Hcur1)
      as (data' & w' & Hrun' & Htbl' & He' & Hn').
    exists data', w'. cbn [length].
    replace (n + 20 * S (length times))%nat with (n + 20 + 20 * length times)%nat by lia.
    by split_and!.
Qed.

(** X18 — Scrolling shows the feed without gaps or repeats.  The
    client loads the first page and then calls [loadMore] any number of
    times against the JS sketch, with no write in between; the field it
    holds is then the first [20 * (k + 1)] rows of the user's feed after
    [k] calls — the whole feed once that is at least its length — each
    row once and newest first, and its [hasNextPage] tells whether the
    feed has more.  The cache starts empty, the creation times of the
    user's rows are distinct and in the years that [toISOString] prints
    with four digits. *)
Theorem scrolling_shows_the_feed (w : W) (u : string) (now : Z) (times : list Z) :
  redis w = ∅ →
  NoDup (Pg.created_at <$> feed u None (table w)) →
  Forall (λ r, ISODate.valid_time (Pg.created_at r)) (feed u None (table w)) →
  ∃ data w',
    scroll u now times w = (Ok data, w')
    ∧ table w' = table w
    ∧ edges data
      = map edgeOf (take (20 * (length times + 1)) (feed u None (table w)))
    ∧ hasNextPage (pageInfo data)
      = bool_decide (20 * (length times + 1) < length (feed u None (table w)))%nat.
Proof.
  intros Hempty Hnd Hvalid.
  assert (cache_agrees u w) as Hc.
  { intros cursor before e. by rewrite Hempty, lookup_empty. }
  destruct (get_agrees u None None now w Hc eq_refl) as (w1 & Hrun & Htbl & Hc1).
  destruct (ScalableFacts.assemble_take PAGE_SIZE (feed u None (table w)))
    as [He Hn]; [by vm_compute|]. cbv zeta in He, Hn.
  unfold scroll, firstLoad. cbv [mbind M_bind bind]. rewrite Hrun.
  cbv [ret mret M_ret].
  set (data := merge None _).
  destruct (loadMores_spec u times w1 data 20) as (data' & w' & Hrun' & Htbl' & He' & Hn').
  - exact Hc1.
  - by rewrite Htbl.
  - by rewrite Htbl.
  - lia.
  - rewrite Htbl. subst data. unfold merge. cbn [edges app]. exact He.
  - rewrite Htbl. subst data. unfold merge. cbn [pageInfo]. rewrite Hn.
    unfold PAGE_SIZE. case_bool_decide; [apply Z.ltb_lt|apply Z.ltb_ge]; lia.
  - rewrite Htbl. subst data. unfold merge, assemble. cbn [pageInfo endCursor].
    unfold slice0. change (0 <=? PAGE_SIZE) with true. cbv iota. rewrite take_take.
    change (Z.to_nat PAGE_SIZE `min` Z.to_nat (PAGE_SIZE + 1))%nat with 20%nat.
    apply ScalableFacts.lastCursor_edgeOf.
  - rewrite Htbl in *. exists data', w'.
    replace (20 * (length times + 1))%nat with (20 + 20 * length times)%nat by lia.
    by split_and!.
Qed.

Lemma scrolling_shows_the_feed_witness :
  redis Samples.scalable_twenty_five = ∅
  ∧ NoDup (Pg.created_at <$> feed "user123" None (table Samples.scalable_twenty_five))
  ∧ Forall (λ r, ISODate.valid_time (Pg.created_at r))
      (feed "user123" None (table Samples.scalable_twenty_five))
  ∧ ∃ data w',
      scroll "user123" Samples.t0 [Samples.t0 + 1000] Samples.scalable_twenty_five
      = (Ok data, w')
      ∧ table w' = table Samples.scalable_twenty_five
      ∧ edges data
        = map edgeOf (take (20 * (length [(Samples.t0 + 1000)%Z] + 1))
                        (feed "user123" None (table Samples.scalable_twenty_five)))
      ∧ hasNextPage (pageInfo data)
        = bool_decide (20 * (length [(Samples.t0 + 1000)%Z] + 1)
                       < length (feed "user123" None (table Samples.scalable_twenty_five)))%nat.
Proof.
  assert (NoDup (Pg.created_at <$> feed "user123" None (table Samples.scalable_twenty_five)))
    as H2 by (apply (bool_decide_unpack _); by vm_compute).
  assert (Forall (λ r, ISODate.valid_time (Pg.created_at r))
            (feed "user123" None (table Samples.scalable_twenty_five))) as H3.
  { apply ISODateFacts.Forall_valid_time. by vm_compute. }
  split_and!; [reflexivity|exact H2|exact H3|].
  exact (scrolling_shows_the_feed Samples.scalable_twenty_five "user123" Samples.t0
           [Samples.t0 + 1000] eq_refl H2 H3).
Defined.

End FrontendFacts.

Module FrontendListFacts.
Import Scalable Frontend.

Lemma existsb_id (i : Z) (l : list Node) :
  existsb (λ n, node_id n =? i) l = true ↔ i ∈ node_id <$> l.
Proof.
  rewrite existsb_exists, list_elem_of_fmap. split.
  - intros (n & Hn%list_elem_of_In & E%Z.eqb_eq). by exists n.
  - intros (n & -> & Hn). exists n. split; [by apply list_elem_of_In|apply Z.eqb_refl].
Qed.

Lemma NoDup_take {A} (n : nat) (l : list A) : NoDup l → NoDup (take n l).
Proof.
  intros H. pose proof (sublist_take l n). eauto using sublist_NoDup.
Qed.

(** X19 — The list of pushed notifications in the paginating client.
    [onData] keeps the ids on the list distinct and the list at 100
    entries at most; a notification whose id is new goes to the head,
    one whose id is on the list changes nothing, so that a push
    delivered twice shows once. *)
Theorem pushed_list_invariants (newNotification : Node) (prev : list Node) :
  NoDup (node_id <$> prev) → (length prev ≤ 100)%nat →
  NoDup (node_id <$> onData newNotification prev)
  ∧ (length (onData newNotification prev) ≤ 100)%nat
  ∧ (if bool_decide (node_id newNotification ∈ node_id <$> prev)
     then onData newNotification prev = prev
     else onData newNotification prev = newNotification :: take 99 prev)
  ∧ onData newNotification (onData newNotification prev) = onData newNotification prev.
Proof.
  intros Hnd Hlen.
  assert (if bool_decide (node_id newNotification ∈ node_id <$> prev)
          then onData newNotification prev = prev
          else onData newNotification prev = newNotification :: take 99 prev) as Hcases.
  { unfold onData.
    destruct (existsb (λ n, node_id n =? node_id newNotification) prev) eqn:E.
    - rewrite bool_decide_eq_true_2; [done|]. by apply existsb_id.
    - rewrite bool_decide_eq_false_2; [done|]. intros H%existsb_id. congruence. }
  case_bool_decide as Hin; rewrite !Hcases.
  - by split_and!.
  - split_and!; try done.
    + rewrite fmap_cons. apply NoDup_cons. split.
      * intros (n & Hn & Hin'%subseteq_take)%list_elem_of_fmap. apply Hin.
        apply list_elem_of_fmap. by exists n.
      * rewrite fmap_take. by apply NoDup_take.
    + cbn [length]. rewrite length_take. lia.
    + unfold onData. cbn [existsb]. by rewrite Z.eqb_refl.
Qed.

Lemma pushed_list_invariants_witness :
  NoDup (node_id <$> [mkNode 1 "user123" "hello" UNREAD "2023-11-14T22:13:20.001Z"])
  ∧ (length [mkNode 1 "user123" "hello" UNREAD "2023-11-14T22:13:20.001Z"] ≤ 100)%nat
  ∧ NoDup (node_id
           <$> onData (mkNode 2 "user123" "again" UNREAD "2023-11-14T22:13:20.002Z")
                 [mkNode 1 "user123" "hello" UNREAD "2023-11-14T22:13:20.001Z"])
  ∧ (length (onData (mkNode 2 "user123" "again" UNREAD "2023-11-14T22:13:20.002Z")
               [mkNode 1 "user123" "hello" UNREAD "2023-11-14T22:13:20.001Z"])
     ≤ 100)%nat
  ∧ (if bool_decide
          (node_id (mkNode 2 "user123" "again" UNREAD "2023-11-14T22:13:20.002Z")
           ∈ node_id <$> [mkNode 1 "user123" "hello" UNREAD "2023-11-14T22:13:20.001Z"])
     then onData (mkNode 2 "user123" "again" UNREAD "2023-11-14T22:13:20.002Z")
            [mkNode 1 "user123" "hello" UNREAD "2023-11-14T22:13:20.001Z"]
          = [mkNode 1 "user123" "hello" UNREAD "2023-11-14T22:13:20.001Z"]
     else onData (mkNode 2 "user123" "again" UNREAD "2023-11-14T22:13:20.002Z")
            [mkNode 1 "user123" "hello" UNREAD "2023-11-14T22:13:20.001Z"]
          = mkNode 2 "user123" "again" UNREAD "2023-11-14T22:13:20.002Z"
            :: take 99 [mkNode 1 "user123" "hello" UNREAD "2023-11-14T22:13:20.001Z"])
  ∧ onData (mkNode 2 "user123" "again" UNREAD "2023-11-14T22:13:20.002Z")
      (onData (mkNode 2 "user123" "again" UNREAD "2023-11-14T22:13:20.002Z")
         [mkNode 1 "user123" "hello" UNREAD "2023-11-14T22:13:20.001Z"])
    = onData (mkNode 2 "user123" "again" UNREAD "2023-11-14T22:13:20.002Z")
        [mkNode 1 "user123" "hello" UNREAD "2023-11-14T22:13:20.001Z"].
Proof.
  assert (NoDup (node_id
                 <$> [mkNode 1 "user123" "hello" UNREAD "2023-11-14T22:13:20.001Z"]))
    as H1 by (apply (bool_decide_unpack _); by vm_compute).
  assert (length [mkNode 1 "user123" "hello" UNREAD "2023-11-14T22:13:20.001Z"]
          ≤ 100)%nat as H2 by (simpl; lia).
  split; [exact H1|]. split; [exact H2|].
  exact (pushed_list_invariants
           (mkNode 2 "user123" "again" UNREAD "2023-11-14T22:13:20.002Z")
           [mkNode 1 "user123" "hello" UNREAD "2023-11-14T22:13:20.001Z"] H1 H2).
Defined.

End FrontendListFacts.

Module TypedCacheFacts.
Import Typed TypedNotions.

(** The call with a cursor that the store answers, in full. *)
Lemma cursor_miss_run (u c : string) (tc limit now : Z) (w : W) :
  read_live (redis w) (Database.cacheKey u (Some c)) now = None →
  truthy (Some c) = Some c →
  ISODate.Date_parse c = Some tc →
  0 ≤ limit →
  let rows := take (Z.to_nat limit) (feed u (Some tc) (table w)) in
  getNotificationsForUser u (Some c) (Some limit) now w
  = (Ok (mkConnection (map edgeOf rows)
           (mkPageInfo false (lastCursor (map edgeOf rows)))),
     mkWorld (table w) (next_id w)
       (<[Database.cacheKey u (Some c) :=
            mkEntry (map json (map Database.mapNotification rows)) (now + 300 * 1000)]>
          (redis w))
       (subscribers w)
       (log w ++ [RedisGet (Database.cacheKey u (Some c));
                  PgSelect [Pg.SqlText u; Pg.SqlText "DISMISSED";
                            Pg.SqlTimestamp (Some tc); Pg.SqlInt limit];
                  RedisSet (Database.cacheKey u (Some c)) 300])).
Proof.
  intros Hmiss Hc Ht Hlim. cbv zeta. unfold getNotificationsForUser.
  unfold Database.getNotificationsForUser. rewrite Hc.
  cbv [mbind M_bind bind redis_get emit modify gets ret mret M_ret]. wsimpl.
  rewrite Hmiss. cbv [pg_select mbind M_bind bind emit modify gets ret mret M_ret].
  wsimpl. unfold Pg.select. simpl. rewrite Ht. simpl.
  rewrite (proj2 (Z.leb_le _ _)) by done.
  cbv [redis_set mbind M_bind bind emit modify gets ret mret M_ret set_redis]. wsimpl.
  fold (feed u (Some tc) (table w)).
  set (rows := take (Z.to_nat limit) (feed u (Some tc) (table w))).
  assert (slice0 limit (map Database.mapNotification rows)
          = map Database.mapNotification rows) as ->.
  { unfold slice0. rewrite (proj2 (Z.leb_le _ _)) by done.
    apply take_ge. rewrite length_map. subst rows. rewrite length_take. lia. }
  rewrite TypedFacts.mapM_edges.
  assert ((limit <? Z.of_nat (length (map Database.mapNotification rows))) = false) as Hnext.
  { apply Z.ltb_ge. rewrite length_map. subst rows. rewrite length_take. lia. }
  rewrite Hnext. by rewrite <- !app_assoc.
Qed.

(** X20 — The second call in the TS sketch.  After a call with a cursor
    that the store answered, the same call made less than 300 seconds
    later finds the rows in the cache, where [createdAt] is a string: it
    throws a [TypeError] when the page of the first call had an edge,
    and returns that page when it had none.  The store is not asked. *)
Theorem second_call_finds_strings
    (u c : string) (tc limit t1 t2 : Z) (w : W) :
  read_live (redis w) (Database.cacheKey u (Some c)) t1 = None →
  c ≠ "" →
  ISODate.Date_parse c = Some tc →
  0 ≤ limit → t2 < t1 + 300 * 1000 →
  ∃ page w1,
    getNotificationsForUser u (Some c) (Some limit) t1 w = (Ok page, w1)
    ∧ edges page = map edgeOf (take (Z.to_nat limit) (feed u (Some tc) (table w)))
    ∧ getNotificationsForUser u (Some c) (Some limit) t2 w1
      = (match edges page with [] => Ok page | _ :: _ => Throw TypeError end,
         mkWorld (table w1) (next_id w1) (redis w1) (subscribers w1)
           (log w1 ++ [RedisGet (Database.cacheKey u (Some c))])).
Proof.
  intros Hmiss Hc Ht Hlim Ht2.
  assert (truthy (Some c) = Some c) as Htr by (by destruct c).
  pose proof (cursor_miss_run u c tc limit t1 w Hmiss Htr Ht Hlim) as Hrun.
  cbv zeta in Hrun.
  set (rows := take (Z.to_nat limit) (feed u (Some tc) (table w))) in *.
  match type of Hrun with _ = (Ok ?p, ?w') => exists p, w'; set (w1 := w') in * end.
  split; [exact Hrun|]. split; [done|]. cbn [edges].
  assert (read_live (redis w1) (Database.cacheKey u (Some c)) t2
          = Some (map json (map Database.mapNotification rows))) as Hhit.
  { subst w1. wsimpl. by apply read_live_insert. }
  unfold getNotificationsForUser, Database.getNotificationsForUser.
  cbv [mbind M_bind bind redis_get emit modify gets ret mret M_ret]. wsimpl.
  rewrite Hhit.
  destruct rows as [|row rows'] eqn:Erows.
  - cbn [map length]. unfold slice0. rewrite (proj2 (Z.leb_le _ _)) by done.
    rewrite take_nil. cbn [mapM]. cbv [ret mret M_ret]. unfold lastCursor.
    cbn [last fmap option_fmap option_map].
    by rewrite (proj2 (Z.ltb_ge _ _)) by (simpl; lia).
  - assert (0 < limit) as Hpos.
    { destruct (decide (limit = 0)) as [->|]; [|lia]. by subst rows. }
    cbn [map]. unfold slice0. rewrite (proj2 (Z.leb_le _ _)) by done.
    replace (Z.to_nat limit) with (S (Z.to_nat (limit - 1))) by lia.
    cbn [take mapM json Database.mapNotification createdAt].
    reflexivity.
Qed.

Lemma second_call_finds_strings_witness :
  read_live (redis Samples.typed_one) (Database.cacheKey "user123" (Some Samples.cursor5))
    (Samples.t0 + 10) = None
  ∧ Samples.cursor5 ≠ ""
  ∧ ISODate.Date_parse Samples.cursor5 = Some (Samples.t0 + 5)
  ∧ 0 ≤ 20
  ∧ Samples.t0 + 11 < Samples.t0 + 10 + 300 * 1000
  ∧ ∃ page w1,
      getNotificationsForUser "user123" (Some Samples.cursor5) (Some 20)
        (Samples.t0 + 10) Samples.typed_one = (Ok page, w1)
      ∧ edges page
        = map edgeOf (take (Z.to_nat 20)
                        (feed "user123" (Some (Samples.t0 + 5)) (table Samples.typed_one)))
      ∧ getNotificationsForUser "user123" (Some Samples.cursor5) (Some 20)
          (Samples.t0 + 11) w1
        = (match edges page with [] => Ok page | _ :: _ => Throw TypeError end,
           mkWorld (table w1) (next_id w1) (redis w1) (subscribers w1)
             (log w1 ++ [RedisGet (Database.cacheKey "user123" (Some Samples.cursor5))])).
Proof.
  assert (Samples.cursor5 ≠ "") as H2 by (by vm_compute).
  assert (ISODate.Date_parse Samples.cursor5 = Some (Samples.t0 + 5)) as H3
    by (by vm_compute).
  split_and!; [reflexivity|exact H2|exact H3|lia|lia|].
  exact (second_call_finds_strings "user123" Samples.cursor5 (Samples.t0 + 5) 20
           (Samples.t0 + 10) (Samples.t0 + 11) Samples.typed_one eq_refl H2 H3
           ltac:(lia) ltac:(lia)).
Defined.

End TypedCacheFacts.

Module ScalableUpdateFacts.
Import Scalable.

(** X21 — An update in the JS sketch changes the state of the rows with
    the id and nothing else in the table, whether it succeeds or not.
    The table has as many rows as before; every row it had is there
    again, as it was if its id is another one, and with the new state
    and its id, user, message and creation time if it has the id; and
    every row it has now comes from a row it had in one of these two
    ways.  The id sequence and the subscribers are what they were. *)
Theorem js_update_changes_the_state_only
    (w : W) (i : Z) (st : NotificationState) (now : Z) :
  let w' := (updateUserNotification i st now w).2 in
  length (table w') = length (table w)
  ∧ next_id w' = next_id w
  ∧ subscribers w' = subscribers w
  ∧ (∀ r, r ∈ table w → Pg.id r ≠ i → r ∈ table w')
  ∧ (∀ r, r ∈ table w → Pg.id r = i →
       Pg.mkRow i (Pg.user_id r) (Pg.message r) st (Pg.created_at r) ∈ table w')
  ∧ (∀ r', r' ∈ table w' →
       ∃ r, r ∈ table w
            ∧ (if Pg.id r =? i
               then r' = Pg.mkRow i (Pg.user_id r) (Pg.message r) st (Pg.created_at r)
               else r' = r)).
Proof.
  cbv zeta. rewrite ScalableFacts.updateUserNotification_run.
  assert (∀ w0 : W, table w0 = (Pg.update_state st i (table w)).2 →
            length (table w0) = length (table w)
            ∧ (∀ r, r ∈ table w → Pg.id r ≠ i → r ∈ table w0)
            ∧ (∀ r, r ∈ table w → Pg.id r = i →
                 Pg.mkRow i (Pg.user_id r) (Pg.message r) st (Pg.created_at r)
                 ∈ table w0)
            ∧ (∀ r', r' ∈ table w0 →
                 ∃ r, r ∈ table w
                      ∧ (if Pg.id r =? i
                         then r' = Pg.mkRow i (Pg.user_id r) (Pg.message r) st
                                     (Pg.created_at r)
                         else r' = r))) as Hframe.
  { intros w0 ->. unfold Pg.update_state. cbn [snd].
    change (map ?f ?l) with (f <$> l). split_and!.
    - by rewrite length_fmap.
    - intros r Hr Hne. apply list_elem_of_fmap. exists r.
      by rewrite (proj2 (Z.eqb_neq _ _)).
    - intros r Hr He. apply list_elem_of_fmap. exists r.
      rewrite (proj2 (Z.eqb_eq _ _)) by done. split; [|done].
      destruct r; simpl in *. by subst.
    - intros r' (r & -> & Hr)%list_elem_of_fmap. exists r. split; [done|].
      destruct (Pg.id r =? i) eqn:E; [|done].
      apply Z.eqb_eq in E. destruct r; simpl in *. by subst. }
  destruct (Pg.update_state st i (table w)).1 as [|row rows]; cbn [snd];
    (edestruct Hframe as (Hl & H1 & H2 & H3);
     [|split_and!; [exact Hl|..|exact H1|exact H2|exact H3]]; done).
Qed.

End ScalableUpdateFacts.

Module InMemoryFeedFacts.
Import InMemory InMemoryNotions.

Lemma Map_set_fresh {V} (k : string) (v : V) (m : list (string * V)) :
  Map_get k m = None → Map_set k v m = m ++ [(k, v)].
Proof.
  induction m as [|[k1 v1] m IH]; [done|]. simpl.
  destruct (String.eqb k1 k); [done|]. intros H. by rewrite IH.
Qed.

(** X22 — The feed of the in-memory server.  It returns the
    notifications of the user whose state is not [DISMISSED]; a
    notification created under an id that is not in the map is [UNREAD],
    stamped with the time of the call, and comes last in the feed of its
    user, the feeds of the other users being what they were. *)
Theorem memory_created_is_last_in_the_feed
    (w : World) (u u' msg : string) (now : Z) :
  Map_get (pretty now) (notifications w) = None →
  ∃ w1 l w2 l' w3,
    createNotification u msg now w
    = (Ok (mkNotification (pretty now) u msg UNREAD (ISODate.toISOString now)), w1)
    ∧ getNotificationsForUser u' w = (Ok l, w2)
    ∧ (∀ n, n ∈ l ↔ n ∈ Map_values (notifications w) ∧ userId n = u'
                     ∧ state n ≠ DISMISSED)
    ∧ getNotificationsForUser u' w1 = (Ok l', w3)
    ∧ l' = if decide (u' = u)
           then l ++ [mkNotification (pretty now) u msg UNREAD (ISODate.toISOString now)]
           else l.
Proof.
  intros Hfresh.
  pose proof (InMemoryFacts.memory_createNotification_run w u msg now) as Hrun.
  cbv zeta in Hrun. rewrite (Map_set_fresh _ _ _ Hfresh) in Hrun.
  eexists _, _, _, _, _. split; [exact Hrun|].
  unfold getNotificationsForUser. cbv [mbind M_bind bind gets ret mret M_ret].
  cbn [notifications]. split; [reflexivity|]. split.
  - intros n. rewrite PgFacts.elem_of_filter, andb_true_iff, negb_true_iff.
    rewrite String.eqb_eq, String.eqb_neq. split.
    + intros (? & ? & Hs). split_and!; try done. intros E. apply Hs. by rewrite E.
    + intros (? & ? & Hs). split_and!; try done. intros E. apply Hs.
      by apply ScalableFacts.state_name_inj.
  - split; [reflexivity|]. unfold Map_values. rewrite map_app, List.filter_app.
    cbn [map snd List.filter userId state state_name].
    destruct (decide (u' = u)) as [->|Hne].
    + by rewrite String.eqb_refl.
    + rewrite (proj2 (String.eqb_neq u u')) by done. cbn [andb]. by rewrite app_nil_r.
Qed.

Lemma memory_created_is_last_in_the_feed_witness :
  Map_get (pretty Samples.t0) (notifications Samples.memory_empty) = None
  ∧ ∃ w1 l w2 l' w3,
      createNotification "alice" "hi" Samples.t0 Samples.memory_empty
      = (Ok (mkNotification (pretty Samples.t0) "alice" "hi" UNREAD
               (ISODate.toISOString Samples.t0)), w1)
      ∧ getNotificationsForUser "alice" Samples.memory_empty = (Ok l, w2)
      ∧ (∀ n, n ∈ l ↔ n ∈ Map_values (notifications Samples.memory_empty)
                       ∧ userId n = "alice" ∧ state n ≠ DISMISSED)
      ∧ getNotificationsForUser "alice" w1 = (Ok l', w3)
      ∧ l' = if decide ("alice" = "alice")
             then l ++ [mkNotification (pretty Samples.t0) "alice" "hi" UNREAD
                          (ISODate.toISOString Samples.t0)]
             else l.
Proof.
  split; [reflexivity|].
  exact (memory_created_is_last_in_the_feed Samples.memory_empty "alice" "alice" "hi"
           Samples.t0 eq_refl).
Defined.

End InMemoryFeedFacts.

Module TypedCursorFacts.
Import Typed TypedNotions.



End TypedCursorFacts.

Module ScalableIsolationFacts.
Import Scalable.

(** X25 — Reads do not cross users.  Whatever a call of
    [getNotificationsForUser] for a user [u'] does — answer from the
    cache, fill the cache from the store, or fail — a [GET] of any page
    key of another user [u] answers afterwards what it answered before:
    the keys of two users never coincide.  The two user ids have no
    colon. *)
Theorem reads_do_not_cross_users
    (w : W) (u u' : string) (cursor cursor' : option string) (limit' : option Z)
    (t1 t2 : Z) :
  occurs ":" u = false → occurs ":" u' = false → u ≠ u' →
  cacheKey u cursor ≠ cacheKey u' cursor'
  ∧ read_live (redis (getNotificationsForUser u' cursor' limit' t1 w).2)
      (cacheKey u cursor) t2
    = read_live (redis w) (cacheKey u cursor) t2.
Proof.
  intros Hu Hu' Hne.
  assert (cacheKey u cursor ≠ cacheKey u' cursor') as Hk.
  { intros E. by apply GlobPrefixFacts.cacheKey_inj in E as [? _]. }
  split; [exact Hk|].
  unfold getNotificationsForUser. mrun.
  destruct (read_live (redis w) (cacheKey u' cursor') t1) as [c|]; [done|].
  wsimpl. destruct (Pg.select _ _ _) as [rows|]; wsimpl; [|done].
  by apply read_live_insert_ne.
Qed.

Lemma reads_do_not_cross_users_witness :
  occurs ":" "user123" = false ∧ occurs ":" "user456" = false
  ∧ "user123" ≠ "user456"
  ∧ cacheKey "user123" None ≠ cacheKey "user456" None
  ∧ read_live
      (redis (getNotificationsForUser "user456" None (Some 20) Samples.t0
                Samples.scalable_twenty_five).2)
      (cacheKey "user123" None) (Samples.t0 + 1)
    = read_live (redis Samples.scalable_twenty_five) (cacheKey "user123" None)
        (Samples.t0 + 1).
Proof.
  assert ("user123" ≠ "user456") as Hne by done.
  split_and!; [reflexivity|reflexivity|exact Hne|..];
    apply (reads_do_not_cross_users Samples.scalable_twenty_five "user123" "user456"
             None None (Some 20) Samples.t0 (Samples.t0 + 1) eq_refl eq_refl Hne).
Defined.

End ScalableIsolationFacts.
